(** * Resilience and reconciliation core of the M-Pesa client

    A shallow embedding of the retry engine ([core/mpesa/utils/retry.py]),
    the error taxonomy ([core/mpesa/utils/errors.py]), the two rate
    limiters ([core/mpesa/utils/ratelimiter.py]), the request executor
    ([MpesaClient.makeRequest]) and the STK callback engine
    ([core/mpesa/utils/callback.py]), followed by the properties the
    specification states about them.

    Python integers are [Z]; dictionaries keyed by strings are [gmap string _];
    exceptions are values of [exn] carried by [Raise]; coroutines are state
    transformers over an explicit world (clock, random draws, journal). *)

From Stdlib Require Import ZArith QArith Qround Lia.
From stdpp Require Import base option list gmap strings pretty.

Local Open Scope string_scope.
Local Open Scope list_scope.
Local Open Scope Z_scope.

(** ** Exceptions ([errors.py] and the built-in ones the code can raise)

    All of them are instances of [Exception], the class the [except] clauses
    of the source catch. *)

(** [details] of a rate-limit error is the dict of integers built by the
    limiters; the [details] of the other classes is never read by the code
    modelled here and is left out. *)
Inductive exn : Type :=
| MpesaError (message : string) (code : option string) (status_code : option Z)
| MpesaAuthError (message : string)
| MpesaValidationError (message : string)
| MpesaNetworkError (message : string) (is_retryable : bool)
| MpesaTimeoutError (message : string)
| MpesaRateLimitError (message : string) (retry_after : option Z)
                      (details : list (string * Z))
| MpesaApiError (message : string) (code : string) (status_code : Z)
| TypeError (message : string)
| ValueError (message : string)
| KeyError (key : string)
| AttributeError (message : string)
| OtherException (name : option string) (code : option string) (message : string).

Inductive result (A : Type) : Type :=
| Ok (a : A)
| Raise (e : exn).
Arguments Ok {A} a.
Arguments Raise {A} e.

(** Class names, as [type(error).__name__]. *)
Definition class_name (error : exn) : string :=
  match error with
  | MpesaError _ _ _ => "MpesaError"
  | MpesaAuthError _ => "MpesaAuthError"
  | MpesaValidationError _ => "MpesaValidationError"
  | MpesaNetworkError _ _ => "MpesaNetworkError"
  | MpesaTimeoutError _ => "MpesaTimeoutError"
  | MpesaRateLimitError _ _ _ => "MpesaRateLimitError"
  | MpesaApiError _ _ _ => "MpesaApiError"
  | TypeError _ => "TypeError"
  | ValueError _ => "ValueError"
  | KeyError _ => "KeyError"
  | AttributeError _ => "AttributeError"
  | OtherException _ _ _ => "Exception"
  end.

(** [isinstance(error, MpesaError)]: the base class and its six subclasses. *)
Definition is_MpesaError (error : exn) : bool :=
  match error with
  | MpesaError _ _ _ | MpesaAuthError _ | MpesaValidationError _
  | MpesaNetworkError _ _ | MpesaTimeoutError _ | MpesaRateLimitError _ _ _
  | MpesaApiError _ _ _ => true
  | _ => false
  end.

Definition is_MpesaNetworkError (error : exn) : bool :=
  match error with MpesaNetworkError _ _ => true | _ => false end.

Definition is_MpesaRateLimitError (error : exn) : bool :=
  match error with MpesaRateLimitError _ _ _ => true | _ => false end.

(** [getattr(error, "status_code", None)], as set by each constructor's
    [super().__init__] call. *)
Definition status_code (error : exn) : option Z :=
  match error with
  | MpesaError _ _ sc => sc
  | MpesaAuthError _ => Some 401
  | MpesaValidationError _ => Some 400
  | MpesaNetworkError _ _ => Some 503
  | MpesaTimeoutError _ => Some 408
  | MpesaRateLimitError _ _ _ => Some 429
  | MpesaApiError _ _ sc => Some sc
  | _ => None
  end.

(** [getattr(error, "code", None)]. *)
Definition code (error : exn) : option string :=
  match error with
  | MpesaError _ c _ => c
  | MpesaAuthError _ => Some "AUTH_ERROR"
  | MpesaValidationError _ => Some "VALIDATION_ERROR"
  | MpesaNetworkError _ _ => Some "NETWORK_ERROR"
  | MpesaTimeoutError _ => Some "TIMEOUT_ERROR"
  | MpesaRateLimitError _ _ _ => Some "RATE_LIMIT_ERROR"
  | MpesaApiError _ c _ => Some c
  | OtherException _ c _ => c
  | _ => None
  end.

(** [getattr(error, "name", None)]: no class of [errors.py] sets it. *)
Definition name (error : exn) : option string :=
  match error with
  | OtherException n _ _ => n
  | _ => None
  end.

(** [getattr(error, "retry_after", None)]. *)
Definition retry_after (error : exn) : option Z :=
  match error with
  | MpesaRateLimitError _ ra _ => ra
  | _ => None
  end.

(** Truth value of an optional integer: [None] and [0] are falsy. *)
Definition truthy (v : option Z) : bool :=
  match v with
  | Some z => negb (z =? 0)
  | None => false
  end.

(** Subscripting an exception instance, [error[...]]: no class in
    [errors.py] defines [__getitem__], so the expression raises. *)
Definition not_subscriptable (error : exn) : exn :=
  TypeError ("'" +:+ class_name error +:+ "' object is not subscriptable").

(** ** Error classifier ([retry.py], [isRetryableError]) *)

Definition isRetryableError (error : exn) (retryableStatusCodes : list Z)
  : result bool :=
  if is_MpesaNetworkError error then
    Ok (match error with MpesaNetworkError _ r => r | _ => false end)
  else if is_MpesaRateLimitError error then
    Ok true
  else if is_MpesaError error && truthy (status_code error) then
    (* return error["status_code"] in retryableStatusCodes *)
    Raise (not_subscriptable error)
  else if bool_decide (name error = Some "FetchError")
          || bool_decide (code error = Some "ECONNREFUSED")
          || bool_decide (code error = Some "ETIMEDOUT") then
    Ok true
  else
    Ok false.

(** The classifier the specification describes for status-carrying errors:
    membership of the status code in the retryable set. *)
Definition spec_status_retryable (error : exn) (retryableStatusCodes : list Z)
  : option bool :=
  match status_code error with
  | Some sc => Some (bool_decide (sc ∈ retryableStatusCodes))
  | None => None
  end.

Local Set Warnings "-register-all".

(** ** Decoded JSON values

    What [json.loads] hands to the code: [None], booleans, integers, floats
    (taken as rationals), strings, lists and dicts.  A dict is kept as the
    list of its items in order, each key occurring once. *)
Inductive json : Type :=
| JNull
| JBool (b : bool)
| JInt (z : Z)
| JFloat (q : Q)
| JStr (s : string)
| JList (items : list json)
| JObj (fields : list (string * json)).

(** [d.get(key)] on the items of a dict. *)
Fixpoint assoc {A} (key : string) (fields : list (string * A)) : option A :=
  match fields with
  | [] => None
  | (k, v) :: rest => if bool_decide (k = key) then Some v else assoc key rest
  end.

(** ** Parsed STK callback ([callback.py], [ParsedCallbackData])

    The four leading fields hold whatever the payload carried under their
    keys. *)
Record ParsedCallbackData : Type := mkParsed {
  merchant_request_id : json;
  checkout_request_id : json;
  result_code : json;
  result_description : json;
  amount : option Q;
  mpesa_receipt_number : option string;
  transaction_date : option string;
  phone_number : option string;
  is_success : bool;
  error_message : option string }.

Inductive handler_name : Type := OnCallback | OnSuccess | OnFailure.

(** ** Worlds and coroutines

    A coroutine of the source runs against a world: the wall clock read by
    [time.time()], the values [random.random()] will return, a journal of
    what the engine did (the observable effects the specification speaks
    about) and the state [X] owned by the caller's code. *)

Inductive event : Type :=
| EvAttempt (attempt : Z)                (* [await fn()] in iteration [attempt] *)
| EvOnRetry (error : exn) (attemptNumber : Z)
| EvSleep (ms : Z)                       (* [await asyncio.sleep(ms / 1000)] *)
| EvLog (level message : string)         (* [self.logger.<level>(message)] *)
| EvDuplicate (key : json) (answer : bool) (* what [is_duplicate] reported *)
| EvHandler (which : handler_name) (parsed : ParsedCallbackData).

Record World (X : Type) : Type := mkWorld {
  clock : Z;
  rng : nat → Q;
  draws : nat;
  journal : list event;
  user : X }.
Arguments mkWorld {X}.
Arguments clock {X}.
Arguments rng {X}.
Arguments draws {X}.
Arguments journal {X}.
Arguments user {X}.

Definition M (X A : Type) : Type := World X → result A * World X.

Definition ret {X A} (a : A) : M X A := λ w, (Ok a, w).
Definition raise {X A} (e : exn) : M X A := λ w, (Raise e, w).
Definition bind {X A B} (m : M X A) (k : A → M X B) : M X B :=
  λ w, match m w with
       | (Ok a, w') => k a w'
       | (Raise e, w') => (Raise e, w')
       end.
(** [try: m except Exception as e: h e] *)
Definition try_except {X A} (m : M X A) (h : exn → M X A) : M X A :=
  λ w, match m w with
       | (Ok a, w') => (Ok a, w')
       | (Raise e, w') => h e w'
       end.

Declare Scope coroutine_scope.
Delimit Scope coroutine_scope with co.
Notation "'let*' x ':=' m 'in' k" := (bind m (λ x, k))
  (at level 10, x name, m at level 100, k at level 200) : coroutine_scope.
Notation "m >>> k" := (bind m (λ _, k))
  (at level 100, k at level 200, right associativity) : coroutine_scope.

(** A pure computation that may raise, run inside a coroutine. *)
Definition lift {X A} (r : result A) : M X A := λ w, (r, w).

(** World updates. *)
Definition add_events {X} (evs : list event) (w : World X) : World X :=
  mkWorld (clock w) (rng w) (draws w) (journal w ++ evs) (user w).
Definition set_user {X} (x : X) (w : World X) : World X :=
  mkWorld (clock w) (rng w) (draws w) (journal w) x.
Definition advance {X} (ms : Z) (w : World X) : World X :=
  mkWorld (clock w + ms) (rng w) (draws w) (journal w) (user w).
Definition drawn {X} (w : World X) : World X :=
  mkWorld (clock w) (rng w) (S (draws w)) (journal w) (user w).

Definition log {X} (ev : event) : M X unit :=
  λ w, (Ok (), add_events [ev] w).

(** Code owned by the caller: it reads the clock and acts on its own state. *)
Definition Op (X T : Type) : Type := Z → X → result T * X.

Definition call {X T} (f : Op X T) : M X T :=
  λ w, let '(r, x) := f (clock w) (user w) in (r, set_user x w).

(** [await asyncio.sleep(ms / 1000)]: the coroutine resumes once [ms]
    milliseconds have passed; a non-positive delay resumes at once. *)
Definition sleep {X} (ms : Z) : M X unit :=
  λ w, (Ok (), add_events [EvSleep ms] (advance (Z.max 0 ms) w)).

(** [random.random()] *)
Definition random {X} : M X Q :=
  λ w, (Ok (rng w (draws w)), drawn w).

(** ** Retry engine ([retry.py]) *)

(** [RetryOptions] is a [TypedDict] with [total=False]: every key optional. *)
Record RetryOptions (X : Type) : Type := mkRetryOptions {
  o_maxRetries : option Z;
  o_initialDelayMs : option Z;
  o_maxDelayMs : option Z;
  o_backoffMultiplier : option Z;
  o_retryableStatusCodes : option (list Z);
  o_onRetry : option (exn → Z → Op X unit) }.
Arguments mkRetryOptions {X}.
Arguments o_maxRetries {X}.
Arguments o_initialDelayMs {X}.
Arguments o_maxDelayMs {X}.
Arguments o_backoffMultiplier {X}.
Arguments o_retryableStatusCodes {X}.
Arguments o_onRetry {X}.

(** The dict [opts] of [retryWithBackoff], with all six keys present. *)
Record Opts (X : Type) : Type := mkOpts {
  maxRetries : Z;
  initialDelayMs : Z;
  maxDelayMs : Z;
  backoffMultiplier : Z;
  retryableStatusCodes : list Z;
  onRetry : exn → Z → Op X unit }.
Arguments mkOpts {X}.
Arguments maxRetries {X}.
Arguments initialDelayMs {X}.
Arguments maxDelayMs {X}.
Arguments backoffMultiplier {X}.
Arguments retryableStatusCodes {X}.
Arguments onRetry {X}.

Definition _noop_on_retry {X} (error : exn) (attempt : Z) : Op X unit :=
  λ _ x, (Ok (), x).

Definition DEFAULT_RETRY_OPTIONS {X} : Opts X :=
  mkOpts 3 1000 10000 2 [408; 429; 500; 502; 503; 504] _noop_on_retry.

(** [{**DEFAULT_RETRY_OPTIONS, **(options or {})}] *)
Definition merge_options {X} (defaults : Opts X) (options : option (RetryOptions X))
  : Opts X :=
  match options with
  | None => defaults
  | Some o =>
      mkOpts (default (maxRetries defaults) (o_maxRetries o))
             (default (initialDelayMs defaults) (o_initialDelayMs o))
             (default (maxDelayMs defaults) (o_maxDelayMs o))
             (default (backoffMultiplier defaults) (o_backoffMultiplier o))
             (default (retryableStatusCodes defaults) (o_retryableStatusCodes o))
             (default (onRetry defaults) (o_onRetry o))
  end.

(** The backoff branch of [calculateDelay].  Python computes the jitter in
    binary floating point; here the same expression is evaluated over the
    rationals.  [attempt] is never negative at the call site. *)
Definition backoffDelay {X} (attempt : Z) (options : Opts X) (r : Q) : Z :=
  let delay := Z.min (initialDelayMs options * backoffMultiplier options ^ attempt)
                     (maxDelayMs options) in
  let jitter := (inject_Z delay * (2 # 10) * (r - (1 # 2)) * 2)%Q in
  Qfloor (inject_Z delay + jitter)%Q.

Definition calculateDelay {X} (attempt : Z) (options : Opts X) (error : option exn)
  : M X Z :=
  match error with
  | Some e =>
      if is_MpesaRateLimitError e && truthy (retry_after e) then
        (* return error["retry_after"] * 1000 *)
        raise (not_subscriptable e)
      else (let* r := random in ret (backoffDelay attempt options r))%co
  | None => (let* r := random in ret (backoffDelay attempt options r))%co
  end.

(** [range(n)] *)
Definition range (n : Z) : list Z := seqZ 0 n.

(** [raise last_error] after the loop. *)
Definition raise_last {X T} (last_error : option exn) : M X T :=
  match last_error with
  | Some e => raise e
  | None => raise (TypeError "exceptions must derive from BaseException")
  end.

(** The [for attempt in ...] loop of [retryWithBackoff], over the attempts
    still to come. *)
Fixpoint retry_for {X T} (fn : Op X T) (opts : Opts X) (attempts : list Z)
    (last_error : option exn) : M X T :=
  match attempts with
  | [] => raise_last last_error
  | attempt :: rest =>
      try_except (log (EvAttempt attempt) >>> call fn)%co
        (λ error,
          (let* retryable := lift (isRetryableError error (retryableStatusCodes opts)) in
           if negb retryable || (attempt =? maxRetries opts) then
             raise error
           else
             let* delay := calculateDelay attempt opts (Some error) in
             log (EvOnRetry error (attempt + 1)) >>>
             call (onRetry opts error (attempt + 1)) >>>
             sleep delay >>>
             retry_for fn opts rest (Some error))%co)
  end.

Definition retryWithBackoff {X T} (fn : Op X T) (options : option (RetryOptions X))
  : M X T :=
  let opts := merge_options DEFAULT_RETRY_OPTIONS options in
  retry_for fn opts (range (maxRetries opts + 1)) None.

(** Number of times the engine invoked the operation, read off a journal. *)
Definition is_attempt (ev : event) : bool :=
  match ev with EvAttempt _ => true | _ => false end.
Definition is_sleep (ev : event) : bool :=
  match ev with EvSleep _ => true | _ => false end.
Definition attempts_made (j : list event) : nat :=
  length (List.filter is_attempt j).
Definition sleeps_made (j : list event) : nat :=
  length (List.filter is_sleep j).

(** ** Local rate limiter ([ratelimiter.py], class [RateLimiter]) *)

Record RateLimiterOptions : Type := mkRateLimiterOptions {
  maxRequests : Z;
  windowMs : Z;
  keyPrefix : string }.

(** [{"keyPrefix": "mpesa", **options}] *)
Definition limiter_options (maxRequests windowMs : Z) (prefix : option string)
  : RateLimiterOptions :=
  mkRateLimiterOptions maxRequests windowMs (default "mpesa" prefix).

Record RateLimitEntry : Type := mkEntry {
  count : Z;
  resetAt : Z }.

(** [f"{prefix}:{key}"] *)
Definition full_key (options : RateLimiterOptions) (key : string) : string :=
  keyPrefix options +:+ ":" +:+ key.

Definition rate_limit_message (retry_after : Z) : string :=
  "Rate limit exceeded. Try again in " +:+ pretty retry_after +:+ " seconds.".

(** [RateLimiter.checkLimit]; [now] is [int(time.time() * 1000)]. *)
Definition checkLimit (options : RateLimiterOptions) (key : string)
    (now : Z) (store : gmap string RateLimitEntry)
  : result unit * gmap string RateLimitEntry :=
  let fk := full_key options key in
  match store !! fk with
  | None =>
      (Ok (), <[fk := mkEntry 1 (now + windowMs options)]> store)
  | Some entry =>
      if bool_decide (now >= resetAt entry) then
        (Ok (), <[fk := mkEntry 1 (now + windowMs options)]> store)
      else if bool_decide (count entry >= maxRequests options) then
        let retry_after := (resetAt entry - now + 999) / 1000 in
        (Raise (MpesaRateLimitError (rate_limit_message retry_after)
                  (Some retry_after)
                  [("limit", maxRequests options);
                   ("windowMs", windowMs options);
                   ("resetAt", resetAt entry)]),
         store)
      else
        (Ok (), <[fk := mkEntry (count entry + 1) (resetAt entry)]> store)
  end.

(** [RateLimiter.getUsage]: a read that leaves the store as it is. *)
Definition getUsage (options : RateLimiterOptions) (key : string)
    (now : Z) (store : gmap string RateLimitEntry) : Z * Z * Z :=
  match store !! full_key options key with
  | Some entry =>
      if bool_decide (now >= resetAt entry) then
        (0, maxRequests options, now + windowMs options)
      else
        (count entry, Z.max 0 (maxRequests options - count entry), resetAt entry)
  | None => (0, maxRequests options, now + windowMs options)
  end.

(** [RateLimiter.reset] *)
Definition reset (options : RateLimiterOptions) (key : string)
    (store : gmap string RateLimitEntry) : gmap string RateLimitEntry :=
  delete (full_key options key) store.

(** ** The external counter store ([RedisLike])

    The store is a collaborator reached through four calls.  It is modelled
    as a map from keys to integer counters, each with an optional expiry
    instant in milliseconds on the same clock as the process: a key is kept
    through the millisecond of its expiry and is gone once the clock has
    passed it, [incr] creates a missing key at 1 without expiry, [expire]
    sets the instant [seconds] from now and deletes the key when [seconds]
    is not positive, and [get] returns the counter (Python receives its
    decimal string, which is never empty, so [if ttl] holds exactly when the
    key exists). *)
Module Redis.
Record cell : Type := mkCell {
  value : Z;
  expireAt : option Z }.

Definition live (now : Z) (c : cell) : bool :=
  match expireAt c with
  | Some e => bool_decide (now <= e)
  | None => true
  end.

Definition find (now : Z) (key : string) (db : gmap string cell) : option cell :=
  match db !! key with
  | Some c => if live now c then Some c else None
  | None => None
  end.

Definition incr (now : Z) (key : string) (db : gmap string cell)
  : Z * gmap string cell :=
  match find now key db with
  | Some c => (value c + 1, <[key := mkCell (value c + 1) (expireAt c)]> db)
  | None => (1, <[key := mkCell 1 None]> db)
  end.

Definition expire (now : Z) (key : string) (seconds : Z) (db : gmap string cell)
  : gmap string cell :=
  match find now key db with
  | Some c =>
      if seconds <=? 0 then delete key db
      else <[key := mkCell (value c) (Some (now + seconds * 1000))]> db
  | None => db
  end.

Definition get (now : Z) (key : string) (db : gmap string cell) : option Z :=
  value <$> find now key db.
End Redis.

(** ** Shared rate limiter ([ratelimiter.py], class [RedisRateLimiter]) *)

Definition redis_checkLimit (options : RateLimiterOptions) (key : string)
    (now : Z) (db : gmap string Redis.cell)
  : result unit * gmap string Redis.cell :=
  let fk := full_key options key in
  let '(count, db1) := Redis.incr now fk db in
  let db2 :=
    if count =? 1 then Redis.expire now fk ((windowMs options + 999) / 1000) db1
    else db1 in
  if bool_decide (count > maxRequests options) then
    let ttl_key := fk +:+ ":ttl" in
    let ttl := Redis.get now ttl_key db2 in
    let retry_after :=
      match ttl with
      | Some t => t                                  (* int(ttl) *)
      | None => (windowMs options + 999) / 1000
      end in
    (Raise (MpesaRateLimitError (rate_limit_message retry_after)
              (Some retry_after)
              [("limit", maxRequests options);
               ("windowMs", windowMs options)]),
     db2)
  else
    (Ok (), db2).

(** The admit/reject decision of a call. *)
Definition passes {A} (r : result A) : bool :=
  match r with Ok _ => true | Raise _ => false end.

(** A single process calling [checkLimit] for one key at the given instants:
    the decisions, in order. *)
Fixpoint local_decisions (options : RateLimiterOptions) (key : string)
    (times : list Z) (store : gmap string RateLimitEntry) : list bool :=
  match times with
  | [] => []
  | now :: rest =>
      let '(r, store') := checkLimit options key now store in
      passes r :: local_decisions options key rest store'
  end.

Fixpoint redis_decisions (options : RateLimiterOptions) (key : string)
    (times : list Z) (db : gmap string Redis.cell) : list bool :=
  match times with
  | [] => []
  | now :: rest =>
      let '(r, db') := redis_checkLimit options key now db in
      passes r :: redis_decisions options key rest db'
  end.

(** No call of the sequence falls on the very millisecond at which the
    window that the local limiter then holds for the key ends. *)
Fixpoint clear_of_window_ends (options : RateLimiterOptions) (key : string)
    (times : list Z) (store : gmap string RateLimitEntry) : bool :=
  match times with
  | [] => true
  | now :: rest =>
      match store !! full_key options key with
      | Some entry => negb (now =? resetAt entry)
      | None => true
      end
      && clear_of_window_ends options key rest
           (checkLimit options key now store).2
  end.

(** The same run, keeping every result and the final store. *)
Fixpoint local_run (options : RateLimiterOptions) (key : string)
    (times : list Z) (store : gmap string RateLimitEntry)
  : list (result unit) * gmap string RateLimitEntry :=
  match times with
  | [] => ([], store)
  | now :: rest =>
      let '(r, store') := checkLimit options key now store in
      let '(rs, store'') := local_run options key rest store' in
      (r :: rs, store'')
  end.

(** [str(error)] for the exceptions above: the message, and for a
    [KeyError] the quoted key. *)
Definition str_exn (error : exn) : string :=
  match error with
  | MpesaError m _ _ | MpesaAuthError m | MpesaValidationError m
  | MpesaNetworkError m _ | MpesaTimeoutError m | MpesaRateLimitError m _ _
  | MpesaApiError m _ _ | TypeError m | ValueError m | AttributeError m
  | OtherException _ _ m => m
  | KeyError k => "'" +:+ k +:+ "'"
  end.

(** ** Translation of a non-2xx response ([errors.py], [parse_mpesa_api_error]) *)

(** The keys of an error body that the function reads. *)
Record ErrorBody : Type := mkErrorBody {
  errorMessage : option string;
  ResponseDescription : option string;
  body_message : option string;
  errorCode : option string;
  ResponseCode : option string;
  retryAfter : option Z }.

Definition empty_body : ErrorBody := mkErrorBody None None None None None None.

(** [a or b] on optional strings: [None] and the empty string are falsy. *)
Definition str_or (a : option string) (b : string) : string :=
  match a with
  | Some s => if bool_decide (s = "") then b else s
  | None => b
  end.

Definition parse_mpesa_api_error (status : Z) (response_body : ErrorBody) : exn :=
  let error_message :=
    str_or (errorMessage response_body)
      (str_or (ResponseDescription response_body)
         (str_or (body_message response_body) "Unknown API error")) in
  let error_code :=
    str_or (errorCode response_body)
      (str_or (ResponseCode response_body) "UNKNOWN_ERROR") in
  if status =? 401 then MpesaAuthError error_message
  else if status =? 403 then MpesaAuthError error_message
  else if status =? 400 then MpesaValidationError error_message
  else if status =? 429 then
    MpesaRateLimitError error_message (retryAfter response_body) []
  else if bool_decide (status >= 500) then MpesaNetworkError error_message true
  else MpesaApiError error_message error_code status.

(** ** Request executor ([mpesa_client.py], [MpesaClient.makeRequest]) *)

(** [self.ratelimiter]: [None], a [RateLimiter] with its store, or a
    [RedisRateLimiter] with the store it talks to. *)
Inductive Limiter : Type :=
| NoLimiter
| LocalLimiter (options : RateLimiterOptions) (store : gmap string RateLimitEntry)
| SharedLimiter (options : RateLimiterOptions) (db : gmap string Redis.cell).

(** [rateLimitOptions] of the client options ([TypedDict], [total=False]);
    [redis] holds the contents of the store handed over. *)
Record RateLimitOption : Type := mkRateLimitOption {
  rl_enabled : option bool;
  rl_maxRequests : option Z;
  rl_windowMs : option Z;
  rl_redis : option (gmap string Redis.cell) }.

(** The limiter set up by [MpesaClient.__init__].  A dict without keys is
    falsy, like an absent one. *)
Definition init_ratelimiter (rate_opts : option RateLimitOption) : Limiter :=
  match rate_opts with
  | None => NoLimiter
  | Some (mkRateLimitOption None None None None) => NoLimiter
  | Some o =>
      if default true (rl_enabled o) then
        let limiter_config :=
          limiter_options (default 100 (rl_maxRequests o))
                          (default 60000 (rl_windowMs o)) None in
        match rl_redis o with
        | Some db => SharedLimiter limiter_config db
        | None => LocalLimiter limiter_config ∅
        end
      else NoLimiter
  end.

(** What one [session.post] can come to. *)
Inductive wire : Type :=
| WireTimeout                                   (* [asyncio.TimeoutError] *)
| WireFailure (error : exn)                     (* any other exception *)
| WireResponse (status : Z) (body : result json). (* [await response.json()] *)

(** The collaborators of [_request]: the token provider and the HTTP
    session, acting on a network state [N] of their own. *)
Record Transport (N : Type) : Type := mkTransport {
  getAccessToken : Op N string;
  post : string → json → string → Z → N → wire * N }.
Arguments mkTransport {N}.
Arguments getAccessToken {N}.
Arguments post {N}.

Record Client (N : Type) : Type := mkClient {
  ratelimiter : Limiter;
  net : N;
  posts : nat }.                  (* number of [session.post] calls so far *)
Arguments mkClient {N}.
Arguments ratelimiter {N}.
Arguments net {N}.
Arguments posts {N}.

(** [await self.ratelimiter.checkLimit(ratelimitKey)] on the client state. *)
Definition client_checkLimit {N} (key : string) : Op (Client N) unit :=
  λ now c,
    match ratelimiter c with
    | NoLimiter => (Ok (), c)
    | LocalLimiter options store =>
        let '(r, store') := checkLimit options key now store in
        (r, mkClient (LocalLimiter options store') (net c) (posts c))
    | SharedLimiter options db =>
        let '(r, db') := redis_checkLimit options key now db in
        (r, mkClient (SharedLimiter options db') (net c) (posts c))
    end.

(** The [except Exception as error] clause around the POST: no exception
    modelled here has a [statusCode] attribute, so each one is wrapped. *)
Definition wrap_network_error (endpoint : string) (error : exn) : exn :=
  MpesaNetworkError ("Network error on " +:+ endpoint +:+ ": " +:+ str_exn error) true.

(** The [try] block of [_request], given what the POST came to. *)
Definition interpret_wire (endpoint : string) (w : wire) : result json :=
  match w with
  | WireTimeout => Raise (MpesaTimeoutError ("Request timed out for " +:+ endpoint))
  | WireFailure error => Raise (wrap_network_error endpoint error)
  | WireResponse status body =>
      if bool_decide (200 <= status) && bool_decide (status < 300) then
        match body with
        | Ok j => Ok j
        | Raise error => Raise (wrap_network_error endpoint error)
        end
      else
        match body with
        | Ok j => Ok j        (* the [raise] sits in the inner [except] *)
        | Raise _ =>
            Raise (wrap_network_error endpoint
                     (parse_mpesa_api_error status empty_body))
        end
  end.

(** The closure [_request] of [makeRequest]. *)
Definition _request {N} (tr : Transport N) (endpoint : string) (payload : json)
    (ratelimitKey : option string) : Op (Client N) json :=
  λ now c,
    let limited :=
      match ratelimiter c, ratelimitKey with
      | NoLimiter, _ | _, None => (Ok (), c)
      | _, Some key =>
          if bool_decide (key = "") then (Ok (), c) else client_checkLimit key now c
      end in
    match limited with
    | (Raise e, c1) => (Raise e, c1)
    | (Ok _, c1) =>
        match getAccessToken tr now (net c1) with
        | (Raise e, n1) => (Raise e, mkClient (ratelimiter c1) n1 (posts c1))
        | (Ok token, n1) =>
            let '(w, n2) := post tr endpoint payload token now n1 in
            (interpret_wire endpoint w,
             mkClient (ratelimiter c1) n2 (S (posts c1)))
        end
    end.

Definition makeRequest {N} (tr : Transport N)
    (retryOptions : option (RetryOptions (Client N)))
    (endpoint : string) (payload : json) (ratelimitKey : option string)
  : M (Client N) json :=
  retryWithBackoff (_request tr endpoint payload ratelimitKey) retryOptions.

(** ** Callback engine ([callback.py], class [MpesaCallbackHandler]) *)

(** Python built-ins whose results on decoded values are not fixed here:
    [repr] of floats, lists and dicts, and [float] of a string ([None]
    stands for [ValueError]). *)
Record Builtins : Type := mkBuiltins {
  repr : json → string;
  float_of_str : string → option Q }.

(** [str(value)] *)
Definition str_json (B : Builtins) (v : json) : string :=
  match v with
  | JNull => "None"
  | JBool true => "True"
  | JBool false => "False"
  | JInt z => pretty z
  | JStr s => s
  | _ => repr B v
  end.

(** [float(value)] *)
Definition float_json (B : Builtins) (v : json) : result Q :=
  match v with
  | JInt z => Ok (inject_Z z)
  | JFloat q => Ok q
  | JBool b => Ok (if b then 1 else 0)%Q
  | JStr s =>
      match float_of_str B s with
      | Some q => Ok q
      | None => Raise (ValueError ("could not convert string to float: '" +:+ s +:+ "'"))
      end
  | _ => Raise (TypeError "float() argument must be a string or a real number")
  end.

(** [obj[key]] with a string key. *)
Definition getitem (obj : json) (key : string) : result json :=
  match obj with
  | JObj fields =>
      match assoc key fields with
      | Some v => Ok v
      | None => Raise (KeyError key)
      end
  | JList _ => Raise (TypeError "list indices must be integers or slices, not str")
  | JStr _ => Raise (TypeError "string indices must be integers, not 'str'")
  | _ => Raise (TypeError "object is not subscriptable")
  end.

(** [obj.get(key)]; only dicts have the method. *)
Definition get_method (obj : json) (key : string) : result (option json) :=
  match obj with
  | JObj fields => Ok (assoc key fields)
  | _ => Raise (AttributeError "object has no attribute 'get'")
  end.

(** The values a [for] loop draws from an object. *)
Definition iterate (obj : json) : result (list json) :=
  match obj with
  | JList items => Ok items
  | JObj fields => Ok (JStr <$> fields.*1)
  | JStr s => Ok ((λ c, JStr (String c EmptyString)) <$> String.list_ascii_of_string s)
  | _ => Raise (TypeError "object is not iterable")
  end.

(** [value == 0] *)
Definition equals_zero (v : json) : bool :=
  match v with
  | JInt z => z =? 0
  | JFloat q => Qeq_bool q 0
  | JBool b => negb b
  | _ => false
  end.

Definition SAFARICOM_IPS : list string :=
  [ "196.201.214.200"; "196.201.214.206"; "196.201.213.114"; "196.201.214.207";
    "196.201.214.208"; "196.201.213.44"; "196.201.212.127"; "196.201.212.138";
    "196.201.212.129"; "196.201.212.136"; "196.201.212.74"; "196.201.212.69" ].

Definition ERROR_MESSAGES : list (Z * string) :=
  [ (0, "Success");
    (1, "Insufficient funds in M-Pesa account");
    (17, "User cancelled the transaction");
    (26, "System internal error");
    (1001, "Unable to lock subscriber, a transaction is already in process");
    (1019, "Transaction expired. No response from user");
    (1032, "Request cancelled by user");
    (1037, "Timeout in sending PIN request");
    (2001, "Wrong PIN entered");
    (9999, "Request cancelled by user") ].

Fixpoint lookup_code (c : Z) (table : list (Z * string)) : option string :=
  match table with
  | [] => None
  | (k, m) :: rest => if k =? c then Some m else lookup_code c rest
  end.

(** The integer key a value hashes and compares equal to, if any:
    [1.0] and [True] find the entry of [1]. *)
Definition as_int_key (v : json) : option Z :=
  match v with
  | JInt z => Some z
  | JFloat q => if Qeq_bool q (inject_Z (Qfloor q)) then Some (Qfloor q) else None
  | JBool b => Some (if b then 1 else 0)
  | _ => None
  end.

(** [get_error_message]: [dict.get] hashes its key, which lists and dicts
    refuse. *)
Definition get_error_message (B : Builtins) (result_code : json) : result string :=
  let fallback := "Transaction failed with code: " +:+ str_json B result_code in
  match result_code with
  | JList _ => Raise (TypeError "unhashable type: 'list'")
  | JObj _ => Raise (TypeError "unhashable type: 'dict'")
  | _ =>
      match as_int_key result_code with
      | Some c => Ok (default fallback (lookup_code c ERROR_MESSAGES))
      | None => Ok fallback
      end
  end.

(** [format_transaction_date]: slices clip at the end of the string. *)
Definition format_transaction_date (date_str : string) : string :=
  let year := String.substring 0 4 date_str in
  let month := String.substring 4 2 date_str in
  let day := String.substring 6 2 date_str in
  let hours := String.substring 8 2 date_str in
  let minutes := String.substring 10 2 date_str in
  let seconds := String.substring 12 2 date_str in
  year +:+ "-" +:+ month +:+ "-" +:+ day +:+ "T" +:+ hours +:+ ":" +:+ minutes
    +:+ ":" +:+ seconds.

(** One turn of the loop of [_extract_metadata]. *)
Definition extract_item (B : Builtins) (item : json) (parsed : ParsedCallbackData)
  : result ParsedCallbackData :=
  match get_method item "Name", get_method item "Value" with
  | Raise e, _ | Ok _, Raise e => Raise e
  | Ok name, Ok value =>
      let value := default JNull value in
      let p := parsed in
      match name with
      | Some (JStr "Amount") =>
          match float_json B value with
          | Ok q =>
              Ok (mkParsed (merchant_request_id p) (checkout_request_id p)
                    (result_code p) (result_description p) (Some q)
                    (mpesa_receipt_number p) (transaction_date p)
                    (phone_number p) (is_success p) (error_message p))
          | Raise e => Raise e
          end
      | Some (JStr "MpesaReceiptNumber") =>
          Ok (mkParsed (merchant_request_id p) (checkout_request_id p)
                (result_code p) (result_description p) (amount p)
                (Some (str_json B value)) (transaction_date p)
                (phone_number p) (is_success p) (error_message p))
      | Some (JStr "TransactionDate") =>
          Ok (mkParsed (merchant_request_id p) (checkout_request_id p)
                (result_code p) (result_description p) (amount p)
                (mpesa_receipt_number p)
                (Some (format_transaction_date (str_json B value)))
                (phone_number p) (is_success p) (error_message p))
      | Some (JStr "PhoneNumber") =>
          Ok (mkParsed (merchant_request_id p) (checkout_request_id p)
                (result_code p) (result_description p) (amount p)
                (mpesa_receipt_number p) (transaction_date p)
                (Some (str_json B value)) (is_success p) (error_message p))
      | _ => Ok p
      end
  end.

Fixpoint extract_items (B : Builtins) (items : list json) (parsed : ParsedCallbackData)
  : result ParsedCallbackData :=
  match items with
  | [] => Ok parsed
  | item :: rest =>
      match extract_item B item parsed with
      | Ok parsed' => extract_items B rest parsed'
      | Raise e => Raise e
      end
  end.

(** [_extract_metadata]; [metadata.get("Item", [])]. *)
Definition _extract_metadata (B : Builtins) (metadata : json) (parsed : ParsedCallbackData)
  : result ParsedCallbackData :=
  match get_method metadata "Item" with
  | Raise e => Raise e
  | Ok None => Ok parsed
  | Ok (Some items) =>
      match iterate items with
      | Ok l => extract_items B l parsed
      | Raise e => Raise e
      end
  end.

(** Sequencing of computations that may raise. *)
Definition and_then {A C} (r : result A) (k : A → result C) : result C :=
  match r with
  | Ok a => k a
  | Raise e => Raise e
  end.

(** [parse_callback] *)
Definition parse_callback (B : Builtins) (callback : json) : result ParsedCallbackData :=
  and_then (getitem callback "Body") (λ body,
  and_then (getitem body "stkCallback") (λ stk_callback,
  and_then (getitem stk_callback "ResultCode") (λ result_code,
  and_then (getitem stk_callback "MerchantRequestID") (λ mrid,
  and_then (getitem stk_callback "CheckoutRequestID") (λ crid,
  and_then (getitem stk_callback "ResultDesc") (λ desc,
  and_then (if equals_zero result_code then Ok None
            else and_then (get_error_message B result_code) (λ m, Ok (Some m)))
    (λ error_message,
  let parsed :=
    mkParsed mrid crid result_code desc None None None None
             (equals_zero result_code) error_message in
  if equals_zero result_code then
    match get_method stk_callback "CallbackMetadata" with
    | Ok (Some metadata) => _extract_metadata B metadata parsed
    | _ => Ok parsed
    end
  else Ok parsed))))))).

(** The handler object, with the attributes the STK path reads. *)
Record MpesaCallbackHandler (X : Type) : Type := mkHandler {
  on_success : option (ParsedCallbackData → Op X unit);
  on_failure : option (ParsedCallbackData → Op X unit);
  on_callback : option (ParsedCallbackData → Op X unit);
  validate_ip : bool;
  allowed_ips : list string;
  is_duplicate : option (json → Op X bool) }.
Arguments mkHandler {X}.
Arguments on_success {X}.
Arguments on_failure {X}.
Arguments on_callback {X}.
Arguments validate_ip {X}.
Arguments allowed_ips {X}.
Arguments is_duplicate {X}.

(** [a or b] on lists: the empty list is falsy. *)
Definition list_or {A} (a : option (list A)) (b : list A) : list A :=
  match a with
  | Some (x :: l) => x :: l
  | _ => b
  end.

(** [MpesaCallbackHandler.__init__]; [validate_ip] defaults to [True]. *)
Definition MpesaCallbackHandler_init {X}
    (on_success on_failure on_callback : option (ParsedCallbackData → Op X unit))
    (validate_ip : option bool) (allowed_ips : option (list string))
    (is_duplicate : option (json → Op X bool)) : MpesaCallbackHandler X :=
  mkHandler on_success on_failure on_callback (default true validate_ip)
            (list_or allowed_ips SAFARICOM_IPS) is_duplicate.

Definition validate_callback_ip {X} (self : MpesaCallbackHandler X)
    (ip_address : string) : bool :=
  if negb (validate_ip self) then true
  else bool_decide (ip_address ∈ allowed_ips self).

(** [if self.<handler>: result = self.<handler>(parsed); await it if awaitable] *)
Definition dispatch {X} (which : handler_name)
    (h : option (ParsedCallbackData → Op X unit)) (parsed : ParsedCallbackData)
  : M X unit :=
  match h with
  | Some f => (log (EvHandler which parsed) >>> call (f parsed))%co
  | None => ret ()
  end.

(** The tail of [handle_callback]: the generic handler, then the one that
    matches the outcome. *)
Definition dispatch_handlers {X} (self : MpesaCallbackHandler X)
    (parsed : ParsedCallbackData) : M X unit :=
  (dispatch OnCallback (on_callback self) parsed >>>
   if is_success parsed then dispatch OnSuccess (on_success self) parsed
   else dispatch OnFailure (on_failure self) parsed)%co.

(** [handle_callback] from the parse onwards. *)
Definition process_callback {X} (B : Builtins) (self : MpesaCallbackHandler X)
    (callback : json) : M X unit :=
  (let* parsed := lift (parse_callback B callback) in
   log (EvLog "info"
          ("Processing STK callback - CheckoutRequestID: "
           +:+ str_json B (checkout_request_id parsed) +:+ ", ResultCode: "
           +:+ str_json B (result_code parsed))) >>>
   let* is_dupe :=
     match is_duplicate self with
     | Some p =>
         let* d := call (p (checkout_request_id parsed)) in
         log (EvDuplicate (checkout_request_id parsed) d) >>> ret d
     | None => ret false
     end in
   if is_dupe then
     log (EvLog "warning"
            ("Duplicate callback detected - CheckoutRequestID: "
             +:+ str_json B (checkout_request_id parsed)))
   else dispatch_handlers self parsed)%co.

(** [handle_callback]; an absent or empty [ip_address] is falsy. *)
Definition handle_callback {X} (B : Builtins) (self : MpesaCallbackHandler X)
    (callback : json) (ip_address : option string) : M X unit :=
  match ip_address with
  | Some ip =>
      if negb (bool_decide (ip = "")) && negb (validate_callback_ip self ip) then
        (log (EvLog "warning" ("Invalid callback IP: " +:+ ip)) >>>
         raise (ValueError ("Invalid callback IP: " +:+ ip)))%co
      else process_callback B self callback
  | None => process_callback B self callback
  end.

Record CallbackResponse : Type := mkResponse {
  ResultCode : Z;
  ResultDesc : string }.

(** [create_callback_response(success=True, message=None)] *)
Definition create_callback_response (success : bool) (message : option string)
  : CallbackResponse :=
  mkResponse (if success then 0 else 1)
             (str_or message (if success then "Accepted" else "Rejected")).

(** [MpesaClient.handleStkCallback], on the client's handler. *)
Definition handleStkCallback {X} (B : Builtins) (callbackHandler : MpesaCallbackHandler X)
    (callback : json) (ipAddress : option string) : M X CallbackResponse :=
  try_except
    (handle_callback B callbackHandler callback ipAddress >>>
     ret (create_callback_response true None))%co
    (λ _, ret (create_callback_response false (Some "Internal Error"))).

Definition is_handler (ev : event) : bool :=
  match ev with EvHandler _ _ => true | _ => false end.
Definition handlers_invoked (j : list event) : nat :=
  length (List.filter is_handler j).

(** What a coroutine added to the journal, between the world it started in
    and the world it left. *)
Definition events_since {X} (w w' : World X) : list event :=
  drop (length (journal w)) (journal w').

(** ** The two limiters side by side *)

(** What the two stores hold for one key when they are in step: both
    nothing, or a window and a counter that end at the same instant, the
    window count being the counter capped at the limit. *)
Definition in_step (options : RateLimiterOptions)
    (entry : option RateLimitEntry) (cell : option Redis.cell) : Prop :=
  match entry, cell with
  | None, None => True
  | Some e, Some c =>
      Redis.expireAt c = Some (resetAt e)
      ∧ 1 <= count e
      ∧ count e = Z.min (Redis.value c) (maxRequests options)
  | _, _ => False
  end.

(** The error a rejection at [now] carries, for a window ending at [resetAt]. *)
Definition rejection (options : RateLimiterOptions) (resetAt now : Z) : exn :=
  let retry_after := (resetAt - now + 999) / 1000 in
  MpesaRateLimitError (rate_limit_message retry_after) (Some retry_after)
    [("limit", maxRequests options); ("windowMs", windowMs options);
     ("resetAt", resetAt)].

(** ** Sample inputs *)

(** A world at clock [now] with an empty journal and every random draw 0.5. *)
Definition world_at {X} (now : Z) (x : X) : World X :=
  mkWorld now (λ _, (1 # 2)%Q) 0 [] x.

(** An operation that fails with [e] each time and counts its invocations. *)
Definition always_fail (e : exn) : Op nat unit := λ _ n, (Raise e, S n).

Definition only_maxRetries {X} (n : Z) : RetryOptions X :=
  mkRetryOptions (Some n) None None None None None.

(** Built-ins for the sample runs, which format and convert nothing beyond
    integers and strings. *)
Definition sample_builtins : Builtins := mkBuiltins (λ _, "") (λ _, None).

(** A successful STK callback as the gateway posts it. *)
Definition stk_success_payload : json :=
  JObj [("Body", JObj [("stkCallback", JObj
    [("MerchantRequestID", JStr "29115-34620561-1");
     ("CheckoutRequestID", JStr "ws_CO_191220191020363925");
     ("ResultCode", JInt 0);
     ("ResultDesc", JStr "The service request is processed successfully.");
     ("CallbackMetadata", JObj [("Item", JList
        [JObj [("Name", JStr "Amount"); ("Value", JInt 1)];
         JObj [("Name", JStr "MpesaReceiptNumber"); ("Value", JStr "NLJ7RT61SV")];
         JObj [("Name", JStr "TransactionDate"); ("Value", JInt 20191219102115)];
         JObj [("Name", JStr "PhoneNumber"); ("Value", JInt 254708374149)]])])])])].

(** Handlers that count their invocations in the caller's state. *)
Definition counting : ParsedCallbackData → Op nat unit := λ _ _ n, (Ok (), S n).

(** A handler object built with the defaults: validation on, no allow-list. *)
Definition handler_default : MpesaCallbackHandler nat :=
  MpesaCallbackHandler_init (Some counting) (Some counting) (Some counting)
    None None None.

(** The same with an empty allow-list passed in. *)
Definition handler_empty_allow_list : MpesaCallbackHandler nat :=
  MpesaCallbackHandler_init (Some counting) (Some counting) (Some counting)
    (Some true) (Some []) None.

(** The same with a duplicate predicate that has seen every key. *)
Definition handler_seen_all : MpesaCallbackHandler nat :=
  MpesaCallbackHandler_init (Some counting) (Some counting) (Some counting)
    None None (Some (λ _ _ n, (Ok true, n))).

(** A transport that always answers 200 with an empty object. *)
Definition transport_ok : Transport unit :=
  mkTransport (λ _ n, (Ok "token", n))
              (λ _ _ _ _ n, (WireResponse 200 (Ok (JObj [])), n)).

(** A client on a shared limiter whose store holds a used-up counter for the
    key and a companion TTL key with value 0. *)
Definition client_shared_ttl : Client unit :=
  mkClient
    (SharedLimiter (limiter_options 1 60000 None)
       (<["mpesa:stk:254700000000:ttl" := Redis.mkCell 0 None]>
          (<["mpesa:stk:254700000000" := Redis.mkCell 1 (Some 60000)]> ∅)))
    () 0%nat.

(** A client set up with [rateLimitOptions = {maxRequests: 0, windowMs: 0,
    redis: <empty store>}]. *)
Definition client_shared_zero : Client unit :=
  mkClient
    (init_ratelimiter (Some (mkRateLimitOption None (Some 0) (Some 0) (Some ∅))))
    () 0%nat.

(** A client on the local limiter (limit 1, window 60 s) that has used its
    one request at instant 0. *)
Definition client_local_used : Client unit :=
  mkClient
    (LocalLimiter (limiter_options 1 60000 None)
       {["mpesa:stk:254700000000" := mkEntry 1 60000]})
    () 0%nat.

(** ** Further operations of the cited files *)

(** An operation that plays a fixed script: its n-th invocation returns the
    n-th outcome (and [fallback] once the script is over); its state is the
    number of invocations so far. *)
Definition scripted {T} (outcomes : list (result T)) (fallback : result T)
  : Op nat T :=
  λ _ n, (default fallback (outcomes !! n), S n).

(** An error the engine retries after a computed backoff: the classifier
    says retryable and there is no non-zero retry-after hint. *)
Definition retried_with_backoff (codes : list Z) (e : exn) : Prop :=
  isRetryableError e codes = Ok true ∧ truthy (retry_after e) = false.

(** The body of the sweep started by [RateLimiter._start_cleanup], run at
    instant [now]: entries whose window is over are dropped. *)
Definition cleanup (now : Z) (store : gmap string RateLimitEntry)
  : gmap string RateLimitEntry :=
  filter (λ kv, now < resetAt kv.2) store.

(** [RateLimiter.resetAll] *)
Definition resetAll (store : gmap string RateLimitEntry)
  : gmap string RateLimitEntry := ∅.

(** Every window in the store counts at least one call and at most the
    limit (at most one when the limit is below one). *)
Definition counts_in_range (options : RateLimiterOptions)
    (store : gmap string RateLimitEntry) : Prop :=
  ∀ k entry, store !! k = Some entry →
    1 <= count entry <= Z.max 1 (maxRequests options).

(** The options with the key [retryableStatusCodes] set to [codes]. *)
Definition with_status_codes {X} (codes : list Z) (options : option (RetryOptions X))
  : RetryOptions X :=
  match options with
  | Some o =>
      mkRetryOptions (o_maxRetries o) (o_initialDelayMs o) (o_maxDelayMs o)
        (o_backoffMultiplier o) (Some codes) (o_onRetry o)
  | None => mkRetryOptions None None None None (Some codes) None
  end.

(** A process calling [checkLimit] for the given keys at the given
    instants, whatever each call answers: the store it ends with. *)
Fixpoint local_calls (options : RateLimiterOptions) (calls : list (string * Z))
    (store : gmap string RateLimitEntry) : gmap string RateLimitEntry :=
  match calls with
  | [] => store
  | (key, now) :: rest =>
      local_calls options rest (checkLimit options key now store).2
  end.

(** ** Phone numbers ([mpesa_client.py], [validateAndFormatPhone])

    The function works on a [str], a sequence of code points, and its
    patterns are [str] patterns: [\s] and [\d] are the white-space and the
    decimal-digit class of the interpreter's Unicode database, which reach
    beyond ASCII (the Arabic-Indic digits are in [\d], the ideographic space
    is in [\s]).  A phone number is therefore a list of code points, and the
    two classes are a parameter of the model. *)

From Stdlib Require Import Ascii.

Module Unicode.
Record Classes : Type := mkClasses {
  isspace : N → bool;      (* [\s] *)
  isdecimal : N → bool }.  (* [\d] *)

(** [ord(c)] *)
Definition ord (c : ascii) : N := N_of_ascii c.

(** The code points of a string of this file. *)
Definition codes (s : string) : list N := ord <$> String.list_ascii_of_string s.

(** The characters [re.sub(r"[\s\-+]", "", phone)] removes: white space, the
    hyphen and the plus sign. *)
Definition is_separator (U : Classes) (c : N) : bool :=
  isspace U c || N.eqb c (ord "-") || N.eqb c (ord "+").

Fixpoint strip_separators (U : Classes) (s : list N) : list N :=
  match s with
  | [] => []
  | c :: rest =>
      if is_separator U c then strip_separators U rest
      else c :: strip_separators U rest
  end.

(** [\d{n}$]: [n] decimal digits, then the end of the string or a final
    newline. *)
Fixpoint digits_then_end (U : Classes) (n : nat) (s : list N) : bool :=
  match n, s with
  | O, [] => true
  | O, [c] => N.eqb c (ord "010")
  | O, _ => false
  | S n', c :: rest => isdecimal U c && digits_then_end U n' rest
  | S _, [] => false
  end.

(** [re.match(r"^254[17]\d{8}$", s)] *)
Definition matches_msisdn (U : Classes) (s : list N) : bool :=
  match s with
  | a :: b :: c :: d :: rest =>
      N.eqb a (ord "2") && N.eqb b (ord "5") && N.eqb c (ord "4")
      && (N.eqb d (ord "1") || N.eqb d (ord "7")) && digits_then_end U 8 rest
  | _ => false
  end.

(** [s.startswith(p)] *)
Fixpoint startswith (s p : list N) : bool :=
  match p, s with
  | [], _ => true
  | a :: p', b :: s' => N.eqb a b && startswith s' p'
  | _ :: _, [] => false
  end.

(** [validateAndFormatPhone]; [None] stands for
    [raise MpesaValidationError(f"Invalid phone number format: {phone}")]. *)
Definition validateAndFormatPhone (U : Classes) (phone : list N) : option (list N) :=
  let formatted := strip_separators U phone in
  let formatted :=
    if startswith formatted (codes "0") then codes "254" ++ drop 1 formatted
    else if negb (startswith formatted (codes "254")) then codes "254" ++ formatted
    else formatted in
  if matches_msisdn U formatted then Some formatted else None.

(** A subscriber number: a 1 or a 7 followed by eight decimal digits, of
    whatever script. *)
Definition subscriber_number (U : Classes) (s : list N) : Prop :=
  match s with
  | d :: rest =>
      (d = ord "1" ∨ d = ord "7")
      ∧ length rest = 8%nat
      ∧ Forall (λ c, isdecimal U c = true) rest
  | [] => False
  end.

(** A number without any of the characters that are removed. *)
Definition without_separators (U : Classes) (s : list N) : Prop :=
  Forall (λ c, is_separator U c = false) s.

(** Four facts about the two classes, true of every version of the Unicode
    database: the newline is white space, the ten ASCII digits are decimal
    digits, no decimal digit is white space, and neither the hyphen nor the
    plus sign is a decimal digit. *)
Record python_tables (U : Classes) : Prop := mkPythonTables {
  newline_is_space : isspace U (ord "010") = true;
  ascii_digits_are_decimal : ∀ c, (48 <= c <= 57)%N → isdecimal U c = true;
  decimal_is_no_space : ∀ c, isdecimal U c = true → isspace U c = false;
  hyphen_is_no_decimal : isdecimal U (ord "-") = false;
  plus_is_no_decimal : isdecimal U (ord "+") = false }.

(** Both classes on the code points below 256, all that a string of this
    file can hold: [\s] is 9-13, 28-32, 133 and 160 there, [\d] the ten
    ASCII digits. *)
Definition below_256 : Classes :=
  mkClasses
    (λ c, existsb (N.eqb c) [9; 10; 11; 12; 13; 28; 29; 30; 31; 32; 133; 160]%N)
    (λ c, (48 <=? c) && (c <=? 57))%N.

(** The string of this file with the given code points (all below 256). *)
Definition text (s : list N) : string :=
  String.string_of_list_ascii (ascii_of_N <$> s).
End Unicode.

(** [validateAndFormatPhone] on the strings of this file, whose characters
    are code points below 256. *)
Definition validateAndFormatPhone (phone : string) : result string :=
  match Unicode.validateAndFormatPhone Unicode.below_256 (Unicode.codes phone) with
  | Some formatted => Ok (Unicode.text formatted)
  | None => Raise (MpesaValidationError ("Invalid phone number format: " +:+ phone))
  end.

(** A part of the two Unicode classes: the white space in full, and of the
    decimal digits the ASCII and the Arabic-Indic ones. *)
Definition sample_classes : Unicode.Classes :=
  Unicode.mkClasses
    (λ c, existsb (N.eqb c)
            [9; 10; 11; 12; 13; 28; 29; 30; 31; 32; 133; 160; 5760; 8232; 8233;
             8239; 8287; 12288]
          || ((8192 <=? c) && (c <=? 8202)))%N
    (λ c, ((48 <=? c) && (c <=? 57)) || ((1632 <=? c) && (c <=? 1641)))%N.

(** ** STK push ([mpesa_client.py], [MpesaClient.stkPush]) *)

Module STK.
(** The keys of [MpesaConfig] the operation reads; [callbackUrl] is
    [NotRequired]. *)
Record Config : Type := mkConfig {
  shortcode : string;
  passkey : string;
  callbackUrl : option string }.

(** [STKPushRequest] *)
Record Request : Type := mkRequest {
  amount : Z;
  phoneNumber : string;
  accountReference : string;
  transactionDesc : string;
  requestCallbackUrl : option string }.

(** What [MpesaAuth] takes from outside: the local time formatted by
    [getTimestamp] when the clock reads a given instant, and
    [base64.b64encode]. *)
Record AuthEnv : Type := mkAuthEnv {
  timestamp_at : Z → string;
  b64encode : string → string }.
End STK.

(** [MpesaAuth.getTimestamp] *)
Definition getTimestamp (env : STK.AuthEnv) (now : Z) : string :=
  STK.timestamp_at env now.

(** [MpesaAuth.getPassword] *)
Definition getPassword (env : STK.AuthEnv) (config : STK.Config) (now : Z) : string :=
  STK.b64encode env
    (STK.shortcode config +:+ STK.passkey config +:+ getTimestamp env now).

(** [request.get("callbackUrl") or self.config["callbackUrl"]] *)
Definition stk_callback_url (config : STK.Config) (request : STK.Request)
  : result string :=
  match STK.requestCallbackUrl request with
  | Some (String c s) => Ok (String c s)
  | _ =>
      match STK.callbackUrl config with
      | Some url => Ok url
      | None => Raise (KeyError "callbackUrl")
      end
  end.

(** The payload of [stkPush] for a formatted phone number. *)
Definition stk_payload (env : STK.AuthEnv) (config : STK.Config)
    (request : STK.Request) (now : Z) (phone url : string) : json :=
  JObj [ ("BusinessShortCode", JStr (STK.shortcode config));
         ("Password", JStr (getPassword env config now));
         ("Timestamp", JStr (getTimestamp env now));
         ("TransactionType", JStr "CustomerPayBillOnline");
         ("Amount", JInt (STK.amount request));
         ("PartyA", JStr phone);
         ("PartyB", JStr (STK.shortcode config));
         ("PhoneNumber", JStr phone);
         ("CallBackURL", JStr url);
         ("AccountReference", JStr (STK.accountReference request));
         ("TransactionDesc", JStr (STK.transactionDesc request)) ].

(** [MpesaClient.stkPush]; the second message holds the UTF-8 bytes of the
    sign the source writes. *)
Definition stkPush {N} (tr : Transport N) (env : STK.AuthEnv) (config : STK.Config)
    (retryOptions : option (RetryOptions (Client N))) (request : STK.Request)
  : M (Client N) json :=
  if bool_decide (STK.amount request < 1) then
    raise (MpesaValidationError "Amount must be at least 1")
  else if bool_decide (STK.accountReference request = "")
          || bool_decide (13 < String.length (STK.accountReference request))%nat then
    raise (MpesaValidationError "Account reference must be ≤ 13 characters")
  else if bool_decide (STK.transactionDesc request = "") then
    raise (MpesaValidationError "Transaction description required")
  else
    match validateAndFormatPhone (STK.phoneNumber request) with
    | Raise e => raise e
    | Ok phone =>
        λ w,
          match stk_callback_url config request with
          | Raise e => (Raise e, w)
          | Ok url =>
              makeRequest tr retryOptions "/mpesa/stkpush/v1/processrequest"
                (stk_payload env config request (clock w) phone url)
                (Some ("stk:" +:+ phone)) w
          end
    end.

(** The request with another spelling of the phone number. *)
Definition with_phone (phone : string) (request : STK.Request) : STK.Request :=
  STK.mkRequest (STK.amount request) phone (STK.accountReference request)
    (STK.transactionDesc request) (STK.requestCallbackUrl request).

(** ** The handler a client builds ([mpesa_client.py], [MpesaClient.__init__]) *)

(** The values a [callbackOptions] dict can hold. *)
Inductive option_value (X : Type) : Type :=
| OptHandler (f : ParsedCallbackData → Op X unit)
| OptPredicate (p : json → Op X bool)
| OptFlag (b : bool)
| OptAddresses (ips : list string).
Arguments OptHandler {X} f.
Arguments OptPredicate {X} p.
Arguments OptFlag {X} b.
Arguments OptAddresses {X} ips.

(** Calling a dict. *)
Definition not_callable {X} : ParsedCallbackData → Op X unit :=
  λ _ _ x, (Raise (TypeError "'dict' object is not callable"), x).

(** [MpesaCallbackHandler(self.options.get("callbackOptions"))]: the one
    positional argument binds to the first parameter, [on_success]; every
    other parameter keeps its default.  A dict without items is falsy, so
    the handler then behaves as if [on_success] were absent. *)
Definition client_callbackHandler {X}
    (callbackOptions : option (list (string * option_value X)))
  : MpesaCallbackHandler X :=
  MpesaCallbackHandler_init
    (match callbackOptions with
     | Some (_ :: _) => Some not_callable
     | _ => None
     end)
    None None None None None.

(** ** C2B and B2C callbacks ([callback.py], [mpesa_client.py]) *)

Module C2B.
(** [ParsedC2BCallback] *)
Record Parsed : Type := mkParsed {
  transaction_type : json;
  transaction_id : json;
  transaction_time : json;
  amount : Q;
  business_short_code : json;
  bill_ref_number : json;
  msisdn : json;
  invoice_number : option json;
  first_name : option json;
  middle_name : option json;
  last_name : option json }.
End C2B.

(** [parse_c2b_callback] *)
Definition parse_c2b_callback (B : Builtins) (callback : json) : result C2B.Parsed :=
  and_then (getitem callback "TransactionType") (λ ttype,
  and_then (getitem callback "TransID") (λ tid,
  and_then (getitem callback "TransTime") (λ ttime,
  and_then (getitem callback "TransAmount") (λ tamount,
  and_then (float_json B tamount) (λ amount,
  and_then (getitem callback "BusinessShortCode") (λ code,
  and_then (getitem callback "BillRefNumber") (λ bill,
  and_then (getitem callback "MSISDN") (λ msisdn,
  and_then (get_method callback "InvoiceNumber") (λ invoice,
  and_then (get_method callback "FirstName") (λ first,
  and_then (get_method callback "MiddleName") (λ middle,
  and_then (get_method callback "LastName") (λ last,
  Ok (C2B.mkParsed ttype tid ttime amount code bill msisdn
        invoice first middle last))))))))))))).

(** [handle_c2b_validation]; [on_c2b_validation] is an [async] function
    whose answer is taken by its truth value. *)
Definition handle_c2b_validation {X} (B : Builtins)
    (on_c2b_validation : option (C2B.Parsed → Op X bool)) (callback : json)
  : M X bool :=
  (let* parsed := lift (parse_c2b_callback B callback) in
   log (EvLog "info" ("Processing C2B validation - TransactionID: "
                      +:+ str_json B (C2B.transaction_id parsed))) >>>
   match on_c2b_validation with
   | Some f => call (f parsed)
   | None => ret true
   end)%co.

(** [MpesaClient.handleC2BValidation] *)
Definition handleC2BValidation {X} (B : Builtins)
    (on_c2b_validation : option (C2B.Parsed → Op X bool)) (callback : json)
  : M X CallbackResponse :=
  try_except
    (let* is_valid := handle_c2b_validation B on_c2b_validation callback in
     ret (create_callback_response is_valid
            (Some (if is_valid then "Accepted" else "Rejected"))))%co
    (λ _, ret (create_callback_response false (Some "Validation Failed"))).

Module B2C.
(** [B2CResult] *)
Record Result : Type := mkResult {
  is_success : bool;
  transaction_id : option string;
  amount : option Q;
  recipient_phone : option string;
  charges : option Q;
  error_message : option string }.
End B2C.

(** One turn of the loop of [parse_b2c_callback]. *)
Definition b2c_param (B : Builtins) (param : json) (p : B2C.Result)
  : result B2C.Result :=
  match get_method param "Key", get_method param "Value" with
  | Raise e, _ | Ok _, Raise e => Raise e
  | Ok key, Ok value =>
      let value := default JNull value in
      match key with
      | Some (JStr "TransactionReceipt") =>
          Ok (B2C.mkResult (B2C.is_success p) (Some (str_json B value))
                (B2C.amount p) (B2C.recipient_phone p) (B2C.charges p)
                (B2C.error_message p))
      | Some (JStr "TransactionAmount") =>
          and_then (float_json B value) (λ q,
            Ok (B2C.mkResult (B2C.is_success p) (B2C.transaction_id p) (Some q)
                  (B2C.recipient_phone p) (B2C.charges p) (B2C.error_message p)))
      | Some (JStr "ReceiverPartyPublicName") =>
          Ok (B2C.mkResult (B2C.is_success p) (B2C.transaction_id p)
                (B2C.amount p) (Some (str_json B value)) (B2C.charges p)
                (B2C.error_message p))
      | Some (JStr "B2CChargesPaidAccountAvailableFunds") =>
          and_then (float_json B value) (λ q,
            Ok (B2C.mkResult (B2C.is_success p) (B2C.transaction_id p)
                  (B2C.amount p) (B2C.recipient_phone p) (Some q)
                  (B2C.error_message p)))
      | _ => Ok p
      end
  end.

Fixpoint b2c_params (B : Builtins) (params : list json) (p : B2C.Result)
  : result B2C.Result :=
  match params with
  | [] => Ok p
  | param :: rest => and_then (b2c_param B param p) (b2c_params B rest)
  end.

(** [parse_b2c_callback] *)
Definition parse_b2c_callback (B : Builtins) (callback : json) : result B2C.Result :=
  and_then (getitem callback "Result") (λ result,
  and_then (getitem result "ResultCode") (λ result_code,
  and_then (if equals_zero result_code then Ok None
            else and_then (get_error_message B result_code) (λ m, Ok (Some m)))
    (λ error_message,
  let parsed :=
    B2C.mkResult (equals_zero result_code) None None None None error_message in
  if equals_zero result_code then
    match get_method result "ResultParameters" with
    | Ok (Some parameters) =>
        and_then (get_method parameters "ResultParameter") (λ items,
          match items with
          | None => Ok parsed
          | Some items => and_then (iterate items) (λ l, b2c_params B l parsed)
          end)
    | _ => Ok parsed
    end
  else Ok parsed))).

(** ** User code that is handed an object

    The handlers are handed the parsed object itself, an instance of a
    mutable dataclass, and the engine reads the object's fields after a
    handler has run.  User code that holds the reference is an operation on
    the caller's state paired with the object: it may assign to the
    object's fields, and the object comes back as the handler left it. *)
Definition call_with {X P} (f : Op (X * P) unit) (obj : P) : M X P :=
  λ w, let '(r, (x, obj')) := f (clock w) (user w, obj) in
       (match r with Ok _ => Ok obj' | Raise e => Raise e end, set_user x w).

(** A handler that only reads the object. *)
Definition by_value {X P} (f : P → Op X unit) : Op (X * P) unit :=
  λ now xp, let '(r, x) := f xp.2 now xp.1 in (r, (x, xp.2)).

(** How a registered result handler is written: with [def] or with
    [async def]. *)
Inductive handler_kind : Type := SyncHandler | AsyncHandler.

(** [await handler(parsed)]: the body runs either way; what a [def]
    handler returns, [None], cannot be awaited. *)
Definition await_handler {X P} (kind : handler_kind) (body : Op (X * P) unit)
    (obj : P) : M X P :=
  match kind with
  | AsyncHandler => call_with body obj
  | SyncHandler =>
      (call_with body obj >>>
       raise (TypeError "object NoneType can't be used in 'await' expression"))%co
  end.

(** [MpesaClient.handleB2CCallback]; [parsed.is_success] is read after the
    handler has been awaited, on the object the handler was handed.  The
    [print] of the [except] clause is journalled as a log line of level
    [print]. *)
Definition handleB2CCallback {X} (B : Builtins)
    (on_b2c_result : option (handler_kind * Op (X * B2C.Result) unit))
    (callback : json) : M X CallbackResponse :=
  try_except
    (let* parsed := lift (parse_b2c_callback B callback) in
     let* parsed :=
       match on_b2c_result with
       | Some (kind, f) => await_handler kind f parsed
       | None => ret parsed
       end in
     ret (create_callback_response (B2C.is_success parsed) None))%co
    (λ e, log (EvLog "print" ("B2C callback error: " +:+ str_exn e)) >>>
          ret (create_callback_response false (Some "Processing Failed")))%co.

(** The tail of [handle_callback] with handlers that hold the reference to
    [parsed]: [parsed.is_success] is read after [on_callback] has run.  The
    three attributes [on_callback], [on_success] and [on_failure] are those
    the handler object has when the dispatch starts; a handler that assigns
    to these attributes is outside this model. *)
Module ByReference.
Record Handlers (X : Type) : Type := mkHandlers {
  on_success : option (Op (X * ParsedCallbackData) unit);
  on_failure : option (Op (X * ParsedCallbackData) unit);
  on_callback : option (Op (X * ParsedCallbackData) unit) }.
Arguments mkHandlers {X}.
Arguments on_success {X}.
Arguments on_failure {X}.
Arguments on_callback {X}.

(** [result = handler(parsed)], awaited when it can be. *)
Definition dispatch {X} (which : handler_name)
    (h : option (Op (X * ParsedCallbackData) unit)) (parsed : ParsedCallbackData)
  : M X ParsedCallbackData :=
  match h with
  | Some f => (log (EvHandler which parsed) >>> call_with f parsed)%co
  | None => ret parsed
  end.

Definition dispatch_handlers {X} (self : Handlers X)
    (parsed : ParsedCallbackData) : M X unit :=
  (let* parsed := dispatch OnCallback (on_callback self) parsed in
   (if is_success parsed then dispatch OnSuccess (on_success self) parsed
    else dispatch OnFailure (on_failure self) parsed) >>>
   ret ())%co.

(** The object as [on_callback] leaves it. *)
Definition after_on_callback {X} (self : Handlers X)
    (parsed : ParsedCallbackData) (w : World X) : ParsedCallbackData :=
  match on_callback self with
  | Some f => (f (clock w) (user w, parsed)).2.2
  | None => parsed
  end.

(** The events that handling one STK callback dispatches when every
    registered handler returns: the generic handler on the object as
    parsed, then the handler for the outcome that the object shows then. *)
Definition expected_dispatch {X} (self : Handlers X)
    (parsed parsed' : ParsedCallbackData) : list event :=
  let event_of (which : handler_name)
        (h : option (Op (X * ParsedCallbackData) unit))
        (obj : ParsedCallbackData) : list event :=
    match h with
    | Some _ => [EvHandler which obj]
    | None => []
    end in
  event_of OnCallback (on_callback self) parsed
  ++ (if is_success parsed' then event_of OnSuccess (on_success self) parsed'
      else event_of OnFailure (on_failure self) parsed').
End ByReference.

(** The handlers of an [MpesaCallbackHandler] are handlers that only read
    the object. *)
Definition reading {X} (self : MpesaCallbackHandler X) : ByReference.Handlers X :=
  ByReference.mkHandlers (by_value <$> on_success self)
                         (by_value <$> on_failure self)
                         (by_value <$> on_callback self).

(** A generic handler that counts its invocations and marks the callback as
    failed. *)
Definition marking_failed : Op (nat * ParsedCallbackData) unit :=
  λ _ xp,
    (Ok (),
     (S xp.1,
      mkParsed (merchant_request_id xp.2) (checkout_request_id xp.2)
        (result_code xp.2) (result_description xp.2) (amount xp.2)
        (mpesa_receipt_number xp.2) (transaction_date xp.2) (phone_number xp.2)
        false (error_message xp.2))).

(** An outcome handler that counts its invocations and leaves the object as
    it is. *)
Definition counting_reader : Op (nat * ParsedCallbackData) unit :=
  by_value counting.

(** The separators of [format_transaction_date] taken out again. *)
Definition unformat_transaction_date (s : string) : string :=
  String.substring 0 4 s +:+ String.substring 5 2 s +:+ String.substring 8 2 s
  +:+ String.substring 11 2 s +:+ String.substring 14 2 s
  +:+ String.substring 17 2 s.

(** The name of a metadata item, when it is a dict with a string under
    [Name]. *)
Definition item_name (item : json) : option string :=
  match item with
  | JObj fields =>
      match assoc "Name" fields with
      | Some (JStr n) => Some n
      | _ => None
      end
  | _ => None
  end.

(** * Properties *)

(** ** Journals *)

Lemma attempts_made_app (j1 j2 : list event) :
  attempts_made (j1 ++ j2) = (attempts_made j1 + attempts_made j2)%nat.
Proof. unfold attempts_made. by rewrite List.filter_app, length_app. Qed.

Lemma sleeps_made_app (j1 j2 : list event) :
  sleeps_made (j1 ++ j2) = (sleeps_made j1 + sleeps_made j2)%nat.
Proof. unfold sleeps_made. by rewrite List.filter_app, length_app. Qed.

Lemma handlers_invoked_app (j1 j2 : list event) :
  handlers_invoked (j1 ++ j2) = (handlers_invoked j1 + handlers_invoked j2)%nat.
Proof. unfold handlers_invoked. by rewrite List.filter_app, length_app. Qed.

(** Counts over a journal extended by known events. *)
Ltac count_journal :=
  repeat (simpl journal in *;
          rewrite ?attempts_made_app, ?sleeps_made_app, ?handlers_invoked_app in * );
  cbn [attempts_made sleeps_made handlers_invoked List.filter length
       is_attempt is_sleep is_handler] in *;
  try lia.

(** ** Error classifier *)

(** Every error of [errors.py] that carries a non-zero status code, other
    than a network or a rate-limit error, makes the classifier raise. *)
Lemma isRetryableError_status_raises (error : exn) (codes : list Z) :
  is_MpesaError error = true →
  is_MpesaNetworkError error = false →
  is_MpesaRateLimitError error = false →
  truthy (status_code error) = true →
  isRetryableError error codes = Raise (not_subscriptable error).
Proof.
  intros Hm Hn Hr Hs. unfold isRetryableError.
  by rewrite Hn, Hr, Hm, Hs.
Qed.

Lemma isRetryableError_rate_limit m ra d (codes : list Z) :
  isRetryableError (MpesaRateLimitError m ra d) codes = Ok true.
Proof. reflexivity. Qed.

Lemma isRetryableError_network m r (codes : list Z) :
  isRetryableError (MpesaNetworkError m r) codes = Ok r.
Proof. reflexivity. Qed.

(** The default retryable set is the one the specification lists. *)
Lemma default_retryable_codes (X : Type) :
  retryableStatusCodes (@DEFAULT_RETRY_OPTIONS X) = [408; 429; 500; 502; 503; 504].
Proof. reflexivity. Qed.

(** C7: a timeout error carries status code 408, which is in the default
    retryable set, so the specification's rule classifies it retryable; the
    classifier of the source does not return a verdict for it: it subscripts
    the exception object and raises [TypeError]. *)
Theorem C7_status_error_makes_classifier_raise :
  let error := MpesaTimeoutError "Request timed out for /mpesa/stkpush/v1/processrequest" in
  let codes := retryableStatusCodes (@DEFAULT_RETRY_OPTIONS unit) in
  spec_status_retryable error codes = Some true
  ∧ isRetryableError error codes
    = Raise (TypeError "'MpesaTimeoutError' object is not subscriptable").
Proof. split; reflexivity. Qed.

(** ** Retry engine *)

Section RetryFacts.
Context {X T : Type}.
Implicit Types (fn : Op X T) (opts : Opts X) (w : World X).

Lemma length_range (n : Z) : length (range n) = Z.to_nat n.
Proof. apply length_seqZ. Qed.

(** Each turn of the loop invokes the operation once. *)
Lemma retry_for_attempts fn opts attempts last w :
  (attempts_made (journal (retry_for fn opts attempts last w).2)
   ≤ attempts_made (journal w) + length attempts)%nat.
Proof.
  revert last w. induction attempts as [|a rest IH]; intros last w.
  - destruct last; simpl; lia.
  - cbn [retry_for]. unfold try_except, bind, log, call, lift. simpl.
    destruct (fn (clock w) (user w)) as [[v|e] x]; simpl; [count_journal|].
    destruct (isRetryableError e _) as [b|te]; simpl; [|count_journal].
    destruct (negb b || (a =? maxRetries opts)); simpl; [count_journal|].
    unfold calculateDelay.
    destruct (is_MpesaRateLimitError e && truthy (retry_after e)); simpl;
      [count_journal|].
    unfold bind, random, ret. simpl.
    destruct (onRetry opts e (a + 1) (clock w) x) as [[[]|e'] x']; simpl;
      [|count_journal].
    etrans; [apply IH|]. count_journal.
Qed.

(** The engine never invokes the operation more than [maxRetries + 1]
    times. *)
Lemma retryWithBackoff_attempts fn options w :
  (attempts_made (journal (retryWithBackoff fn options w).2)
   ≤ attempts_made (journal w)
     + Z.to_nat (maxRetries (merge_options DEFAULT_RETRY_OPTIONS options) + 1))%nat.
Proof.
  unfold retryWithBackoff. etrans; [apply retry_for_attempts|].
  by rewrite length_range.
Qed.

(** A failure the classifier reports as not retryable ends the loop with
    that very error. *)
Lemma retry_for_not_retryable fn opts attempt rest last w e x :
  fn (clock w) (user w) = (Raise e, x) →
  isRetryableError e (retryableStatusCodes opts) = Ok false →
  retry_for fn opts (attempt :: rest) last w
  = (Raise e, set_user x (add_events [EvAttempt attempt] w)).
Proof.
  intros Hfn Hc. cbn [retry_for]. unfold try_except, bind, log, call, lift.
  simpl. by rewrite Hfn, Hc.
Qed.

(** A failure in the last turn that the classifier reports as retryable
    ends the loop with that very error, without [onRetry] or sleep. *)
Lemma retry_for_last_retryable fn opts rest last w e x :
  fn (clock w) (user w) = (Raise e, x) →
  isRetryableError e (retryableStatusCodes opts) = Ok true →
  retry_for fn opts (maxRetries opts :: rest) last w
  = (Raise e, set_user x (add_events [EvAttempt (maxRetries opts)] w)).
Proof.
  intros Hfn Hc. cbn [retry_for]. unfold try_except, bind, log, call, lift.
  simpl. by rewrite Hfn, Hc, Z.eqb_refl.
Qed.

(** A failure on which the classifier itself raises ends the loop with
    the classifier's exception, whatever the turn. *)
Lemma retry_for_classifier_raises fn opts attempt rest last w e x te :
  fn (clock w) (user w) = (Raise e, x) →
  isRetryableError e (retryableStatusCodes opts) = Raise te →
  retry_for fn opts (attempt :: rest) last w
  = (Raise te, set_user x (add_events [EvAttempt attempt] w)).
Proof.
  intros Hfn Hc. cbn [retry_for]. unfold try_except, bind, log, call, lift.
  simpl. by rewrite Hfn, Hc.
Qed.

(** A retryable failure without a retry-after hint, before the last turn:
    [onRetry] is called, the engine sleeps the backoff delay and goes on
    with the next turn. *)
Lemma retry_for_retries fn opts attempt rest last w e x :
  fn (clock w) (user w) = (Raise e, x) →
  isRetryableError e (retryableStatusCodes opts) = Ok true →
  attempt ≠ maxRetries opts →
  truthy (retry_after e) = false →
  retry_for fn opts (attempt :: rest) last w
  = (call (onRetry opts e (attempt + 1)) >>>
     sleep (backoffDelay attempt opts (rng w (draws w))) >>>
     retry_for fn opts rest (Some e))%co
      (add_events [EvOnRetry e (attempt + 1)]
         (drawn (set_user x (add_events [EvAttempt attempt] w)))).
Proof.
  intros Hfn Hc Hne Hra. cbn [retry_for].
  unfold try_except, bind at 1, log at 1, call at 1, lift. simpl.
  rewrite Hfn. simpl. unfold bind at 1. rewrite Hc. simpl.
  apply Z.eqb_neq in Hne. rewrite Hne. simpl.
  unfold calculateDelay. rewrite Hra, andb_false_r.
  reflexivity.
Qed.

(** With [maxRetries = 0] the operation is invoked exactly once. *)
Lemma retryWithBackoff_zero fn options w :
  maxRetries (merge_options DEFAULT_RETRY_OPTIONS options) = 0 →
  attempts_made (journal (retryWithBackoff fn options w).2)
  = S (attempts_made (journal w))
  ∧ sleeps_made (journal (retryWithBackoff fn options w).2)
    = sleeps_made (journal w).
Proof.
  intros H0. unfold retryWithBackoff. rewrite H0. simpl.
  unfold try_except, bind, log, call, lift. simpl.
  destruct (fn (clock w) (user w)) as [[v|e] x]; simpl; [count_journal|].
  destruct (isRetryableError e _) as [b|te]; simpl; [|count_journal].
  rewrite H0. simpl. rewrite orb_true_r. count_journal.
Qed.
End RetryFacts.

(** C2: with [maxRetries = 0] an operation failing with a validation error
    is invoked once, as the claim says, but what reaches the caller is the
    classifier's [TypeError], not the validation error. *)
Theorem C2_original_error_replaced_at_last_attempt :
  let original := MpesaValidationError "Amount must be at least 1" in
  let '(r, w) := retryWithBackoff (always_fail original)
                   (Some (only_maxRetries 0)) (world_at 0 0%nat) in
  r = Raise (TypeError "'MpesaValidationError' object is not subscriptable")
  ∧ r ≠ Raise original
  ∧ journal w = [EvAttempt 0]
  ∧ user w = 1%nat.
Proof. vm_compute. repeat split; congruence. Qed.

(** ** Local rate limiter *)

Section LocalLimiterFacts.
Variable options : RateLimiterOptions.
Variable key : string.
Let fk := full_key options key.
Implicit Types (store : gmap string RateLimitEntry) (now : Z).

(** First use of a key, or a window that is over: the window restarts at
    one and the call is admitted. *)
Lemma checkLimit_restart now store :
  (∀ entry, store !! fk = Some entry → now >= resetAt entry) →
  checkLimit options key now store
  = (Ok (), <[fk := mkEntry 1 (now + windowMs options)]> store).
Proof.
  intros Hexp. unfold checkLimit. fold fk.
  destruct (store !! fk) as [entry|] eqn:E; [|done].
  rewrite bool_decide_eq_true_2; [done|]. by apply Hexp.
Qed.

(** Inside a window, below the limit: the count goes up by one. *)
Lemma checkLimit_below_limit now store entry :
  store !! fk = Some entry →
  now < resetAt entry →
  count entry < maxRequests options →
  checkLimit options key now store
  = (Ok (), <[fk := mkEntry (count entry + 1) (resetAt entry)]> store).
Proof.
  intros E Hnow Hc. unfold checkLimit. fold fk. rewrite E.
  rewrite bool_decide_eq_false_2 by lia.
  by rewrite bool_decide_eq_false_2 by lia.
Qed.

(** Inside a window, at the limit: the call is rejected and the store is
    left as it is. *)
Lemma checkLimit_reject now store entry :
  store !! fk = Some entry →
  now < resetAt entry →
  count entry >= maxRequests options →
  checkLimit options key now store
  = (Raise (rejection options (resetAt entry) now), store).
Proof.
  intros E Hnow Hc. unfold checkLimit. fold fk. rewrite E.
  rewrite bool_decide_eq_false_2 by lia.
  by rewrite bool_decide_eq_true_2 by lia.
Qed.

(** [(x + 999) // 1000] is the ceiling of [x / 1000]. *)
Lemma retry_after_is_ceiling (x : Z) :
  1000 * ((x + 999) / 1000 - 1) < x <= 1000 * ((x + 999) / 1000).
Proof.
  pose proof (Z.div_mod (x + 999) 1000 ltac:(lia)) as Hdm.
  pose proof (Z.mod_pos_bound (x + 999) 1000 ltac:(lia)). lia.
Qed.

(** Calls inside a window that stay within the limit are all admitted. *)
Lemma local_run_within_limit (times : list Z) store entry :
  store !! fk = Some entry →
  Forall (λ t, t < resetAt entry) times →
  count entry + Z.of_nat (length times) <= maxRequests options →
  ∃ store',
    local_run options key times store
    = (replicate (length times) (Ok ()), store')
    ∧ store' !! fk
      = Some (mkEntry (count entry + Z.of_nat (length times)) (resetAt entry)).
Proof.
  revert store entry.
  induction times as [|t times IH]; intros store entry E Hall Hc.
  - exists store. split; [done|]. rewrite E. f_equal. destruct entry. simpl.
    f_equal. lia.
  - inversion Hall as [|? ? Ht Hall']; subst.
    cbn [length] in Hc. cbn [local_run].
    rewrite (checkLimit_below_limit t store entry) by (done || lia).
    destruct (IH (<[fk := mkEntry (count entry + 1) (resetAt entry)]> store)
                 (mkEntry (count entry + 1) (resetAt entry)))
      as (store' & Hrun & Hlook).
    + apply lookup_insert_eq.
    + done.
    + simpl. lia.
    + exists store'. rewrite Hrun. split; [done|].
      rewrite Hlook. simpl. do 2 f_equal. lia.
Qed.

Lemma local_run_app (l1 l2 : list Z) store :
  local_run options key (l1 ++ l2) store
  = let '(rs1, s1) := local_run options key l1 store in
    let '(rs2, s2) := local_run options key l2 s1 in
    (rs1 ++ rs2, s2).
Proof.
  revert store. induction l1 as [|t l1 IH]; intros store; simpl.
  - by destruct (local_run options key l2 store).
  - destruct (checkLimit options key t store) as [r s1]. rewrite IH.
    destruct (local_run options key l1 s1) as [rs1 s1'].
    by destruct (local_run options key l2 s1').
Qed.
End LocalLimiterFacts.

(** C3 (amended): for the local limiter with [maxRequests = N] and window
    [windowMs]: on first use of a key, or once [now >= resetAt], [checkLimit]
    sets [count = 1] and [resetAt = now + windowMs] and admits; and when
    [N >= 1], of the calls made before [resetAt] the N-th is admitted and the
    (N+1)-th is rejected, with [retry_after] the ceiling of
    [(resetAt - now) / 1000] and details holding the limit, the window
    duration and [resetAt]. *)
Theorem C3_fixed_window (options : RateLimiterOptions) (key : string) :
  let N := maxRequests options in
  let W := windowMs options in
  let fk := full_key options key in
  (∀ (now : Z) (store : gmap string RateLimitEntry),
     (∀ entry, store !! fk = Some entry → now >= resetAt entry) →
     checkLimit options key now store = (Ok (), <[fk := mkEntry 1 (now + W)]> store))
  ∧
  (∀ (store : gmap string RateLimitEntry) (t1 : Z) (later : list Z) (tlast : Z),
     1 <= N →
     (∀ entry, store !! fk = Some entry → t1 >= resetAt entry) →
     Z.of_nat (length later) = N - 1 →
     Forall (λ t, t < t1 + W) later →
     tlast < t1 + W →
     let retry_after := (t1 + W - tlast + 999) / 1000 in
     ∃ store',
       local_run options key (t1 :: later ++ [tlast]) store
       = (replicate (Z.to_nat N) (Ok ())
            ++ [Raise (MpesaRateLimitError (rate_limit_message retry_after)
                         (Some retry_after)
                         [("limit", N); ("windowMs", W); ("resetAt", t1 + W)])],
          store')
       ∧ store' !! fk = Some (mkEntry N (t1 + W))
       ∧ 1000 * (retry_after - 1) < t1 + W - tlast <= 1000 * retry_after).
Proof.
  intros N W fk. split.
  { intros now store Hexp. by apply checkLimit_restart. }
  intros store t1 later tlast HN Hexp Hlen Hall Hlast retry_after.
  cbn [local_run]. rewrite checkLimit_restart by done. fold fk W.
  rewrite local_run_app.
  destruct (local_run_within_limit options key later
              (<[fk := mkEntry 1 (t1 + W)]> store) (mkEntry 1 (t1 + W)))
    as (s1 & Hrun & Hlook).
  { apply lookup_insert_eq. }
  { done. }
  { simpl. fold N. lia. }
  rewrite Hrun. cbn [local_run].
  rewrite (checkLimit_reject options key tlast s1 _ Hlook); simpl; [|lia|fold N; lia].
  exists s1. split; [|split].
  - f_equal. unfold rejection. simpl. fold N W retry_after.
    replace (Z.to_nat N) with (S (length later)) by lia. done.
  - fold fk in Hlook. rewrite Hlook. simpl. do 2 f_equal. lia.
  - apply retry_after_is_ceiling.
Qed.

(** At the specification's scenario B: limit 2, window 60000 ms, calls at
    0, 10 and 20 ms. *)
Lemma C3_fixed_window_witness :
  ∃ store',
    local_run (limiter_options 2 60000 None) "stk:254700000000" ([0] ++ [10] ++ [20]) ∅
    = ([Ok (); Ok ();
        Raise (MpesaRateLimitError "Rate limit exceeded. Try again in 60 seconds."
                 (Some 60) [("limit", 2); ("windowMs", 60000); ("resetAt", 60000)])],
       store')
    ∧ store' !! "mpesa:stk:254700000000" = Some (mkEntry 2 60000)
    ∧ 1000 * (60 - 1) < 0 + 60000 - 20 <= 1000 * 60.
Proof.
  apply (proj2 (C3_fixed_window (limiter_options 2 60000 None) "stk:254700000000")
           ∅ 0 [10] 20).
  - simpl. lia.
  - intros entry H. by rewrite lookup_empty in H.
  - reflexivity.
  - repeat constructor.
  - simpl. lia.
Defined.

(** C3 as stated fails for a limit of zero: the first call of a window is
    call number N+1 = 1, and it is admitted, not rejected. *)
Lemma C3_zero_limit_first_call_passes :
  let options := limiter_options 0 60000 None in
  maxRequests options = 0
  ∧ checkLimit options "stk:254700000000" 0 ∅
    = (Ok (), {["mpesa:stk:254700000000" := mkEntry 1 60000]})
  ∧ ¬ ∃ e store', checkLimit options "stk:254700000000" 0 ∅ = (Raise e, store').
Proof.
  split; [reflexivity|]. split; [reflexivity|].
  intros (e & store' & H). apply (f_equal fst) in H. simpl in H. discriminate H.
Qed.

(** ** Local and shared limiter compared *)

Section LimitersInStep.
Variable options : RateLimiterOptions.
Variable key : string.
Let fk := full_key options key.
Hypothesis limit_positive : 1 <= maxRequests options.
Hypothesis whole_seconds : windowMs options mod 1000 = 0.
Hypothesis window_positive : 0 < windowMs options.

(** For a window of whole seconds the expiry handed to the store spans
    exactly the window. *)
Lemma expiry_spans_window :
  (windowMs options + 999) / 1000 * 1000 = windowMs options.
Proof using whole_seconds.
  pose proof (Z.div_mod (windowMs options) 1000 ltac:(lia)) as Hdm.
  rewrite whole_seconds in Hdm.
  replace ((windowMs options + 999) / 1000) with (windowMs options / 1000); [lia|].
  apply (Z.div_unique_pos (windowMs options + 999) 1000 _ 999); lia.
Qed.

Lemma expiry_positive : ((windowMs options + 999) / 1000 <=? 0) = false.
Proof using whole_seconds window_positive.
  pose proof expiry_spans_window. apply Z.leb_gt. lia.
Qed.

(** One call on both limiters, not on the millisecond at which the window
    ends: same decision, and the stores stay in step. *)
Lemma checkLimit_in_step (now : Z) (store : gmap string RateLimitEntry)
    (db : gmap string Redis.cell) :
  in_step options (store !! fk) (db !! fk) →
  match store !! fk with Some e => now ≠ resetAt e | None => True end →
  passes (checkLimit options key now store).1
  = passes (redis_checkLimit options key now db).1
  ∧ in_step options ((checkLimit options key now store).2 !! fk)
                    ((redis_checkLimit options key now db).2 !! fk).
Proof using limit_positive whole_seconds window_positive.
  intros Hstep Hoff. unfold checkLimit, redis_checkLimit, Redis.incr, Redis.find.
  fold fk. unfold in_step in Hstep.
  destruct (store !! fk) as [e|] eqn:E, (db !! fk) as [c|] eqn:C;
    try contradiction.
  - destruct Hstep as (Hexp & Hpos & Hcount).
    unfold Redis.live. rewrite Hexp.
    destruct (decide (now >= resetAt e)) as [Hover|Hin].
    + (* the window is over on both sides *)
      rewrite (bool_decide_eq_true_2 (now >= resetAt e)) by done.
      rewrite (bool_decide_eq_false_2 (now <= resetAt e)) by lia.
      simpl. unfold Redis.expire, Redis.find. rewrite lookup_insert_eq. simpl.
      rewrite expiry_positive.
      rewrite (bool_decide_eq_false_2 (1 > maxRequests options)) by lia.
      simpl. rewrite !lookup_insert_eq. simpl.
      rewrite expiry_spans_window. split; [done|]. split; [done|]. lia.
    + rewrite (bool_decide_eq_false_2 (now >= resetAt e)) by done.
      rewrite (bool_decide_eq_true_2 (now <= resetAt e)) by lia.
      destruct (Z.eqb_spec (Redis.value c + 1) 1) as [H1|_]; [lia|].
      destruct (decide (count e >= maxRequests options)) as [Hfull|Hroom].
      * rewrite (bool_decide_eq_true_2 (count e >= _)) by done.
        rewrite (bool_decide_eq_true_2 (Redis.value c + 1 > _)) by lia.
        simpl. rewrite E, lookup_insert_eq. simpl.
        split; [done|]. split; [done|]. lia.
      * rewrite (bool_decide_eq_false_2 (count e >= _)) by done.
        rewrite (bool_decide_eq_false_2 (Redis.value c + 1 > _)) by lia.
        simpl. rewrite !lookup_insert_eq. simpl.
        split; [done|]. split; [done|]. lia.
  - (* first use on both sides *)
    simpl. unfold Redis.expire, Redis.find. rewrite lookup_insert_eq. simpl.
    rewrite expiry_positive.
    rewrite (bool_decide_eq_false_2 (1 > maxRequests options)) by lia.
    simpl. rewrite !lookup_insert_eq. simpl.
    rewrite expiry_spans_window. split; [done|]. split; [done|]. lia.
Qed.

Lemma decisions_in_step (times : list Z) (store : gmap string RateLimitEntry)
    (db : gmap string Redis.cell) :
  in_step options (store !! fk) (db !! fk) →
  clear_of_window_ends options key times store = true →
  local_decisions options key times store = redis_decisions options key times db.
Proof using limit_positive whole_seconds window_positive.
  revert store db. induction times as [|now times IH]; intros store db Hstep Hoff.
  - reflexivity.
  - cbn [local_decisions redis_decisions clear_of_window_ends] in *.
    apply andb_true_iff in Hoff as [Hnow Hrest]. fold fk in Hnow.
    assert (Hoff : match store !! fk with
                   | Some e => now ≠ resetAt e
                   | None => True
                   end).
    { destruct (store !! fk) as [e|]; [|done].
      apply negb_true_iff, Z.eqb_neq in Hnow. done. }
    destruct (checkLimit_in_step now store db Hstep Hoff) as [Hdec Hnext].
    destruct (checkLimit options key now store) as [r store'].
    destruct (redis_checkLimit options key now db) as [r' db'].
    simpl in Hdec, Hnext, Hrest. rewrite Hdec. f_equal. by apply IH.
Qed.
End LimitersInStep.

(** C4 (amended): when the limit is at least one, the window is a positive
    whole number of seconds and no call falls on the very millisecond at
    which the window then open for the key ends, the local limiter and the
    shared limiter, started on a key that neither store holds, take the same
    admit/reject decision at every position of the sequence of calls on that
    key. *)
Theorem C4_same_decisions_whole_second_window (options : RateLimiterOptions)
    (key : string) (times : list Z)
    (store : gmap string RateLimitEntry) (db : gmap string Redis.cell) :
  1 <= maxRequests options →
  windowMs options mod 1000 = 0 →
  0 < windowMs options →
  store !! full_key options key = None →
  db !! full_key options key = None →
  clear_of_window_ends options key times store = true →
  local_decisions options key times store = redis_decisions options key times db.
Proof.
  intros HN HW HP Hs Hd Hoff. apply decisions_in_step; [done|done|done| |done].
  by rewrite Hs, Hd.
Qed.

Lemma C4_same_decisions_witness :
  local_decisions (limiter_options 2 60000 None) "stk:254700000000"
    [0; 10; 20; 59999; 60001; 60002; 60003; 120002; 120003] ∅
  = redis_decisions (limiter_options 2 60000 None) "stk:254700000000"
      [0; 10; 20; 59999; 60001; 60002; 60003; 120002; 120003] ∅.
Proof.
  apply (C4_same_decisions_whole_second_window (limiter_options 2 60000 None)
           "stk:254700000000"
           [0; 10; 20; 59999; 60001; 60002; 60003; 120002; 120003] ∅ ∅).
  - simpl. lia.
  - reflexivity.
  - simpl. lia.
  - apply lookup_empty.
  - apply lookup_empty.
  - vm_compute. reflexivity.
Defined.

(** C4 as stated fails, in four ways.  With a limit of one and a window of
    1500 ms, calls at 0 ms and 1700 ms are both let through by the local
    limiter (the window ended at 1500), while the shared limiter rejects the
    second one (its key was given an expiry of two seconds).  With a limit
    of zero the local limiter lets the first call through while the shared
    one rejects it.  With a limit of two and a window of 60000 ms, a call at
    60000 ms opens a new window in the local limiter, while the shared
    store still holds the key in that millisecond, so the shared limiter
    rejects it and restarts one call later.  With a limit of one and a
    window of zero, once the clock is set back from 5 ms to 3 ms the local
    limiter still holds the window that ends at 5 and rejects, while the
    store deleted the key when it was given an expiry of zero seconds. *)
Lemma C4_decisions_differ :
  let key := "stk:254700000000" in
  let options := limiter_options 1 1500 None in
  let zero := limiter_options 0 60000 None in
  let minute := limiter_options 2 60000 None in
  let no_window := limiter_options 1 0 None in
  local_decisions options key [0; 1700] ∅ = [true; true]
  ∧ redis_decisions options key [0; 1700] ∅ = [true; false]
  ∧ local_decisions options key [0; 1700] ∅ ≠ redis_decisions options key [0; 1700] ∅
  ∧ local_decisions zero key [0] ∅ = [true]
  ∧ redis_decisions zero key [0] ∅ = [false]
  ∧ local_decisions minute key [0; 10; 20; 60000; 60001; 60002] ∅
    = [true; true; false; true; true; false]
  ∧ redis_decisions minute key [0; 10; 20; 60000; 60001; 60002] ∅
    = [true; true; false; false; true; true]
  ∧ local_decisions no_window key [5; 3] ∅ = [true; false]
  ∧ redis_decisions no_window key [5; 3] ∅ = [true; true].
Proof. vm_compute. repeat split. discriminate. Qed.

(** ** Request executor *)

Lemma checkLimit_raises options key now store e store' :
  checkLimit options key now store = (Raise e, store') →
  is_MpesaRateLimitError e = true ∧ store' = store.
Proof.
  unfold checkLimit. destruct (store !! full_key options key) as [entry|]; [|done].
  repeat case_bool_decide; intros [= <- <-]; done.
Qed.

Lemma redis_checkLimit_raises options key now db e db' :
  redis_checkLimit options key now db = (Raise e, db') →
  is_MpesaRateLimitError e = true.
Proof.
  unfold redis_checkLimit.
  destruct (Redis.incr now (full_key options key) db) as [count db1].
  case_bool_decide; intros [= <- <-]; done.
Qed.

Lemma client_checkLimit_raises {N} key now (c c' : Client N) e :
  client_checkLimit key now c = (Raise e, c') →
  is_MpesaRateLimitError e = true ∧ net c' = net c ∧ posts c' = posts c.
Proof.
  unfold client_checkLimit. destruct (ratelimiter c) as [|options store|options db].
  - done.
  - destruct (checkLimit options key now store) as [r store'] eqn:E.
    intros [= -> <-]. by apply checkLimit_raises in E as [? _].
  - destruct (redis_checkLimit options key now db) as [r db'] eqn:E.
    intros [= -> <-]. by apply redis_checkLimit_raises in E.
Qed.

(** A rejection by the limiter ends [_request] before the token is asked
    for and before anything is posted. *)
Lemma _request_short_circuits {N} (tr : Transport N) endpoint payload key now
    (c c' : Client N) e :
  key ≠ "" →
  client_checkLimit key now c = (Raise e, c') →
  _request tr endpoint payload (Some key) now c = (Raise e, c').
Proof.
  intros Hkey Hcl. unfold _request.
  destruct (ratelimiter c) eqn:R.
  - unfold client_checkLimit in Hcl. by rewrite R in Hcl.
  - rewrite bool_decide_eq_false_2 by done. by rewrite Hcl.
  - rewrite bool_decide_eq_false_2 by done. by rewrite Hcl.
Qed.

(** C1 (amended): when [checkLimit] rejects inside [makeRequest], the
    operation ends before any network attempt (no token request, no POST)
    and the classifier reports the rejection as retryable.  So a rejection
    in the last turn ([attempt = maxRetries]) reaches the caller unchanged
    with no [onRetry] and no sleep after it, and a rejection in an earlier
    turn that carries no non-zero retry-after hint is followed by [onRetry],
    a sleep of the backoff delay and a further turn, which calls
    [checkLimit] again. *)
Theorem C1_limiter_rejection_is_retryable {N} (tr : Transport N)
    (retryOptions : option (RetryOptions (Client N)))
    (endpoint : string) (payload : json) (key : string) (now : Z)
    (c c' : Client N) (e : exn) :
  let fn := _request tr endpoint payload (Some key) in
  let opts := merge_options DEFAULT_RETRY_OPTIONS retryOptions in
  key ≠ "" →
  client_checkLimit key now c = (Raise e, c') →
  fn now c = (Raise e, c') ∧ posts c' = posts c ∧ net c' = net c
  ∧ isRetryableError e (retryableStatusCodes opts) = Ok true
  ∧ (∀ (w : World (Client N)) rest last,
       clock w = now → user w = c →
       retry_for fn opts (maxRetries opts :: rest) last w
       = (Raise e, set_user c' (add_events [EvAttempt (maxRetries opts)] w)))
  ∧ (∀ (w : World (Client N)) attempt rest last,
       clock w = now → user w = c →
       attempt ≠ maxRetries opts →
       truthy (retry_after e) = false →
       retry_for fn opts (attempt :: rest) last w
       = (call (onRetry opts e (attempt + 1)) >>>
          sleep (backoffDelay attempt opts (rng w (draws w))) >>>
          retry_for fn opts rest (Some e))%co
           (add_events [EvOnRetry e (attempt + 1)]
              (drawn (set_user c' (add_events [EvAttempt attempt] w))))).
Proof.
  intros fn opts Hkey Hcl.
  pose proof (client_checkLimit_raises _ _ _ _ _ Hcl) as (Hrl & Hnet & Hposts).
  pose proof (_request_short_circuits tr endpoint payload _ _ _ _ _ Hkey Hcl) as Hfn.
  assert (Hclass : isRetryableError e (retryableStatusCodes opts) = Ok true).
  { destruct e; try discriminate Hrl. reflexivity. }
  split; [done|]. split; [done|]. split; [done|]. split; [done|]. split.
  - intros w rest last Hclock Huser.
    apply retry_for_last_retryable; [|done]. by rewrite Hclock, Huser.
  - intros w attempt rest last Hclock Huser Hne Hra.
    apply retry_for_retries; [|done..]. by rewrite Hclock, Huser.
Qed.

Lemma C1_limiter_rejection_witness :
  let key := "stk:254700000000" in
  let e := MpesaRateLimitError "Rate limit exceeded. Try again in 0 seconds."
             (Some 0) [("limit", 1); ("windowMs", 60000)] in
  let c' := (client_checkLimit key 0 client_shared_ttl).2 in
  _request transport_ok "/mpesa/stkpush/v1/processrequest" (JObj []) (Some key)
    0 client_shared_ttl = (Raise e, c')
  ∧ posts c' = posts client_shared_ttl
  ∧ isRetryableError e [408; 429; 500; 502; 503; 504] = Ok true.
Proof.
  intros key e c'.
  destruct (C1_limiter_rejection_is_retryable transport_ok None
              "/mpesa/stkpush/v1/processrequest" (JObj []) key 0
              client_shared_ttl c' e) as (H1 & H2 & _ & H4 & _).
  - discriminate.
  - vm_compute. reflexivity.
  - split; [exact H1|]. split; [exact H2|exact H4].
Defined.

(** C1 as stated fails: a rejection whose retry-after hint is 0 is retried.
    On a shared limiter whose store holds a TTL key with value 0, and on one
    set up with a limit and a window of 0, [makeRequest] under the default
    policy runs the operation four times and sleeps three times, although
    the limiter rejected the very first turn; nothing is ever posted. *)
Lemma C1_rejection_without_hint_is_retried :
  let key := "stk:254700000000" in
  let run c := makeRequest transport_ok None "/mpesa/stkpush/v1/processrequest"
                 (JObj []) (Some key) (world_at 0 c) in
  let journal_of c := journal (run c).2 in
  (client_checkLimit key 0 client_shared_ttl).1
  = Raise (MpesaRateLimitError "Rate limit exceeded. Try again in 0 seconds."
             (Some 0) [("limit", 1); ("windowMs", 60000)])
  ∧ attempts_made (journal_of client_shared_ttl) = 4%nat
  ∧ sleeps_made (journal_of client_shared_ttl) = 3%nat
  ∧ posts (user (run client_shared_ttl).2) = 0%nat
  ∧ (client_checkLimit key 0 client_shared_zero).1
    = Raise (MpesaRateLimitError "Rate limit exceeded. Try again in 0 seconds."
               (Some 0) [("limit", 0); ("windowMs", 0)])
  ∧ attempts_made (journal_of client_shared_zero) = 4%nat
  ∧ sleeps_made (journal_of client_shared_zero) = 3%nat
  ∧ posts (user (run client_shared_zero).2) = 0%nat.
Proof. vm_compute. repeat split. Qed.

(** The usual case: a rejection by the local limiter carries a hint of at
    least one second, and under the default policy what reaches the caller
    is the [TypeError] of [calculateDelay], after a single turn. *)
Lemma local_rejection_reaches_caller_as_TypeError :
  let '(r, w) := makeRequest transport_ok None "/mpesa/stkpush/v1/processrequest"
                   (JObj []) (Some "stk:254700000000") (world_at 10 client_local_used) in
  r = Raise (TypeError "'MpesaRateLimitError' object is not subscriptable")
  ∧ journal w = [EvAttempt 0]
  ∧ posts (user w) = 0%nat.
Proof. by vm_compute. Qed.

(** A rejection by the local limiter always carries a hint of at least one
    second. *)
Lemma local_rejection_hint_positive options key now store e store' :
  checkLimit options key now store = (Raise e, store') →
  ∃ ra, retry_after e = Some ra ∧ 1 <= ra.
Proof.
  unfold checkLimit. destruct (store !! full_key options key) as [entry|]; [|done].
  repeat case_bool_decide; intros [= <- <-]. eexists. split; [done|].
  pose proof (retry_after_is_ceiling (resetAt entry - now)). lia.
Qed.

(** ** Callback engine *)

Section CallbackFacts.
Context {X : Type}.
Variable B : Builtins.
Implicit Types (self : MpesaCallbackHandler X) (w : World X) (callback : json).

Lemma events_since_add w (evs : list event) (w' : World X) :
  journal w' = journal w ++ evs → events_since w w' = evs.
Proof. intros H. unfold events_since. rewrite H. apply drop_app_length. Qed.

(** What a dispatch adds to the journal: handler events only. *)
Lemma dispatch_journal which h parsed w :
  ∃ evs, journal (dispatch which h parsed w).2 = journal w ++ evs
         ∧ Forall (λ ev, is_handler ev = true) evs.
Proof.
  unfold dispatch. destruct h as [f|].
  - exists [EvHandler which parsed]. unfold bind, log, call. simpl.
    destruct (f parsed (clock w) (user w)) as [[[]|e] x]; simpl;
      (split; [done|by repeat constructor]).
  - exists []. simpl. by rewrite app_nil_r.
Qed.

Lemma dispatch_handlers_journal self parsed w :
  ∃ evs, journal (dispatch_handlers self parsed w).2 = journal w ++ evs
         ∧ Forall (λ ev, is_handler ev = true) evs.
Proof.
  unfold dispatch_handlers, bind.
  destruct (dispatch_journal OnCallback (on_callback self) parsed w)
    as (evs1 & H1 & F1).
  destruct (dispatch OnCallback (on_callback self) parsed w) as [[[]|e] w1];
    simpl in H1 |- *; [|eauto].
  destruct (is_success parsed).
  - destruct (dispatch_journal OnSuccess (on_success self) parsed w1)
      as (evs2 & H2 & F2).
    exists (evs1 ++ evs2). rewrite H2, H1, app_assoc.
    split; [done|by apply Forall_app].
  - destruct (dispatch_journal OnFailure (on_failure self) parsed w1)
      as (evs2 & H2 & F2).
    exists (evs1 ++ evs2). rewrite H2, H1, app_assoc.
    split; [done|by apply Forall_app].
Qed.

(** A callback reported as a duplicate: the predicate's answer is the last
    thing that touches the caller's state, and nothing is dispatched. *)
Lemma process_callback_duplicate self callback w parsed p x :
  parse_callback B callback = Ok parsed →
  is_duplicate self = Some p →
  p (checkout_request_id parsed) (clock w) (user w) = (Ok true, x) →
  ∃ info warning,
    process_callback B self callback w
    = (Ok (), add_events [EvLog "warning" warning]
                (add_events [EvDuplicate (checkout_request_id parsed) true]
                   (set_user x (add_events [EvLog "info" info] w)))).
Proof.
  intros Hparse Hdup Hp. unfold process_callback, bind, lift, log, call, ret.
  rewrite Hparse, Hdup. simpl. rewrite Hp. simpl. eauto.
Qed.

(** The trust check passes for an absent address, an empty one and a
    trusted one alike. *)
Lemma handle_callback_trusted self callback ip w :
  ip = "" ∨ validate_callback_ip self ip = true →
  handle_callback B self callback (Some ip) w = process_callback B self callback w.
Proof.
  intros [->|Hok]; unfold handle_callback; [done|].
  by rewrite Hok, andb_false_r.
Qed.

Lemma handle_callback_untrusted self callback ip w :
  ip ≠ "" →
  validate_callback_ip self ip = false →
  handle_callback B self callback (Some ip) w
  = (Raise (ValueError ("Invalid callback IP: " +:+ ip)),
     add_events [EvLog "warning" ("Invalid callback IP: " +:+ ip)] w).
Proof.
  intros Hne Hbad. unfold handle_callback.
  rewrite bool_decide_eq_false_2 by done. by rewrite Hbad.
Qed.

(** A positive answer in the journal of [process_callback] means that the
    payload parsed and the predicate said so: nothing else writes one. *)
Lemma process_callback_positive_answer self callback w k :
  EvDuplicate k true ∈ events_since w (process_callback B self callback w).2 →
  ∃ parsed p x,
    parse_callback B callback = Ok parsed
    ∧ is_duplicate self = Some p
    ∧ p (checkout_request_id parsed) (clock w) (user w) = (Ok true, x).
Proof.
  unfold process_callback, bind, lift, log, call, ret.
  destruct (parse_callback B callback) as [parsed|e] eqn:Hparse; simpl.
  2:{ rewrite (events_since_add w []) by (by rewrite app_nil_r).
      by intros ?%elem_of_nil. }
  destruct (is_duplicate self) as [p|] eqn:Hdup; simpl.
  - destruct (p (checkout_request_id parsed) (clock w) (user w))
      as [[[]|e] x] eqn:Hp; simpl.
    + intros _. eauto 6.
    + match goal with |- context [dispatch_handlers self parsed ?w2] =>
        destruct (dispatch_handlers_journal self parsed w2) as (evs & H & F)
      end.
      simpl in H. rewrite <- !app_assoc in H.
      rewrite (events_since_add _ _ _ H).
      rewrite !elem_of_app, !elem_of_cons, !elem_of_nil.
      intros [[[=]|[]]|[[[=]|[]]|Hin]].
      rewrite Forall_forall in F. by apply F in Hin.
    + erewrite events_since_add by reflexivity.
      rewrite !elem_of_cons, !elem_of_nil. by intros [[=]|[]].
  - match goal with |- context [dispatch_handlers self parsed ?w2] =>
      destruct (dispatch_handlers_journal self parsed w2) as (evs & H & F)
    end.
    simpl in H. rewrite <- !app_assoc in H.
    rewrite (events_since_add _ _ _ H).
    rewrite !elem_of_app, !elem_of_cons, !elem_of_nil.
    intros [[[=]|[]]|Hin].
    rewrite Forall_forall in F. by apply F in Hin.
Qed.
End CallbackFacts.

(** C5: whenever the duplicate predicate reports the checkout-request id of
    an STK callback as already seen, handling the callback invokes none of
    [on_callback], [on_success], [on_failure], and [handleStkCallback]
    acknowledges with [ResultCode = 0]. *)
Theorem C5_duplicate_dispatches_nothing {X} (B : Builtins)
    (callbackHandler : MpesaCallbackHandler X) (callback : json)
    (ipAddress : option string) (w : World X) (k : json) :
  EvDuplicate k true
    ∈ events_since w (handleStkCallback B callbackHandler callback ipAddress w).2 →
  handlers_invoked (journal (handleStkCallback B callbackHandler callback ipAddress w).2)
  = handlers_invoked (journal w)
  ∧ (handleStkCallback B callbackHandler callback ipAddress w).1
    = Ok (mkResponse 0 "Accepted").
Proof.
  assert (Hproc :
    EvDuplicate k true
      ∈ events_since w (process_callback B callbackHandler callback w).2 →
    (process_callback B callbackHandler callback w).1 = Ok ()
    ∧ handlers_invoked (journal (process_callback B callbackHandler callback w).2)
      = handlers_invoked (journal w)).
  { intros Hin.
    destruct (process_callback_positive_answer B callbackHandler callback w k Hin)
      as (parsed & p & x & Hp & Hd & Hx).
    destruct (process_callback_duplicate B callbackHandler callback w parsed p x
                Hp Hd Hx) as (info & warning & Hrun).
    rewrite Hrun. split; [done|]. count_journal. }
  unfold handleStkCallback, try_except, bind, ret.
  destruct ipAddress as [ip|].
  - destruct (decide (ip = "")) as [->|Hne].
    { rewrite handle_callback_trusted by (by left).
      destruct (process_callback B callbackHandler callback w) as [[[]|e] w'];
        simpl in *; intros Hin; destruct (Hproc Hin) as [Hr Hh];
        [done|discriminate]. }
    destruct (validate_callback_ip callbackHandler ip) eqn:Hv.
    { rewrite handle_callback_trusted by (by right).
      destruct (process_callback B callbackHandler callback w) as [[[]|e] w'];
        simpl in *; intros Hin; destruct (Hproc Hin) as [Hr Hh];
        [done|discriminate]. }
    rewrite handle_callback_untrusted by done. simpl.
    erewrite events_since_add by reflexivity.
    rewrite !elem_of_cons, !elem_of_nil. by intros [[=]|[]].
  - unfold handle_callback.
    destruct (process_callback B callbackHandler callback w) as [[[]|e] w'];
      simpl in *; intros Hin; destruct (Hproc Hin) as [Hr Hh];
      [done|discriminate].
Qed.

Lemma C5_duplicate_witness :
  handlers_invoked
    (journal (handleStkCallback sample_builtins handler_seen_all stk_success_payload
                (Some "196.201.214.200") (world_at 0 0%nat)).2)
  = handlers_invoked (journal (world_at 0 0%nat))
  ∧ (handleStkCallback sample_builtins handler_seen_all stk_success_payload
       (Some "196.201.214.200") (world_at 0 0%nat)).1
    = Ok (mkResponse 0 "Accepted").
Proof.
  apply (C5_duplicate_dispatches_nothing sample_builtins handler_seen_all
           stk_success_payload (Some "196.201.214.200") (world_at 0 0%nat)
           (JStr "ws_CO_191220191020363925")).
  apply list_elem_of_In. vm_compute. right. left. reflexivity.
Defined.

(** C6: [handleStkCallback] never raises.  It returns
    [{ResultCode: 0, ResultDesc: "Accepted"}] when [handle_callback] returned
    and [{ResultCode: 1, ResultDesc: "Internal Error"}] when it raised,
    whatever was raised: by the trust check, the parser, the duplicate
    predicate or a handler. *)
Theorem C6_always_acknowledged {X} (B : Builtins)
    (callbackHandler : MpesaCallbackHandler X) (callback : json)
    (ipAddress : option string) (w : World X) :
  ∃ (resp : CallbackResponse) (w' : World X),
    handleStkCallback B callbackHandler callback ipAddress w = (Ok resp, w')
    ∧ (handle_callback B callbackHandler callback ipAddress w = (Ok (), w')
       ∧ resp = mkResponse 0 "Accepted"
       ∨ (∃ e, handle_callback B callbackHandler callback ipAddress w = (Raise e, w'))
         ∧ resp = mkResponse 1 "Internal Error").
Proof.
  unfold handleStkCallback, try_except, bind, ret.
  destruct (handle_callback B callbackHandler callback ipAddress w)
    as [[[]|e] w'] eqn:Heq; simpl.
  - exists (mkResponse 0 "Accepted"), w'. split; [done|]. by left.
  - exists (mkResponse 1 "Internal Error"), w'. split; [done|]. right. eauto.
Qed.

(** C8 (amended): when IP validation is on and a non-empty source address
    is not in the allow-list, [handle_callback] raises
    [ValueError("Invalid callback IP: <address>")] before any parsing: the
    payload is not looked at, the caller's state is untouched, only the
    warning is logged, no handler is dispatched, and [handleStkCallback]
    turns the exception into the acknowledgment with [ResultCode = 1]. *)
Theorem C8_untrusted_address_raises_ValueError {X} (B : Builtins)
    (self : MpesaCallbackHandler X) (callback : json) (ip : string) (w : World X) :
  validate_ip self = true →
  ip ≠ "" →
  ip ∉ allowed_ips self →
  let warning := "Invalid callback IP: " +:+ ip in
  handle_callback B self callback (Some ip) w
  = (Raise (ValueError warning), add_events [EvLog "warning" warning] w)
  ∧ handlers_invoked (journal (handle_callback B self callback (Some ip) w).2)
    = handlers_invoked (journal w)
  ∧ user (handle_callback B self callback (Some ip) w).2 = user w
  ∧ (handleStkCallback B self callback (Some ip) w).1
    = Ok (mkResponse 1 "Internal Error").
Proof.
  intros Hv Hne Hnot warning.
  assert (Hbad : validate_callback_ip self ip = false).
  { unfold validate_callback_ip. rewrite Hv. simpl. by apply bool_decide_eq_false_2. }
  pose proof (handle_callback_untrusted B self callback ip w Hne Hbad) as Hrun.
  fold warning in Hrun. split; [done|].
  unfold handleStkCallback, try_except, bind. rewrite Hrun. simpl.
  split; [count_journal|done].
Qed.

Lemma C8_untrusted_address_witness :
  handle_callback sample_builtins handler_default stk_success_payload
    (Some "10.0.0.1") (world_at 0 0%nat)
  = (Raise (ValueError "Invalid callback IP: 10.0.0.1"),
     add_events [EvLog "warning" "Invalid callback IP: 10.0.0.1"] (world_at 0 0%nat)).
Proof.
  apply (C8_untrusted_address_raises_ValueError sample_builtins handler_default
           stk_success_payload "10.0.0.1" (world_at 0 0%nat)).
  - reflexivity.
  - discriminate.
  - intros Hin. apply list_elem_of_In in Hin. simpl in Hin.
    repeat (destruct Hin as [Hin|Hin]; [discriminate Hin|]). exact Hin.
Defined.

(** C8 as stated fails: the rejection of an untrusted address is a
    [ValueError], not an authorization error; and an empty address, though
    supplied and not in the allow-list, is not rejected at all: the callback
    is parsed and dispatched. *)
Lemma C8_rejection_is_not_an_AuthError :
  (handle_callback sample_builtins handler_default stk_success_payload
     (Some "10.0.0.1") (world_at 0 0%nat)).1
  = Raise (ValueError "Invalid callback IP: 10.0.0.1")
  ∧ (∀ m, (handle_callback sample_builtins handler_default stk_success_payload
             (Some "10.0.0.1") (world_at 0 0%nat)).1 ≠ Raise (MpesaAuthError m))
  ∧ validate_callback_ip handler_default "" = false
  ∧ (handle_callback sample_builtins handler_default stk_success_payload
       (Some "") (world_at 0 0%nat)).1 = Ok ()
  ∧ handlers_invoked
      (journal (handle_callback sample_builtins handler_default stk_success_payload
                  (Some "") (world_at 0 0%nat)).2) = 2%nat.
Proof.
  split; [by vm_compute|]. split; [intros m; by vm_compute|].
  split; [by vm_compute|]. split; by vm_compute.
Qed.

(** C9 (amended): with IP validation disabled every source address is
    trusted; a handler constructed with an empty (or no) allow-list and
    validation on (the default) trusts exactly the built-in gateway
    addresses. *)
Theorem C9_disabled_trusts_all_empty_falls_back {X}
    (on_success on_failure on_callback : option (ParsedCallbackData → Op X unit))
    (allowed_ips : option (list string))
    (is_duplicate : option (json → Op X bool)) (ip_address : string) :
  validate_callback_ip
    (MpesaCallbackHandler_init on_success on_failure on_callback
       (Some false) allowed_ips is_duplicate) ip_address = true
  ∧ validate_callback_ip
      (MpesaCallbackHandler_init on_success on_failure on_callback
         (Some true) (Some []) is_duplicate) ip_address
    = bool_decide (ip_address ∈ SAFARICOM_IPS)
  ∧ validate_callback_ip
      (MpesaCallbackHandler_init on_success on_failure on_callback
         None (Some []) is_duplicate) ip_address
    = bool_decide (ip_address ∈ SAFARICOM_IPS)
  ∧ validate_callback_ip
      (MpesaCallbackHandler_init on_success on_failure on_callback
         None None is_duplicate) ip_address
    = bool_decide (ip_address ∈ SAFARICOM_IPS).
Proof. repeat split. Qed.

(** C9 as stated fails: a handler constructed with an empty allow-list does
    not trust an address outside the built-in list. *)
Lemma C9_empty_allow_list_does_not_trust_all :
  allowed_ips handler_empty_allow_list = SAFARICOM_IPS
  ∧ validate_callback_ip handler_empty_allow_list "10.0.0.1" = false.
Proof. split; by vm_compute. Qed.

(** C10: a call of [handle_callback] without an address skips the trust
    check, whatever [validate_ip] and the allow-list are, and goes on to
    parsing, the duplicate check and dispatch exactly as a call with a
    trusted address does. *)
Theorem C10_absent_address_is_handled_as_trusted {X} (B : Builtins)
    (self : MpesaCallbackHandler X) (callback : json) (w : World X) :
  handle_callback B self callback None w = process_callback B self callback w
  ∧ ∀ ip : string,
      ip ≠ "" →
      validate_callback_ip self ip = true →
      handle_callback B self callback None w
      = handle_callback B self callback (Some ip) w.
Proof.
  split; [reflexivity|]. intros ip _ Hok.
  rewrite handle_callback_trusted by (by right). reflexivity.
Qed.

Lemma C10_absent_address_witness :
  validate_ip handler_default = true
  ∧ handle_callback sample_builtins handler_default stk_success_payload None
      (world_at 0 0%nat)
    = handle_callback sample_builtins handler_default stk_success_payload
        (Some "196.201.214.200") (world_at 0 0%nat).
Proof.
  split; [reflexivity|].
  apply (proj2 (C10_absent_address_is_handled_as_trusted sample_builtins
                  handler_default stk_success_payload (world_at 0 0%nat))
           "196.201.214.200").
  - discriminate.
  - reflexivity.
Defined.

(** * Further properties *)

(** ** Retry engine *)

Section RetryRuns.
Context {X T : Type}.
Implicit Types (fn : Op X T) (opts : Opts X) (w : World X).

Lemma seqZ_succ (a : Z) (k : nat) :
  seqZ a (Z.of_nat (S k)) = a :: seqZ (a + 1) (Z.of_nat k).
Proof.
  rewrite seqZ_cons by lia. f_equal. f_equal; lia.
Qed.

(** Sleeps happen between turns only: over the turns [a, a+1, ..] ending
    with turn [maxRetries] there is at most one sleep less than turns. *)
Lemma retry_for_sleeps fn opts (k : nat) (a : Z) last w :
  a + Z.of_nat k = maxRetries opts →
  (sleeps_made (journal (retry_for fn opts (seqZ a (Z.of_nat (S k))) last w).2)
   ≤ sleeps_made (journal w) + k)%nat.
Proof.
  revert a last w. induction k as [|k IH]; intros a last w Hlast.
  - replace a with (maxRetries opts) by lia. change (Z.of_nat 1) with 1.
    cbn [seqZ]. simpl. unfold try_except, bind, log, call, lift. simpl.
    destruct (fn (clock w) (user w)) as [[v|e] x]; simpl; [count_journal|].
    destruct (isRetryableError e _) as [b|te]; simpl; [|count_journal].
    rewrite Z.eqb_refl, orb_true_r. count_journal.
  - rewrite seqZ_succ. cbn [retry_for].
    unfold try_except, bind, log, call, lift. simpl.
    destruct (fn (clock w) (user w)) as [[v|e] x]; simpl; [count_journal|].
    destruct (isRetryableError e _) as [b|te]; simpl; [|count_journal].
    destruct (negb b || (a =? maxRetries opts)); simpl; [count_journal|].
    unfold calculateDelay.
    destruct (is_MpesaRateLimitError e && truthy (retry_after e)); simpl;
      [count_journal|].
    unfold bind, random, ret. simpl.
    destruct (onRetry opts e (a + 1) (clock w) x) as [[[]|e'] x']; simpl;
      [|count_journal].
    etrans; [apply IH; lia|]. count_journal.
Qed.

(** An operation that fails each time with an error retried after a
    backoff is run in every turn, with a sleep between two turns, and the
    error of the last turn is what comes out. *)
Lemma retry_for_exhausts fn opts (k : nat) (a : Z) last w :
  a + Z.of_nat k = maxRetries opts →
  (∀ now x, ∃ e x', fn now x = (Raise e, x')
                    ∧ retried_with_backoff (retryableStatusCodes opts) e) →
  (∀ e n now x, ∃ x', onRetry opts e n now x = (Ok (), x')) →
  ∃ e w',
    retry_for fn opts (seqZ a (Z.of_nat (S k))) last w = (Raise e, w')
    ∧ retried_with_backoff (retryableStatusCodes opts) e
    ∧ attempts_made (journal w') = (attempts_made (journal w) + S k)%nat
    ∧ sleeps_made (journal w') = (sleeps_made (journal w) + k)%nat.
Proof.
  intros Hlast Hfn Hon. revert a last w Hlast.
  induction k as [|k IH]; intros a last w Hlast.
  - replace a with (maxRetries opts) by lia. change (Z.of_nat 1) with 1.
    cbn [seqZ]. simpl seqZ.
    destruct (Hfn (clock w) (user w)) as (e & x & He & Hr & Hh).
    exists e. eexists. split.
    { change (seqZ (maxRetries opts) 1) with [maxRetries opts].
      by apply retry_for_last_retryable. }
    split; [done|]. count_journal.
  - rewrite seqZ_succ.
    destruct (Hfn (clock w) (user w)) as (e & x & He & Hr & Hh).
    rewrite (retry_for_retries fn opts a _ last w e x He Hr) by (done || lia).
    set (w1 := add_events _ _).
    destruct (Hon e (a + 1) (clock w1) (user w1)) as (x' & Hx').
    unfold bind at 1. unfold call at 1. rewrite Hx'. simpl.
    unfold bind at 1. unfold sleep at 1.
    match goal with |- context [retry_for fn opts _ _ ?w2] =>
      destruct (IH (a + 1) (Some e) w2 ltac:(lia)) as (e2 & w' & Hrun & Hr2 & Ha & Hs)
    end.
    exists e2, w'. split; [exact Hrun|]. split; [done|].
    rewrite Ha, Hs. subst w1. count_journal.
Qed.
End RetryRuns.

(** X1: [retryWithBackoff] invokes the operation at most [maxRetries + 1]
    times and sleeps at most [maxRetries] times, whatever the operation, the
    [onRetry] callback and the world do. *)
Theorem X1_attempts_and_sleeps_bounded {X T} (fn : Op X T)
    (options : option (RetryOptions X)) (w : World X) :
  let opts := merge_options DEFAULT_RETRY_OPTIONS options in
  let w' := (retryWithBackoff fn options w).2 in
  (attempts_made (journal w')
   ≤ attempts_made (journal w) + Z.to_nat (maxRetries opts + 1))%nat
  ∧ (sleeps_made (journal w')
     ≤ sleeps_made (journal w) + Z.to_nat (maxRetries opts))%nat.
Proof.
  intros opts w'. split; [apply retryWithBackoff_attempts|].
  subst w'. unfold retryWithBackoff. fold opts.
  destruct (decide (0 <= maxRetries opts)) as [Hpos|Hneg].
  - replace (maxRetries opts + 1) with (Z.of_nat (S (Z.to_nat (maxRetries opts))))
      by lia.
    unfold range. apply retry_for_sleeps. lia.
  - unfold range. rewrite seqZ_nil by lia. simpl. lia.
Qed.

(** X2: an operation that always fails with an error retried after a
    backoff (a retryable network error, say) is invoked exactly
    [maxRetries + 1] times with exactly [maxRetries] sleeps in between, and
    the caller receives such an error. *)
Theorem X2_persistent_failure_exhausts_the_policy {X T} (fn : Op X T)
    (options : option (RetryOptions X)) (w : World X) :
  let opts := merge_options DEFAULT_RETRY_OPTIONS options in
  0 <= maxRetries opts →
  (∀ now x, ∃ e x', fn now x = (Raise e, x')
                    ∧ retried_with_backoff (retryableStatusCodes opts) e) →
  (∀ e n now x, ∃ x', onRetry opts e n now x = (Ok (), x')) →
  ∃ e w',
    retryWithBackoff fn options w = (Raise e, w')
    ∧ retried_with_backoff (retryableStatusCodes opts) e
    ∧ attempts_made (journal w')
      = (attempts_made (journal w) + Z.to_nat (maxRetries opts + 1))%nat
    ∧ sleeps_made (journal w')
      = (sleeps_made (journal w) + Z.to_nat (maxRetries opts))%nat.
Proof.
  intros opts Hpos Hfn Hon. unfold retryWithBackoff, range. fold opts.
  destruct (retry_for_exhausts fn opts (Z.to_nat (maxRetries opts)) 0 None w)
    as (e & w' & Hrun & Hr & Ha & Hs); [lia|done|done|].
  replace (Z.of_nat (S (Z.to_nat (maxRetries opts)))) with (maxRetries opts + 1)
    in Hrun by lia.
  exists e, w'. split; [done|]. split; [done|].
  rewrite Ha, Hs. split; lia.
Qed.

Lemma X2_persistent_failure_witness :
  ∃ e w',
    retryWithBackoff (always_fail (MpesaNetworkError "connection reset" true))
      None (world_at 0 0%nat) = (Raise e, w')
    ∧ retried_with_backoff [408; 429; 500; 502; 503; 504] e
    ∧ attempts_made (journal w') = 4%nat
    ∧ sleeps_made (journal w') = 3%nat.
Proof.
  apply (X2_persistent_failure_exhausts_the_policy
           (always_fail (MpesaNetworkError "connection reset" true)) None
           (world_at 0 0%nat)).
  - simpl. lia.
  - intros now x. eexists _, _. split; [reflexivity|]. by split.
  - intros e n now x. by eexists.
Defined.

Section ScriptedRuns.
Context {T : Type}.
Variable opts : Opts nat.
Variable script : list (result T).
Variable fallback : result T.
Variable v : T.
Hypothesis quiet_onRetry : ∀ e n now x, onRetry opts e n now x = (Ok (), x).

(** A script of failures retried after a backoff, followed by a success:
    the engine plays it to the end and returns the success. *)
Lemma retry_for_recovers (failures : list exn) (k : nat) (a : Z) last
    (w : World nat) :
  a + Z.of_nat (length failures) <= maxRetries opts →
  (length failures ≤ k)%nat →
  Forall (retried_with_backoff (retryableStatusCodes opts)) failures →
  (∀ i e, failures !! i = Some e → script !! (user w + i)%nat = Some (Raise e)) →
  script !! (user w + length failures)%nat = Some (Ok v) →
  ∃ w',
    retry_for (scripted script fallback) opts (seqZ a (Z.of_nat (S k))) last w
    = (Ok v, w')
    ∧ user w' = (user w + S (length failures))%nat
    ∧ attempts_made (journal w')
      = (attempts_made (journal w) + S (length failures))%nat
    ∧ sleeps_made (journal w') = (sleeps_made (journal w) + length failures)%nat.
Proof using quiet_onRetry.
  revert k a last w.
  induction failures as [|e fs IH]; intros k a last w Ha Hk Hall Hfail Hok.
  - rewrite seqZ_succ. cbn [retry_for].
    unfold try_except, bind, log, call, scripted. simpl.
    simpl in Hok. rewrite Nat.add_0_r in Hok. rewrite Hok. simpl.
    eexists. split; [reflexivity|]. simpl. split; [lia|]. count_journal.
  - destruct k as [|k]; [simpl in Hk; lia|].
    inversion Hall as [|? ? [Hr Hh] Hall']; subst.
    rewrite seqZ_succ.
    assert (Hfn : scripted script fallback (clock w) (user w)
                  = (Raise e, S (user w))).
    { unfold scripted. specialize (Hfail 0%nat e eq_refl).
      rewrite Nat.add_0_r in Hfail. by rewrite Hfail. }
    simpl in Ha.
    rewrite (retry_for_retries _ opts a _ last w e _ Hfn Hr) by (done || lia).
    unfold bind at 1. unfold call at 1. rewrite quiet_onRetry. simpl.
    unfold bind at 1. unfold sleep at 1.
    match goal with |- context [retry_for _ opts _ _ ?w2] =>
      destruct (IH k (a + 1) (Some e) w2) as (w' & Hrun & Hu & Hat & Hsl)
    end.
    + lia.
    + simpl in Hk. lia.
    + done.
    + intros i e' Hi. simpl.
      specialize (Hfail (S i) e' Hi). by rewrite <- Nat.add_succ_comm in Hfail.
    + simpl. simpl in Hok. by rewrite <- Nat.add_succ_comm in Hok.
    + exists w'. split; [exact Hrun|]. simpl in Hu, Hat, Hsl.
      rewrite Hu, Hat, Hsl. simpl. split; [lia|]. count_journal.
Qed.
End ScriptedRuns.

(** X3: when an operation fails [k <= maxRetries] times in a row with errors
    retried after a backoff and then succeeds, [retryWithBackoff] returns
    its result after exactly [k + 1] invocations and [k] sleeps. *)
Theorem X3_transient_failures_are_absorbed {T} (failures : list exn) (v : T)
    (fallback : result T) (options : option (RetryOptions nat)) (w : World nat) :
  let opts := merge_options DEFAULT_RETRY_OPTIONS options in
  let fn := scripted ((Raise <$> failures) ++ [Ok v]) fallback in
  user w = 0%nat →
  Z.of_nat (length failures) <= maxRetries opts →
  Forall (retried_with_backoff (retryableStatusCodes opts)) failures →
  (∀ e n now x, onRetry opts e n now x = (Ok (), x)) →
  ∃ w',
    retryWithBackoff fn options w = (Ok v, w')
    ∧ user w' = S (length failures)
    ∧ attempts_made (journal w')
      = (attempts_made (journal w) + S (length failures))%nat
    ∧ sleeps_made (journal w') = (sleeps_made (journal w) + length failures)%nat.
Proof.
  intros opts fn Hstart Hlen Hall Hquiet.
  unfold retryWithBackoff, range. fold opts.
  destruct (retry_for_recovers opts ((Raise <$> failures) ++ [Ok v]) fallback v
              Hquiet failures (Z.to_nat (maxRetries opts)) 0 None w)
    as (w' & Hrun & Hu & Ha & Hs).
  - lia.
  - lia.
  - done.
  - intros i e Hi. rewrite Hstart. simpl.
    rewrite lookup_app_l by (rewrite length_fmap; by eapply lookup_lt_Some).
    by rewrite list_lookup_fmap, Hi.
  - rewrite Hstart. simpl.
    rewrite lookup_app_r by (by rewrite length_fmap).
    by rewrite length_fmap, Nat.sub_diag.
  - replace (Z.of_nat (S (Z.to_nat (maxRetries opts)))) with (maxRetries opts + 1)
      in Hrun by lia.
    exists w'. rewrite Hstart in Hu. done.
Qed.

Lemma X3_transient_failures_witness :
  ∃ w',
    retryWithBackoff
      (scripted ((Raise <$> [MpesaNetworkError "reset" true;
                             OtherException None (Some "ECONNREFUSED") "refused"])
                 ++ [Ok 7]) (Ok 0))
      None (world_at 0 0%nat) = (Ok 7, w')
    ∧ user w' = 3%nat
    ∧ attempts_made (journal w') = 3%nat
    ∧ sleeps_made (journal w') = 2%nat.
Proof.
  apply (X3_transient_failures_are_absorbed
           [MpesaNetworkError "reset" true;
            OtherException None (Some "ECONNREFUSED") "refused"]
           7 (Ok 0) None (world_at 0 0%nat)).
  - reflexivity.
  - simpl. lia.
  - repeat constructor.
  - reflexivity.
Defined.

(** X4: with a negative [maxRetries] the loop has no turn: the operation is
    never invoked and [raise last_error], with [last_error] still [None],
    raises a [TypeError]. *)
Theorem X4_negative_maxRetries_never_invokes {X T} (fn : Op X T)
    (options : option (RetryOptions X)) (w : World X) :
  maxRetries (merge_options DEFAULT_RETRY_OPTIONS options) < 0 →
  retryWithBackoff fn options w
  = (Raise (TypeError "exceptions must derive from BaseException"), w).
Proof.
  intros Hneg. unfold retryWithBackoff, range. by rewrite seqZ_nil by lia.
Qed.

Lemma X4_negative_maxRetries_witness :
  retryWithBackoff (always_fail (ValueError "unused"))
    (Some (only_maxRetries (-1))) (world_at 0 0%nat)
  = (Raise (TypeError "exceptions must derive from BaseException"), world_at 0 0%nat).
Proof.
  apply (X4_negative_maxRetries_never_invokes (always_fail (ValueError "unused"))
           (Some (only_maxRetries (-1))) (world_at 0 0%nat)).
  simpl. lia.
Defined.

(** X5: an error on which the classifier answers "not retryable" (an
    exception that is no [MpesaError] and has neither the name [FetchError]
    nor a connection code, or a network error flagged not retryable) ends
    [retryWithBackoff] in the turn it occurs in: it reaches the caller
    unchanged, and neither [onRetry] nor a sleep follows. *)
Theorem X5_unretryable_error_ends_the_run {X T} (fn : Op X T)
    (options : option (RetryOptions X)) (w : World X) (e : exn) (x : X) :
  let opts := merge_options DEFAULT_RETRY_OPTIONS options in
  0 <= maxRetries opts →
  fn (clock w) (user w) = (Raise e, x) →
  isRetryableError e (retryableStatusCodes opts) = Ok false →
  retryWithBackoff fn options w
  = (Raise e, set_user x (add_events [EvAttempt 0] w)).
Proof.
  intros opts Hpos Hfn Hc. unfold retryWithBackoff, range. fold opts.
  rewrite seqZ_cons by lia. by apply retry_for_not_retryable.
Qed.

Lemma X5_unretryable_error_witness :
  retryWithBackoff (always_fail (MpesaNetworkError "certificate rejected" false))
    None (world_at 0 0%nat)
  = (Raise (MpesaNetworkError "certificate rejected" false),
     set_user 1%nat (add_events [EvAttempt 0] (world_at 0 0%nat))).
Proof.
  apply (X5_unretryable_error_ends_the_run
           (always_fail (MpesaNetworkError "certificate rejected" false))
           None (world_at 0 0%nat)).
  - simpl. lia.
  - reflexivity.
  - reflexivity.
Defined.

(** The classifier has no verdict that depends on the list it is given. *)
Lemma isRetryableError_ignores_codes (e : exn) (codes codes' : list Z) :
  isRetryableError e codes = isRetryableError e codes'.
Proof. reflexivity. Qed.

Lemma retry_for_ignores_codes {X T} (fn : Op X T) (opts opts' : Opts X)
    (attempts : list Z) last (w : World X) :
  maxRetries opts = maxRetries opts' →
  initialDelayMs opts = initialDelayMs opts' →
  maxDelayMs opts = maxDelayMs opts' →
  backoffMultiplier opts = backoffMultiplier opts' →
  onRetry opts = onRetry opts' →
  retry_for fn opts attempts last w = retry_for fn opts' attempts last w.
Proof.
  intros Hm Hi Hd Hb Ho. revert last w.
  induction attempts as [|a rest IH]; intros last w; [done|].
  cbn [retry_for]. unfold try_except, bind, log, call, lift. simpl.
  destruct (fn (clock w) (user w)) as [[r|e] x]; simpl; [done|].
  rewrite (isRetryableError_ignores_codes e _ (retryableStatusCodes opts')).
  destruct (isRetryableError e _) as [b|te]; simpl; [|done].
  rewrite Hm. destruct (negb b || (a =? maxRetries opts')); simpl; [done|].
  unfold calculateDelay.
  destruct (is_MpesaRateLimitError e && truthy (retry_after e)); simpl; [done|].
  unfold bind, random, ret, backoffDelay. simpl. rewrite Hi, Hd, Hb, Ho.
  destruct (onRetry opts' e (a + 1) (clock w) x) as [[[]|e'] x']; simpl; [|done].
  apply IH.
Qed.

(** X6: the option [retryableStatusCodes] has no effect: whatever list is
    put under that key, [retryWithBackoff] returns the same result and
    leaves the same world. *)
Theorem X6_status_code_option_has_no_effect {X T} (fn : Op X T)
    (options : option (RetryOptions X)) (codes : list Z) (w : World X) :
  retryWithBackoff fn (Some (with_status_codes codes options)) w
  = retryWithBackoff fn options w.
Proof.
  unfold retryWithBackoff.
  assert (Hm : maxRetries (merge_options DEFAULT_RETRY_OPTIONS
                             (Some (with_status_codes codes options)))
               = maxRetries (merge_options DEFAULT_RETRY_OPTIONS options)).
  { by destruct options. }
  rewrite Hm. apply retry_for_ignores_codes; by destruct options.
Qed.

(** ** Local rate limiter, further *)

Lemma append_inv_head (p s s' : string) : p +:+ s = p +:+ s' → s = s'.
Proof. induction p as [|c p IH]; simpl; [done|]. intros [= H]. by apply IH. Qed.

Lemma full_key_inj (options : RateLimiterOptions) (k k' : string) :
  full_key options k = full_key options k' → k = k'.
Proof.
  unfold full_key. intros H%append_inv_head. by apply (append_inv_head ":") in H.
Qed.

(** What [checkLimit] stores under keys other than the full key it works
    on: what was there. *)
Lemma checkLimit_other_entries options key now
    (store : gmap string RateLimitEntry) (k : string) :
  k ≠ full_key options key →
  (checkLimit options key now store).2 !! k = store !! k.
Proof.
  intros Hne. unfold checkLimit.
  destruct (store !! full_key options key) as [entry|]; simpl;
    repeat case_bool_decide; simpl; by rewrite ?lookup_insert_ne.
Qed.

(** X7: the windows of different keys do not interfere: a call of
    [checkLimit] for one key, admitted or rejected, leaves the usage
    reported for every other key as it was. *)
Theorem X7_keys_do_not_interfere (options : RateLimiterOptions)
    (key other : string) (now later : Z) (store : gmap string RateLimitEntry) :
  other ≠ key →
  getUsage options other later (checkLimit options key now store).2
  = getUsage options other later store
  ∧ (checkLimit options other later (checkLimit options key now store).2).1
    = (checkLimit options other later store).1.
Proof.
  intros Hne.
  assert (Hk : full_key options other ≠ full_key options key).
  { intros H. by apply full_key_inj in H. }
  pose proof (checkLimit_other_entries options key now store _ Hk) as Hsame.
  split.
  - unfold getUsage. by rewrite Hsame.
  - unfold checkLimit at 1 3. rewrite Hsame.
    destruct (store !! full_key options other) as [entry|]; [|done].
    by repeat case_bool_decide.
Qed.

Lemma X7_keys_do_not_interfere_witness :
  getUsage (limiter_options 1 60000 None) "b2c:254711111111" 20
    (checkLimit (limiter_options 1 60000 None) "stk:254700000000" 10 ∅).2
  = getUsage (limiter_options 1 60000 None) "b2c:254711111111" 20 ∅
  ∧ (checkLimit (limiter_options 1 60000 None) "b2c:254711111111" 20
       (checkLimit (limiter_options 1 60000 None) "stk:254700000000" 10 ∅).2).1
    = (checkLimit (limiter_options 1 60000 None) "b2c:254711111111" 20 ∅).1.
Proof.
  apply (X7_keys_do_not_interfere (limiter_options 1 60000 None)
           "stk:254700000000" "b2c:254711111111" 10 20 ∅).
  discriminate.
Defined.

Lemma checkLimit_keeps_counts_in_range options key now
    (store : gmap string RateLimitEntry) :
  counts_in_range options store →
  counts_in_range options (checkLimit options key now store).2.
Proof.
  intros Hinv k e. unfold checkLimit.
  destruct (store !! full_key options key) as [entry|] eqn:E; simpl.
  - pose proof (Hinv _ _ E) as Hentry.
    repeat case_bool_decide; simpl; [| by apply Hinv |];
      (destruct (decide (k = full_key options key)) as [->|Hne];
       [rewrite lookup_insert_eq; intros [= <-]; simpl; lia
       |rewrite lookup_insert_ne by done; apply Hinv]).
  - destruct (decide (k = full_key options key)) as [->|Hne];
      [rewrite lookup_insert_eq; intros [= <-]; simpl; lia
      |rewrite lookup_insert_ne by done; apply Hinv].
Qed.

(** X8: whatever keys are called at whatever instants, starting from an
    empty store, every window the limiter holds counts at least one call and
    never more than the limit (never more than one when the limit is below
    one): rejected calls are not counted. *)
Theorem X8_counts_never_exceed_the_limit (options : RateLimiterOptions)
    (calls : list (string * Z)) :
  counts_in_range options (local_calls options calls ∅).
Proof.
  assert (H : ∀ store, counts_in_range options store →
                       counts_in_range options (local_calls options calls store)).
  { induction calls as [|[key now] rest IH]; intros store Hinv; [done|].
    simpl. apply IH. by apply checkLimit_keeps_counts_in_range. }
  apply H. intros k e. by rewrite lookup_empty.
Qed.

(** X9: the window is fixed: a call made before [resetAt], admitted or
    rejected, leaves [resetAt] where it is and does not lower the count; a
    rejected call leaves the whole store as it is. *)
Theorem X9_calls_inside_a_window_do_not_move_it (options : RateLimiterOptions)
    (key : string) (now : Z) (store : gmap string RateLimitEntry)
    (entry : RateLimitEntry) :
  store !! full_key options key = Some entry →
  now < resetAt entry →
  (∃ entry',
     (checkLimit options key now store).2 !! full_key options key = Some entry'
     ∧ resetAt entry' = resetAt entry
     ∧ count entry <= count entry' <= count entry + 1)
  ∧ (passes (checkLimit options key now store).1 = false →
     (checkLimit options key now store).2 = store).
Proof.
  intros E Hin. unfold checkLimit. rewrite E.
  rewrite (bool_decide_eq_false_2 (now >= resetAt entry)) by lia.
  case_bool_decide; simpl.
  - split; [|done]. exists entry. rewrite E. split; [done|]. split; [done|]. lia.
  - split; [|done]. eexists. rewrite lookup_insert_eq. split; [done|]. simpl.
    split; [done|]. lia.
Qed.

Lemma X9_calls_inside_a_window_witness :
  (∃ entry',
     (checkLimit (limiter_options 1 60000 None) "stk:254700000000" 10
        {["mpesa:stk:254700000000" := mkEntry 1 60000]}).2
       !! "mpesa:stk:254700000000" = Some entry'
     ∧ resetAt entry' = 60000
     ∧ 1 <= count entry' <= 1 + 1)
  ∧ (passes (checkLimit (limiter_options 1 60000 None) "stk:254700000000" 10
               {["mpesa:stk:254700000000" := mkEntry 1 60000]}).1 = false →
     (checkLimit (limiter_options 1 60000 None) "stk:254700000000" 10
        {["mpesa:stk:254700000000" := mkEntry 1 60000]}).2
     = {["mpesa:stk:254700000000" := mkEntry 1 60000]}).
Proof.
  apply (X9_calls_inside_a_window_do_not_move_it (limiter_options 1 60000 None)
           "stk:254700000000" 10 {["mpesa:stk:254700000000" := mkEntry 1 60000]}
           (mkEntry 1 60000)).
  - apply lookup_singleton_eq.
  - simpl. lia.
Defined.

(** X10: inside a window [getUsage] and [checkLimit] agree: the remaining
    budget reported is zero exactly when the next call at that instant is
    rejected, and the call leaves one unit less when it is admitted. *)
Theorem X10_usage_predicts_the_decision (options : RateLimiterOptions)
    (key : string) (now : Z) (store : gmap string RateLimitEntry)
    (entry : RateLimitEntry) :
  store !! full_key options key = Some entry →
  now < resetAt entry →
  let '(used, remaining, reset_at) := getUsage options key now store in
  used = count entry ∧ reset_at = resetAt entry
  ∧ (remaining = 0 ↔ passes (checkLimit options key now store).1 = false)
  ∧ (0 < remaining →
     getUsage options key now (checkLimit options key now store).2
     = (used + 1, remaining - 1, reset_at)).
Proof.
  intros E Hin. unfold getUsage, checkLimit. rewrite E.
  rewrite (bool_decide_eq_false_2 (now >= resetAt entry)) by lia.
  split; [done|]. split; [done|]. split.
  - case_bool_decide; simpl; split; intros; try done; lia.
  - intros Hrem. rewrite (bool_decide_eq_false_2 (count entry >= _)) by lia.
    simpl. rewrite lookup_insert_eq. simpl.
    rewrite (bool_decide_eq_false_2 (now >= resetAt entry)) by lia.
    do 2 f_equal. lia.
Qed.

Lemma X10_usage_predicts_the_decision_witness :
  let '(used, remaining, reset_at) :=
    getUsage (limiter_options 3 60000 None) "stk:254700000000" 10
      {["mpesa:stk:254700000000" := mkEntry 2 60000]} in
  used = 2 ∧ reset_at = 60000
  ∧ (remaining = 0
     ↔ passes (checkLimit (limiter_options 3 60000 None) "stk:254700000000" 10
                 {["mpesa:stk:254700000000" := mkEntry 2 60000]}).1 = false)
  ∧ (0 < remaining →
     getUsage (limiter_options 3 60000 None) "stk:254700000000" 10
       (checkLimit (limiter_options 3 60000 None) "stk:254700000000" 10
          {["mpesa:stk:254700000000" := mkEntry 2 60000]}).2
     = (used + 1, remaining - 1, reset_at)).
Proof.
  apply (X10_usage_predicts_the_decision (limiter_options 3 60000 None)
           "stk:254700000000" 10 {["mpesa:stk:254700000000" := mkEntry 2 60000]}
           (mkEntry 2 60000)).
  - apply lookup_singleton_eq.
  - simpl. lia.
Defined.

(** X11: [reset] gives a key a fresh start: whatever window it had, the
    next [checkLimit] is admitted and opens a new window counting one, and
    the store it leaves is the one a restart would have left without the
    reset; other keys keep their entries. *)
Theorem X11_reset_gives_a_fresh_start (options : RateLimiterOptions)
    (key : string) (now : Z) (store : gmap string RateLimitEntry) :
  checkLimit options key now (reset options key store)
  = (Ok (), <[full_key options key := mkEntry 1 (now + windowMs options)]> store)
  ∧ getUsage options key now (reset options key store)
    = (0, maxRequests options, now + windowMs options)
  ∧ ∀ other, other ≠ key →
      reset options key store !! full_key options other
      = store !! full_key options other.
Proof.
  unfold reset, checkLimit, getUsage. rewrite lookup_delete_eq.
  split; [by rewrite insert_delete_eq|]. split; [done|].
  intros other Hne. apply lookup_delete_ne. intros H. by apply full_key_inj in H.
Qed.

Lemma X11_reset_witness :
  reset (limiter_options 1 60000 None) "stk:254700000000"
    {["mpesa:stk:254700000000" := mkEntry 1 60000;
      "mpesa:b2c:254711111111" := mkEntry 1 60000]}
    !! full_key (limiter_options 1 60000 None) "b2c:254711111111"
  = ({["mpesa:stk:254700000000" := mkEntry 1 60000;
       "mpesa:b2c:254711111111" := mkEntry 1 60000]} : gmap string RateLimitEntry)
      !! full_key (limiter_options 1 60000 None) "b2c:254711111111".
Proof.
  apply (proj2 (proj2 (X11_reset_gives_a_fresh_start (limiter_options 1 60000 None)
                         "stk:254700000000" 10
                         {["mpesa:stk:254700000000" := mkEntry 1 60000;
                           "mpesa:b2c:254711111111" := mkEntry 1 60000]}))
           "b2c:254711111111").
  discriminate.
Defined.

(** X12: the sweep is invisible: sweeping the store at some instant changes
    neither the decision of a later [checkLimit], nor the window it leaves
    for its key, nor what [getUsage] reports later. *)
Theorem X12_sweep_changes_no_decision (options : RateLimiterOptions)
    (key : string) (swept_at now : Z) (store : gmap string RateLimitEntry) :
  swept_at <= now →
  (checkLimit options key now (cleanup swept_at store)).1
  = (checkLimit options key now store).1
  ∧ (checkLimit options key now (cleanup swept_at store)).2 !! full_key options key
    = (checkLimit options key now store).2 !! full_key options key
  ∧ getUsage options key now (cleanup swept_at store)
    = getUsage options key now store.
Proof.
  intros Hle. unfold checkLimit, getUsage, cleanup.
  destruct (store !! full_key options key) as [entry|] eqn:E.
  - destruct (decide (swept_at < resetAt entry)) as [Hlive|Hdead].
    + assert (Hkept : filter (λ kv, swept_at < resetAt kv.2) store
                      !! full_key options key = Some entry).
      { by apply map_lookup_filter_Some_2. }
      rewrite Hkept.
      repeat case_bool_decide; simpl; by rewrite ?lookup_insert_eq, ?Hkept, ?E.
    + assert (Hgone : filter (λ kv, swept_at < resetAt kv.2) store
                      !! full_key options key = None).
      { apply map_lookup_filter_None. right. intros e' He'.
        rewrite E in He'. injection He' as <-. done. }
      rewrite Hgone. rewrite (bool_decide_eq_true_2 (now >= resetAt entry)) by lia.
      simpl. by rewrite !lookup_insert_eq.
  - assert (Hgone : filter (λ kv, swept_at < resetAt kv.2) store
                    !! full_key options key = None).
    { apply map_lookup_filter_None. by left. }
    rewrite Hgone. simpl. by rewrite !lookup_insert_eq.
Qed.

Lemma X12_sweep_changes_no_decision_witness :
  (checkLimit (limiter_options 1 60000 None) "stk:254700000000" 70000
     (cleanup 65000 {["mpesa:stk:254700000000" := mkEntry 1 60000]})).1
  = (checkLimit (limiter_options 1 60000 None) "stk:254700000000" 70000
       {["mpesa:stk:254700000000" := mkEntry 1 60000]}).1
  ∧ (checkLimit (limiter_options 1 60000 None) "stk:254700000000" 70000
       (cleanup 65000 {["mpesa:stk:254700000000" := mkEntry 1 60000]})).2
      !! full_key (limiter_options 1 60000 None) "stk:254700000000"
    = (checkLimit (limiter_options 1 60000 None) "stk:254700000000" 70000
         {["mpesa:stk:254700000000" := mkEntry 1 60000]}).2
        !! full_key (limiter_options 1 60000 None) "stk:254700000000"
  ∧ getUsage (limiter_options 1 60000 None) "stk:254700000000" 70000
      (cleanup 65000 {["mpesa:stk:254700000000" := mkEntry 1 60000]})
    = getUsage (limiter_options 1 60000 None) "stk:254700000000" 70000
        {["mpesa:stk:254700000000" := mkEntry 1 60000]}.
Proof.
  apply (X12_sweep_changes_no_decision (limiter_options 1 60000 None)
           "stk:254700000000" 65000 70000
           {["mpesa:stk:254700000000" := mkEntry 1 60000]}).
  lia.
Defined.

(** ** Shared rate limiter, further *)

(** X13: in the shared limiter the counter of a live key grows by one with
    every call, rejected calls included, and its expiry is never renewed:
    only the call that finds the counter at one sets it. *)
Theorem X13_shared_counter_counts_every_call (options : RateLimiterOptions)
    (key : string) (now : Z) (db : gmap string Redis.cell)
    (cell : Redis.cell) (expiry : Z) :
  db !! full_key options key = Some cell →
  Redis.expireAt cell = Some expiry →
  now < expiry →
  Redis.value cell ≠ 0 →
  (redis_checkLimit options key now db).2 !! full_key options key
  = Some (Redis.mkCell (Redis.value cell + 1) (Some expiry))
  ∧ (passes (redis_checkLimit options key now db).1 = true
     ↔ Redis.value cell + 1 <= maxRequests options).
Proof.
  intros C He Hlive Hv. unfold redis_checkLimit, Redis.incr, Redis.find.
  rewrite C. unfold Redis.live. rewrite He.
  rewrite (bool_decide_eq_true_2 (now <= expiry)) by lia.
  destruct (Z.eqb_spec (Redis.value cell + 1) 1) as [H1|_]; [lia|].
  case_bool_decide; simpl; rewrite lookup_insert_eq, He;
    (split; [done|]); split; intros; try done; lia.
Qed.

Lemma X13_shared_counter_witness :
  (redis_checkLimit (limiter_options 1 60000 None) "stk:254700000000" 10
     {["mpesa:stk:254700000000" := Redis.mkCell 5 (Some 60000)]}).2
    !! full_key (limiter_options 1 60000 None) "stk:254700000000"
  = Some (Redis.mkCell (5 + 1) (Some 60000))
  ∧ (passes (redis_checkLimit (limiter_options 1 60000 None) "stk:254700000000" 10
               {["mpesa:stk:254700000000" := Redis.mkCell 5 (Some 60000)]}).1 = true
     ↔ 5 + 1 <= 1).
Proof.
  apply (X13_shared_counter_counts_every_call (limiter_options 1 60000 None)
           "stk:254700000000" 10
           {["mpesa:stk:254700000000" := Redis.mkCell 5 (Some 60000)]}
           (Redis.mkCell 5 (Some 60000)) 60000).
  - apply lookup_singleton_eq.
  - reflexivity.
  - lia.
  - discriminate.
Defined.

(** ** Translation of error responses *)

(** X14: the error built for a non-2xx response always has a non-empty
    message, and the status it carries is the response's status except that
    403 is reported as 401 and every status from 500 on as 503. *)
Theorem X14_translated_error_status_and_message (status : Z) (body : ErrorBody) :
  let error := parse_mpesa_api_error status body in
  is_MpesaError error = true
  ∧ status_code error
    = Some (if status =? 403 then 401
            else if bool_decide (status >= 500) then 503 else status)
  ∧ str_exn error ≠ "".
Proof.
  assert (Hor : ∀ a b, b ≠ "" → str_or a b ≠ "").
  { intros [s|] b Hb; simpl; [|done]. by case_bool_decide. }
  assert (Hmsg : str_or (errorMessage body)
                   (str_or (ResponseDescription body)
                      (str_or (body_message body) "Unknown API error")) ≠ "").
  { by repeat apply Hor. }
  unfold parse_mpesa_api_error.
  destruct (Z.eqb_spec status 401) as [->|H401]; [by repeat split|].
  destruct (Z.eqb_spec status 403) as [->|H403]; [by repeat split|].
  destruct (Z.eqb_spec status 400) as [->|H400]; [by repeat split|].
  destruct (Z.eqb_spec status 429) as [->|H429]; [by repeat split|].
  case_bool_decide; by repeat split.
Qed.

(** X15: of the errors built for non-2xx responses, those for 429 and for
    500 and above are classified retryable; for any other non-zero status
    the classifier returns no verdict but raises. *)
Theorem X15_translated_errors_classified (status : Z) (body : ErrorBody)
    (codes : list Z) :
  (status = 429 ∨ 500 <= status →
   isRetryableError (parse_mpesa_api_error status body) codes = Ok true)
  ∧ (status ≠ 429 → status < 500 → status ≠ 0 →
     isRetryableError (parse_mpesa_api_error status body) codes
     = Raise (not_subscriptable (parse_mpesa_api_error status body))).
Proof.
  unfold parse_mpesa_api_error. split.
  - intros [->|H500]; [done|].
    destruct (Z.eqb_spec status 401); [lia|].
    destruct (Z.eqb_spec status 403); [lia|].
    destruct (Z.eqb_spec status 400); [lia|].
    destruct (Z.eqb_spec status 429); [done|].
    by rewrite bool_decide_eq_true_2 by lia.
  - intros H429 H500 H0.
    destruct (Z.eqb_spec status 401) as [->|]; [done|].
    destruct (Z.eqb_spec status 403) as [->|]; [done|].
    destruct (Z.eqb_spec status 400) as [->|]; [done|].
    destruct (Z.eqb_spec status 429); [done|].
    rewrite bool_decide_eq_false_2 by lia.
    unfold isRetryableError. simpl.
    destruct (Z.eqb_spec status 0); [done|]. done.
Qed.

Lemma X15_translated_errors_witness :
  isRetryableError (parse_mpesa_api_error 503 empty_body) [408; 429] = Ok true
  ∧ isRetryableError (parse_mpesa_api_error 404 empty_body) [404]
    = Raise (not_subscriptable (parse_mpesa_api_error 404 empty_body)).
Proof.
  split.
  - apply (proj1 (X15_translated_errors_classified 503 empty_body [408; 429])).
    right. lia.
  - apply (proj2 (X15_translated_errors_classified 404 empty_body [404])); lia.
Defined.

(** ** Request executor, further *)

Section ExecutorFacts.
Context {N : Type}.
Variable tr : Transport N.
Variable retryOptions : option (RetryOptions (Client N)).
Variable endpoint : string.
Variable payload : json.
Let opts := merge_options DEFAULT_RETRY_OPTIONS retryOptions.

(** Without a rate-limit key [_request] goes straight to the token and the
    POST, and what the POST came to decides the outcome. *)
Lemma _request_without_key now (c : Client N) token n1 wr n2 :
  getAccessToken tr now (net c) = (Ok token, n1) →
  post tr endpoint payload token now n1 = (wr, n2) →
  _request tr endpoint payload None now c
  = (interpret_wire endpoint wr, mkClient (ratelimiter c) n2 (S (posts c))).
Proof.
  intros Ht Hp. unfold _request.
  assert (Hskip : match ratelimiter c with
                  | NoLimiter | _ => (Ok (), c)
                  end = (Ok (), c)) by (by destruct (ratelimiter c)).
  rewrite Hskip. by rewrite Ht, Hp.
Qed.
End ExecutorFacts.

(** X16: a response with an error status whose body is readable JSON is not
    turned into an error: [makeRequest] returns the body as its result after
    one POST, whatever the status. *)
Theorem X16_error_status_with_json_body_is_returned {N} (tr : Transport N)
    (retryOptions : option (RetryOptions (Client N))) (endpoint : string)
    (payload : json) (w : World (Client N)) (token : string) (n1 n2 : N)
    (status : Z) (body : json) :
  0 <= maxRetries (merge_options DEFAULT_RETRY_OPTIONS retryOptions) →
  getAccessToken tr (clock w) (net (user w)) = (Ok token, n1) →
  post tr endpoint payload token (clock w) n1 = (WireResponse status (Ok body), n2) →
  makeRequest tr retryOptions endpoint payload None w
  = (Ok body,
     set_user (mkClient (ratelimiter (user w)) n2 (S (posts (user w))))
       (add_events [EvAttempt 0] w)).
Proof.
  intros Hpos Ht Hp. unfold makeRequest, retryWithBackoff, range.
  rewrite seqZ_cons by lia. cbn [retry_for].
  unfold try_except, bind, log, call. simpl.
  rewrite (_request_without_key tr endpoint payload _ _ _ _ _ _ Ht Hp).
  unfold interpret_wire. by destruct (_ && _).
Qed.

Lemma X16_error_status_witness :
  makeRequest
    (mkTransport (λ _ n, (Ok "token", n))
       (λ _ _ _ _ n, (WireResponse 500 (Ok (JObj [("errorCode", JStr "500.001")])), n)))
    None "/mpesa/stkpush/v1/processrequest" (JObj []) None
    (world_at 0 (mkClient NoLimiter () 0%nat))
  = (Ok (JObj [("errorCode", JStr "500.001")]),
     set_user (mkClient NoLimiter () 1%nat)
       (add_events [EvAttempt 0] (world_at 0 (mkClient NoLimiter () 0%nat)))).
Proof.
  apply (X16_error_status_with_json_body_is_returned
           (mkTransport (λ _ n, (Ok "token", n))
              (λ _ _ _ _ n,
                 (WireResponse 500 (Ok (JObj [("errorCode", JStr "500.001")])), n)))
           None "/mpesa/stkpush/v1/processrequest" (JObj []) 
           (world_at 0 (mkClient NoLimiter () 0%nat)) "token" () () 500
           (JObj [("errorCode", JStr "500.001")])).
  - simpl. lia.
  - reflexivity.
  - reflexivity.
Defined.

(** X17: when the POST itself fails (connection refused, reset, ...) every
    time, [makeRequest] without a rate-limit key runs [maxRetries + 1] turns
    with [maxRetries] sleeps and then raises: each failure is wrapped into a
    network error flagged retryable. *)
Theorem X17_failing_transport_is_retried_to_the_end {N} (tr : Transport N)
    (retryOptions : option (RetryOptions (Client N))) (endpoint : string)
    (payload : json) (w : World (Client N)) :
  let opts := merge_options DEFAULT_RETRY_OPTIONS retryOptions in
  0 <= maxRetries opts →
  (∀ now n, ∃ token n1, getAccessToken tr now n = (Ok token, n1)) →
  (∀ token now n, ∃ e n2, post tr endpoint payload token now n = (WireFailure e, n2)) →
  (∀ e n now x, ∃ x', onRetry opts e n now x = (Ok (), x')) →
  ∃ m w',
    makeRequest tr retryOptions endpoint payload None w
    = (Raise (MpesaNetworkError m true), w')
    ∧ attempts_made (journal w')
      = (attempts_made (journal w) + Z.to_nat (maxRetries opts + 1))%nat
    ∧ sleeps_made (journal w')
      = (sleeps_made (journal w) + Z.to_nat (maxRetries opts))%nat.
Proof.
  intros opts Hpos Htok Hpost Hon.
  assert (Hfn : ∀ now x, ∃ e x',
             _request tr endpoint payload None now x = (Raise e, x')
             ∧ (∃ m, e = MpesaNetworkError m true)).
  { intros now x. destruct (Htok now (net x)) as (token & n1 & Ht).
    destruct (Hpost token now n1) as (e & n2 & Hp).
    rewrite (_request_without_key tr endpoint payload now x token n1 _ n2 Ht Hp).
    simpl. eauto 6. }
  (* the run, turn by turn, keeping the class of the error *)
  assert (Hrun : ∀ (k : nat) a last w0,
            a + Z.of_nat k = maxRetries opts →
            ∃ m w',
              retry_for (_request tr endpoint payload None) opts
                (seqZ a (Z.of_nat (S k))) last w0
              = (Raise (MpesaNetworkError m true), w')
              ∧ attempts_made (journal w') = (attempts_made (journal w0) + S k)%nat
              ∧ sleeps_made (journal w') = (sleeps_made (journal w0) + k)%nat).
  { induction k as [|k IH]; intros a last w0 Hlast.
    - replace a with (maxRetries opts) by lia. change (Z.of_nat 1) with 1.
      destruct (Hfn (clock w0) (user w0)) as (e & x & He & m & ->).
      exists m. eexists. split.
      { change (seqZ (maxRetries opts) 1) with [maxRetries opts].
        by apply retry_for_last_retryable. }
      count_journal.
    - rewrite seqZ_succ.
      destruct (Hfn (clock w0) (user w0)) as (e & x & He & m & ->).
      rewrite (retry_for_retries _ opts a _ last w0 _ x He) by (done || lia).
      set (w1 := add_events _ _).
      destruct (Hon (MpesaNetworkError m true) (a + 1) (clock w1) (user w1))
        as (x' & Hx').
      unfold bind at 1. unfold call at 1. rewrite Hx'. simpl.
      unfold bind at 1. unfold sleep at 1.
      match goal with |- context [retry_for _ opts _ _ ?w2] =>
        destruct (IH (a + 1) (Some (MpesaNetworkError m true)) w2 ltac:(lia))
          as (m2 & w' & Hr & Ha & Hs)
      end.
      exists m2, w'. split; [exact Hr|]. rewrite Ha, Hs. subst w1. count_journal. }
  unfold makeRequest, retryWithBackoff, range. fold opts.
  destruct (Hrun (Z.to_nat (maxRetries opts)) 0 None w ltac:(lia))
    as (m & w' & Hr & Ha & Hs).
  replace (Z.of_nat (S (Z.to_nat (maxRetries opts)))) with (maxRetries opts + 1)
    in Hr by lia.
  exists m, w'. split; [done|]. rewrite Ha, Hs. split; lia.
Qed.

Lemma X17_failing_transport_witness :
  ∃ m w',
    makeRequest
      (mkTransport (λ _ n, (Ok "token", n))
         (λ _ _ _ _ n, (WireFailure (OtherException None None "connection reset"), n)))
      None "/mpesa/stkpush/v1/processrequest" (JObj []) None
      (world_at 0 (mkClient NoLimiter () 0%nat))
    = (Raise (MpesaNetworkError m true), w')
    ∧ attempts_made (journal w') = 4%nat
    ∧ sleeps_made (journal w') = 3%nat.
Proof.
  apply (X17_failing_transport_is_retried_to_the_end
           (mkTransport (λ _ n, (Ok "token", n))
              (λ _ _ _ _ n,
                 (WireFailure (OtherException None None "connection reset"), n)))
           None "/mpesa/stkpush/v1/processrequest" (JObj []) 
           (world_at 0 (mkClient NoLimiter () 0%nat))).
  - simpl. lia.
  - intros now n. by eexists _, _.
  - intros token now n. by eexists _, _.
  - intros e n now x. by eexists.
Defined.

(** X18: a POST that times out is not retried: the timeout error carries
    status 408, the classifier raises on it, and after this one turn
    [makeRequest] raises that [TypeError] to the caller. *)
Theorem X18_timeout_reaches_caller_as_TypeError {N} (tr : Transport N)
    (retryOptions : option (RetryOptions (Client N))) (endpoint : string)
    (payload : json) (w : World (Client N)) (token : string) (n1 n2 : N) :
  0 <= maxRetries (merge_options DEFAULT_RETRY_OPTIONS retryOptions) →
  getAccessToken tr (clock w) (net (user w)) = (Ok token, n1) →
  post tr endpoint payload token (clock w) n1 = (WireTimeout, n2) →
  makeRequest tr retryOptions endpoint payload None w
  = (Raise (TypeError "'MpesaTimeoutError' object is not subscriptable"),
     set_user (mkClient (ratelimiter (user w)) n2 (S (posts (user w))))
       (add_events [EvAttempt 0] w)).
Proof.
  intros Hpos Ht Hp. unfold makeRequest, retryWithBackoff, range.
  rewrite seqZ_cons by lia.
  apply (retry_for_classifier_raises _ _ _ _ _ _
           (MpesaTimeoutError ("Request timed out for " +:+ endpoint))).
  - by rewrite (_request_without_key tr endpoint payload _ _ token n1 _ n2 Ht Hp).
  - reflexivity.
Qed.

Lemma X18_timeout_witness :
  makeRequest
    (mkTransport (λ _ n, (Ok "token", n)) (λ _ _ _ _ n, (WireTimeout, n)))
    None "/mpesa/stkpush/v1/processrequest" (JObj []) None
    (world_at 0 (mkClient NoLimiter () 0%nat))
  = (Raise (TypeError "'MpesaTimeoutError' object is not subscriptable"),
     set_user (mkClient NoLimiter () 1%nat)
       (add_events [EvAttempt 0] (world_at 0 (mkClient NoLimiter () 0%nat)))).
Proof.
  apply (X18_timeout_reaches_caller_as_TypeError
           (mkTransport (λ _ n, (Ok "token", n)) (λ _ _ _ _ n, (WireTimeout, n)))
           None "/mpesa/stkpush/v1/processrequest" (JObj []) 
           (world_at 0 (mkClient NoLimiter () 0%nat)) "token" () ()).
  - simpl. lia.
  - reflexivity.
  - reflexivity.
Defined.

(** ** Phone numbers *)

Section PhoneNumbers.
Import Unicode.
Variable U : Classes.

Lemma strip_separators_clean (s : list N) : without_separators U (strip_separators U s).
Proof.
  induction s as [|c s IH]; simpl; [constructor|].
  destruct (is_separator U c) eqn:E; [apply IH|]. by constructor.
Qed.

Lemma strip_separators_id (s : list N) :
  without_separators U s → strip_separators U s = s.
Proof.
  induction 1 as [|c s Hc _ IH]; simpl; [done|]. by rewrite Hc, IH.
Qed.

Lemma digits_then_end_intro (n : nat) (s : list N) :
  length s = n → Forall (λ c, isdecimal U c = true) s →
  digits_then_end U n s = true.
Proof.
  intros <- Hall. induction Hall as [|c s Hc _ IH]; simpl; [done|].
  by rewrite Hc, IH.
Qed.

Lemma matches_msisdn_254 (d : N) (rest : list N) :
  matches_msisdn U (codes "254" ++ d :: rest)
  = (N.eqb d (ord "1") || N.eqb d (ord "7")) && digits_then_end U 8 rest.
Proof. reflexivity. Qed.

Hypothesis newline : isspace U (ord "010") = true.

Lemma digits_then_end_clean (n : nat) (s : list N) :
  without_separators U s →
  digits_then_end U n s = true →
  length s = n ∧ Forall (λ c, isdecimal U c = true) s.
Proof using newline.
  revert s. induction n as [|n IH]; intros s Hc.
  - destruct s as [|c [|c' s]]; cbn [digits_then_end]; [done| |done].
    intros Heq%N.eqb_eq. subst c. apply Forall_cons_1 in Hc as [Hc _].
    unfold is_separator in Hc. by rewrite newline in Hc.
  - destruct s as [|c s]; cbn [digits_then_end length]; [done|].
    intros [Hd Hrest]%andb_true_iff. apply Forall_cons_1 in Hc as [_ Hc].
    destruct (IH s Hc Hrest) as [Hlen Hall].
    split; [by rewrite Hlen|]. by constructor.
Qed.

Lemma matches_msisdn_subscriber (sub : list N) :
  without_separators U sub →
  (matches_msisdn U (codes "254" ++ sub) = true ↔ subscriber_number U sub).
Proof using newline.
  intros Hc. destruct sub as [|d rest]; [done|].
  rewrite matches_msisdn_254. unfold subscriber_number.
  apply Forall_cons_1 in Hc as [_ Hc]. split.
  - intros [Hd Hrest]%andb_true_iff.
    destruct (digits_then_end_clean 8 rest Hc Hrest) as [Hl Ha].
    split; [|done].
    apply orb_true_iff in Hd as [Hd%N.eqb_eq|Hd%N.eqb_eq]; auto.
  - intros (Hd & Hl & Ha). rewrite (digits_then_end_intro 8 rest) by done.
    by destruct Hd as [->| ->].
Qed.

(** What [validateAndFormatPhone] accepts, and what it returns. *)
Lemma validateAndFormatPhone_accepts (phone r : list N) :
  validateAndFormatPhone U phone = Some r
  ↔ ∃ sub, subscriber_number U sub ∧ r = codes "254" ++ sub
           ∧ (strip_separators U phone = sub
              ∨ strip_separators U phone = codes "0" ++ sub
              ∨ strip_separators U phone = codes "254" ++ sub).
Proof using newline.
  unfold validateAndFormatPhone.
  pose proof (strip_separators_clean phone) as Hc.
  remember (strip_separators U phone) as f eqn:Hf. clear Hf.
  pose proof matches_msisdn_subscriber as Hsubscriber.
  unfold subscriber_number in *.
  change (codes "0") with [48%N] in *.
  change (codes "254") with [50; 53; 52]%N in *.
  change (ord "1") with 49%N in *. change (ord "7") with 55%N in *.
  split.
  - destruct (startswith f [48%N]) eqn:H0.
    { destruct f as [|c f']; [done|]. cbn [startswith] in H0.
      destruct (N.eqb_spec 48 c) as [<-|]; [|done].
      change (drop 1 (48%N :: f')) with f'.
      destruct (matches_msisdn U ([50; 53; 52]%N ++ f')) eqn:Hm; [|done].
      intros [= <-]. exists f'. split; [|by auto].
      apply Hsubscriber; [|done].
      by apply Forall_cons_1 in Hc as [_ Hc]. }
    destruct (startswith f [50; 53; 52]%N) eqn:H254; cbn [negb].
    + destruct (matches_msisdn U f) eqn:Hm; [|done]. intros [= <-].
      destruct f as [|a [|b [|c sub]]]; cbn [startswith] in H254;
        rewrite ?andb_false_r in H254; try done.
      destruct (N.eqb_spec 50 a) as [<-|]; [|done].
      destruct (N.eqb_spec 53 b) as [<-|]; [|done].
      destruct (N.eqb_spec 52 c) as [<-|]; [|done].
      exists sub. split; [|by auto].
      apply Hsubscriber; [|done].
      by do 3 apply Forall_cons_1 in Hc as [_ Hc].
    + destruct (matches_msisdn U ([50; 53; 52]%N ++ f)) eqn:Hm; [|done].
      intros [= <-]. exists f. split; [|by auto].
      by apply Hsubscriber.
  - intros (sub & Hsub & -> & Hf).
    assert (Hm : matches_msisdn U ([50; 53; 52]%N ++ sub) = true).
    { destruct sub as [|d rest]; [done|]. destruct Hsub as (Hd & Hl & Ha).
      change (matches_msisdn U ([50; 53; 52]%N ++ d :: rest))
        with ((N.eqb d 49 || N.eqb d 55) && digits_then_end U 8 rest).
      rewrite (digits_then_end_intro 8 rest) by done.
      by destruct Hd as [->| ->]. }
    destruct sub as [|d rest]; [done|]. destruct Hsub as (Hd & _).
    destruct Hf as [->|[->| ->]].
    + assert (Hn0 : startswith (d :: rest) [48%N] = false).
      { by destruct Hd as [->| ->]. }
      assert (Hn2 : startswith (d :: rest) [50; 53; 52]%N = false).
      { by destruct Hd as [->| ->]. }
      by rewrite Hn0, Hn2; cbn [negb]; rewrite Hm.
    + change (startswith ([48%N] ++ d :: rest) [48%N]) with true.
      cbv iota. change (drop 1 ([48%N] ++ d :: rest)) with (d :: rest).
      by rewrite Hm.
    + change (startswith ([50; 53; 52]%N ++ d :: rest) [48%N]) with false.
      change (startswith ([50; 53; 52]%N ++ d :: rest) [50; 53; 52]%N) with true.
      cbn [negb]. cbv iota. by rewrite Hm.
Qed.
End PhoneNumbers.

Lemma sample_classes_python_tables : Unicode.python_tables sample_classes.
Proof.
  split; try reflexivity.
  - intros c [H1 H2]. cbn. apply orb_true_iff. left.
    apply andb_true_iff. split; apply N.leb_le; lia.
  - intros c Hc. cbn in Hc |- *.
    assert (Hrange : (48 <= c <= 57 ∨ 1632 <= c <= 1641)%N).
    { apply orb_true_iff in Hc as [Hc|Hc];
        apply andb_true_iff in Hc as [?%N.leb_le ?%N.leb_le]; lia. }
    repeat (apply orb_false_iff; split);
      try (apply N.eqb_neq; lia); try done.
    apply andb_false_iff. left. apply N.leb_gt. lia.
Qed.

(** X19: whatever the two Unicode classes are, as long as the newline is
    white space, [validateAndFormatPhone] accepts exactly the numbers that,
    once white space, hyphens and plus signs are removed, are a subscriber
    number (a 1 or a 7 and eight more decimal digits, of whatever script)
    written bare, with a leading 0 or with the prefix 254, and it returns
    254 followed by the subscriber number as it was written. *)
Theorem X19_accepted_phone_numbers (U : Unicode.Classes) (phone r : list N) :
  Unicode.isspace U (Unicode.ord "010") = true →
  Unicode.validateAndFormatPhone U phone = Some r
  ↔ ∃ sub, Unicode.subscriber_number U sub
           ∧ r = Unicode.codes "254" ++ sub
           ∧ (Unicode.strip_separators U phone = sub
              ∨ Unicode.strip_separators U phone = Unicode.codes "0" ++ sub
              ∨ Unicode.strip_separators U phone = Unicode.codes "254" ++ sub).
Proof.
  intros Hnl. by apply validateAndFormatPhone_accepts.
Qed.

Lemma X19_accepted_phone_numbers_witness :
  Unicode.validateAndFormatPhone sample_classes
    (Unicode.codes "0712 345-67" ++ [1640; 12288]%N)
  = Some (Unicode.codes "25471234567" ++ [1640%N])
  ↔ ∃ sub, Unicode.subscriber_number sample_classes sub
           ∧ Unicode.codes "25471234567" ++ [1640%N] = Unicode.codes "254" ++ sub
           ∧ (Unicode.strip_separators sample_classes
                (Unicode.codes "0712 345-67" ++ [1640; 12288]%N) = sub
              ∨ Unicode.strip_separators sample_classes
                  (Unicode.codes "0712 345-67" ++ [1640; 12288]%N)
                = Unicode.codes "0" ++ sub
              ∨ Unicode.strip_separators sample_classes
                  (Unicode.codes "0712 345-67" ++ [1640; 12288]%N)
                = Unicode.codes "254" ++ sub).
Proof.
  apply (X19_accepted_phone_numbers sample_classes
           (Unicode.codes "0712 345-67" ++ [1640; 12288]%N)
           (Unicode.codes "25471234567" ++ [1640%N])).
  reflexivity.
Defined.

(** X20: for classes with the four facts of [python_tables], the result of
    [validateAndFormatPhone] is a fixed point: it is twelve characters long,
    each of them a decimal digit in the sense of [\d] (the digits of another
    script are returned as they were written, not turned into ASCII), and
    formatting it again returns it unchanged. *)
Theorem X20_formatted_number_is_stable (U : Unicode.Classes) (phone r : list N) :
  Unicode.python_tables U →
  Unicode.validateAndFormatPhone U phone = Some r →
  length r = 12%nat
  ∧ Forall (λ c, Unicode.isdecimal U c = true) r
  ∧ Unicode.validateAndFormatPhone U r = Some r.
Proof.
  intros [Hnl Hascii Hdisjoint Hhyphen Hplus].
  intros (sub & Hsub & -> & _)%validateAndFormatPhone_accepts; [|done].
  assert (Hdigits : Forall (λ c, Unicode.isdecimal U c = true)
                      (Unicode.codes "254" ++ sub)).
  { destruct sub as [|d rest]; [done|]. destruct Hsub as (Hd & _ & Ha).
    change (Unicode.codes "254") with [50; 53; 52]%N.
    repeat constructor; try (apply Hascii; lia); [|done].
    destruct Hd as [->| ->]; apply Hascii; vm_compute; by split. }
  split; [|split; [done|]].
  - destruct sub as [|d rest]; [done|]. destruct Hsub as (_ & Hl & _).
    simpl. by rewrite Hl.
  - apply validateAndFormatPhone_accepts; [done|].
    exists sub. split; [done|]. split; [done|].
    right. right. apply strip_separators_id.
    eapply Forall_impl; [exact Hdigits|]. intros c Hc. cbn beta in Hc.
    unfold Unicode.is_separator. rewrite (Hdisjoint c Hc). cbn [orb].
    apply orb_false_iff; split; apply N.eqb_neq; intros ->; congruence.
Qed.

Lemma X20_formatted_number_witness :
  length (Unicode.codes "2547" ++ [1633; 1634; 1635; 1636; 1637; 1638; 1639; 1640]%N)
  = 12%nat
  ∧ Forall (λ c, Unicode.isdecimal sample_classes c = true)
      (Unicode.codes "2547" ++ [1633; 1634; 1635; 1636; 1637; 1638; 1639; 1640]%N)
  ∧ Unicode.validateAndFormatPhone sample_classes
      (Unicode.codes "2547" ++ [1633; 1634; 1635; 1636; 1637; 1638; 1639; 1640]%N)
    = Some (Unicode.codes "2547"
            ++ [1633; 1634; 1635; 1636; 1637; 1638; 1639; 1640]%N).
Proof.
  apply (X20_formatted_number_is_stable sample_classes
           (Unicode.codes "+254 7"
            ++ [1633; 1634; 1635; 1636; 8239; 1637; 1638; 1639; 1640]%N)
           (Unicode.codes "2547"
            ++ [1633; 1634; 1635; 1636; 1637; 1638; 1639; 1640]%N)).
  - exact sample_classes_python_tables.
  - reflexivity.
Defined.

(** ** STK push *)

(** X21: a request that fails validation (amount below 1, account reference
    empty or longer than 13 characters, empty description, phone number not
    accepted) is refused with a validation error before anything happens:
    the limiter is not consulted, nothing is posted, the journal and the
    client are left as they were. *)
Theorem X21_invalid_stk_request_has_no_effect {N} (tr : Transport N)
    (env : STK.AuthEnv) (config : STK.Config)
    (retryOptions : option (RetryOptions (Client N))) (request : STK.Request)
    (w : World (Client N)) :
  STK.amount request < 1
  ∨ STK.accountReference request = ""
  ∨ (13 < String.length (STK.accountReference request))%nat
  ∨ STK.transactionDesc request = ""
  ∨ (∃ e, validateAndFormatPhone (STK.phoneNumber request) = Raise e) →
  ∃ m, stkPush tr env config retryOptions request w
       = (Raise (MpesaValidationError m), w).
Proof.
  intros Hbad. unfold stkPush.
  case_bool_decide; [by eexists|].
  destruct (bool_decide (STK.accountReference request = "")
            || bool_decide (13 < String.length (STK.accountReference request))%nat)
    eqn:Href; [by eexists|].
  apply orb_false_iff in Href as [Hr1%bool_decide_eq_false Hr2%bool_decide_eq_false].
  case_bool_decide; [by eexists|].
  destruct Hbad as [?|[?|[?|[?|[e He]]]]]; try done.
  rewrite He. unfold validateAndFormatPhone in He.
  destruct (Unicode.validateAndFormatPhone _ _); [done|].
  injection He as <-. by eexists.
Qed.

Lemma X21_invalid_stk_request_witness :
  ∃ m, stkPush transport_ok (STK.mkAuthEnv (λ _, "20240101120000") (λ s, s))
         (STK.mkConfig "174379" "passkey" None) None
         (STK.mkRequest 0 "0712345678" "INV-1" "Payment" None)
         (world_at 0 client_local_used)
       = (Raise (MpesaValidationError m), world_at 0 client_local_used).
Proof.
  apply (X21_invalid_stk_request_has_no_effect transport_ok
           (STK.mkAuthEnv (λ _, "20240101120000") (λ s, s))
           (STK.mkConfig "174379" "passkey" None) None
           (STK.mkRequest 0 "0712345678" "INV-1" "Payment" None)
           (world_at 0 client_local_used)).
  left. simpl. lia.
Defined.

(** X22: what [stkPush] does depends on the phone number only through its
    formatted form: two spellings of one number (0712..., +254 712 ...,
    254712...) lead to the same payload, the same rate-limit key
    [stk:<formatted>] and so the same run. *)
Theorem X22_stk_push_depends_on_formatted_number {N} (tr : Transport N)
    (env : STK.AuthEnv) (config : STK.Config)
    (retryOptions : option (RetryOptions (Client N))) (request : STK.Request)
    (spelling spelling' formatted : string) (w : World (Client N)) :
  validateAndFormatPhone spelling = Ok formatted →
  validateAndFormatPhone spelling' = Ok formatted →
  stkPush tr env config retryOptions (with_phone spelling request) w
  = stkPush tr env config retryOptions (with_phone spelling' request) w
  ∧ (1 <= STK.amount request →
     STK.accountReference request ≠ "" →
     (String.length (STK.accountReference request) ≤ 13)%nat →
     STK.transactionDesc request ≠ "" →
     ∀ url, stk_callback_url config request = Ok url →
       stkPush tr env config retryOptions (with_phone spelling request) w
       = makeRequest tr retryOptions "/mpesa/stkpush/v1/processrequest"
           (stk_payload env config request (clock w) formatted url)
           (Some ("stk:" +:+ formatted)) w).
Proof.
  intros H1 H2. unfold stkPush. simpl. rewrite H1, H2. split; [done|].
  intros Ha Hr Hl Hd url Hurl.
  rewrite bool_decide_eq_false_2 by lia.
  rewrite (bool_decide_eq_false_2 (STK.accountReference request = "")) by done.
  rewrite (bool_decide_eq_false_2 (13 < _)%nat) by lia. simpl.
  rewrite bool_decide_eq_false_2 by done.
  unfold stk_callback_url in *. simpl. by rewrite Hurl.
Qed.

Lemma X22_stk_push_witness :
  stkPush transport_ok (STK.mkAuthEnv (λ _, "20240101120000") (λ s, s))
    (STK.mkConfig "174379" "passkey" (Some "https://example.org/cb")) None
    (with_phone "0712345678" (STK.mkRequest 10 "" "INV-1" "Payment" None))
    (world_at 0 client_local_used)
  = stkPush transport_ok (STK.mkAuthEnv (λ _, "20240101120000") (λ s, s))
      (STK.mkConfig "174379" "passkey" (Some "https://example.org/cb")) None
      (with_phone "+254 712-345-678" (STK.mkRequest 10 "" "INV-1" "Payment" None))
      (world_at 0 client_local_used).
Proof.
  apply (proj1 (X22_stk_push_depends_on_formatted_number transport_ok
                  (STK.mkAuthEnv (λ _, "20240101120000") (λ s, s))
                  (STK.mkConfig "174379" "passkey" (Some "https://example.org/cb"))
                  None (STK.mkRequest 10 "" "INV-1" "Payment" None)
                  "0712345678" "+254 712-345-678" "254712345678"
                  (world_at 0 client_local_used) eq_refl eq_refl)).
Defined.

(** ** Callback engine, further *)

(** The addresses the trust check lets through: none given, the empty
    string, or one that [validate_callback_ip] accepts. *)
Lemma handle_callback_passes_trust_check {X} (B : Builtins)
    (self : MpesaCallbackHandler X) (callback : json) (ip : option string)
    (w : World X) :
  match ip with
  | None => True
  | Some a => a = "" ∨ validate_callback_ip self a = true
  end →
  handle_callback B self callback ip w = process_callback B self callback w.
Proof.
  destruct ip as [a|]; [|done]. intros H. by apply handle_callback_trusted.
Qed.

(** X23: a payload that cannot be parsed (a missing key, a value of the
    wrong shape) is acknowledged by [handleStkCallback] with
    [ResultCode = 1] and leaves no trace at all: no handler runs, the
    duplicate predicate is not asked, the caller's state is untouched and
    nothing is logged. *)
Theorem X23_unparseable_payload_leaves_no_trace {X} (B : Builtins)
    (self : MpesaCallbackHandler X) (callback : json) (ip : option string)
    (w : World X) (e : exn) :
  match ip with
  | None => True
  | Some a => a = "" ∨ validate_callback_ip self a = true
  end →
  parse_callback B callback = Raise e →
  handle_callback B self callback ip w = (Raise e, w)
  ∧ handleStkCallback B self callback ip w
    = (Ok (mkResponse 1 "Internal Error"), w).
Proof.
  intros Hip Hparse.
  assert (Hrun : handle_callback B self callback ip w = (Raise e, w)).
  { rewrite handle_callback_passes_trust_check by done.
    unfold process_callback, bind, lift. by rewrite Hparse. }
  split; [done|]. unfold handleStkCallback, try_except, bind. by rewrite Hrun.
Qed.

Lemma X23_unparseable_payload_witness :
  handle_callback sample_builtins handler_default
    (JObj [("Body", JObj [("stkCallback", JObj [("ResultCode", JInt 0)])])])
    (Some "196.201.214.200") (world_at 0 0%nat)
  = (Raise (KeyError "MerchantRequestID"), world_at 0 0%nat)
  ∧ handleStkCallback sample_builtins handler_default
      (JObj [("Body", JObj [("stkCallback", JObj [("ResultCode", JInt 0)])])])
      (Some "196.201.214.200") (world_at 0 0%nat)
    = (Ok (mkResponse 1 "Internal Error"), world_at 0 0%nat).
Proof.
  apply (X23_unparseable_payload_leaves_no_trace sample_builtins handler_default
           (JObj [("Body", JObj [("stkCallback", JObj [("ResultCode", JInt 0)])])])
           (Some "196.201.214.200") (world_at 0 0%nat)
           (KeyError "MerchantRequestID")).
  - right. reflexivity.
  - reflexivity.
Defined.

(** X24: a callback with a non-zero integer result code parses, whatever
    else the payload holds: it is marked as failed, its error message is the
    table's entry for the code or, for a code the table does not list,
    "Transaction failed with code: <code>", and no metadata is read even if
    the payload carries some. *)
Theorem X24_failed_callback_is_parsed (B : Builtins)
    (callback body stk mrid crid desc : json) (c : Z) :
  getitem callback "Body" = Ok body →
  getitem body "stkCallback" = Ok stk →
  getitem stk "ResultCode" = Ok (JInt c) →
  getitem stk "MerchantRequestID" = Ok mrid →
  getitem stk "CheckoutRequestID" = Ok crid →
  getitem stk "ResultDesc" = Ok desc →
  c ≠ 0 →
  parse_callback B callback
  = Ok (mkParsed mrid crid (JInt c) desc None None None None false
          (Some (default ("Transaction failed with code: " +:+ pretty c)
                   (lookup_code c ERROR_MESSAGES)))).
Proof.
  intros Hb Hs Hc Hm Hcr Hd Hne. unfold parse_callback.
  rewrite Hb. simpl. rewrite Hs. simpl. rewrite Hc. simpl.
  rewrite Hm. simpl. rewrite Hcr. simpl. rewrite Hd. simpl.
  destruct (Z.eqb_spec c 0) as [|_]; [done|]. reflexivity.
Qed.

Lemma X24_failed_callback_witness :
  parse_callback sample_builtins
    (JObj [("Body", JObj [("stkCallback", JObj
       [("MerchantRequestID", JStr "29115-34620561-1");
        ("CheckoutRequestID", JStr "ws_CO_191220191020363925");
        ("ResultCode", JInt 1032);
        ("ResultDesc", JStr "Request cancelled by user.");
        ("CallbackMetadata", JObj [("Item", JList
           [JObj [("Name", JStr "Amount"); ("Value", JInt 1)]])])])])])
  = Ok (mkParsed (JStr "29115-34620561-1") (JStr "ws_CO_191220191020363925")
          (JInt 1032) (JStr "Request cancelled by user.") None None None None
          false
          (Some (default ("Transaction failed with code: " +:+ pretty 1032)
                   (lookup_code 1032 ERROR_MESSAGES)))).
Proof.
  eapply (X24_failed_callback_is_parsed sample_builtins); try reflexivity.
  discriminate.
Defined.

(** What one metadata item can change. *)
Lemma extract_item_fields (B : Builtins) (item : json)
    (p p' : ParsedCallbackData) :
  extract_item B item p = Ok p' →
  merchant_request_id p' = merchant_request_id p
  ∧ checkout_request_id p' = checkout_request_id p
  ∧ result_code p' = result_code p
  ∧ result_description p' = result_description p
  ∧ is_success p' = is_success p
  ∧ error_message p' = error_message p
  ∧ (item_name item ≠ Some "Amount" → amount p' = amount p)
  ∧ (item_name item ≠ Some "MpesaReceiptNumber" →
     mpesa_receipt_number p' = mpesa_receipt_number p)
  ∧ (item_name item ≠ Some "TransactionDate" →
     transaction_date p' = transaction_date p)
  ∧ (item_name item ≠ Some "PhoneNumber" → phone_number p' = phone_number p).
Proof.
  unfold extract_item, item_name, get_method.
  destruct item as [| | | | | |fields]; try done.
  destruct (assoc "Name" fields) as [[| | | |n| |]|];
    try (intros [= <-]; by repeat split).
  destruct (decide (n = "Amount")) as [->|H1].
  { destruct (float_json B _); [|done]. intros [= <-]. by repeat split. }
  destruct (decide (n = "MpesaReceiptNumber")) as [->|H2].
  { intros [= <-]. by repeat split. }
  destruct (decide (n = "TransactionDate")) as [->|H3].
  { intros [= <-]. by repeat split. }
  destruct (decide (n = "PhoneNumber")) as [->|H4].
  { intros [= <-]. by repeat split. }
  assert (Hskip : ∀ (a b c d e : result ParsedCallbackData),
            match n with
            | "Amount" => a | "MpesaReceiptNumber" => b
            | "TransactionDate" => c | "PhoneNumber" => d | _ => e
            end = e).
  { intros a b c d e'.
    repeat (match goal with
            | |- context [match ?s with EmptyString => _ | String _ _ => _ end] =>
                is_var s; destruct s
            | |- context [match ?c with Ascii.Ascii _ _ _ _ _ _ _ _ => _ end] =>
                is_var c; destruct c
            | |- context [if ?b then _ else _] => is_var b; destruct b
            end; try reflexivity; try congruence). }
  rewrite Hskip. intros [= <-]. by repeat split.
Qed.

(** X25: metadata extraction touches nothing but the four metadata fields:
    the request ids, the result code and description, the success flag and
    the error message stay as parsed; and a metadata field changes only if
    an item of that name is present, so a missing item leaves its field
    unset. *)
Theorem X25_metadata_only_fills_its_own_fields (B : Builtins) (items : list json)
    (parsed parsed' : ParsedCallbackData) :
  extract_items B items parsed = Ok parsed' →
  merchant_request_id parsed' = merchant_request_id parsed
  ∧ checkout_request_id parsed' = checkout_request_id parsed
  ∧ result_code parsed' = result_code parsed
  ∧ result_description parsed' = result_description parsed
  ∧ is_success parsed' = is_success parsed
  ∧ error_message parsed' = error_message parsed
  ∧ (Forall (λ item, item_name item ≠ Some "Amount") items →
     amount parsed' = amount parsed)
  ∧ (Forall (λ item, item_name item ≠ Some "MpesaReceiptNumber") items →
     mpesa_receipt_number parsed' = mpesa_receipt_number parsed)
  ∧ (Forall (λ item, item_name item ≠ Some "TransactionDate") items →
     transaction_date parsed' = transaction_date parsed)
  ∧ (Forall (λ item, item_name item ≠ Some "PhoneNumber") items →
     phone_number parsed' = phone_number parsed).
Proof.
  revert parsed. induction items as [|item rest IH]; intros parsed; simpl.
  - intros [= <-]. by repeat split.
  - destruct (extract_item B item parsed) as [p1|e] eqn:E1; [|done].
    intros Hrest.
    destruct (extract_item_fields B item parsed p1 E1)
      as (H1 & H2 & H3 & H4 & H5 & H6 & Ha & Hr & Hd & Hp).
    destruct (IH p1 Hrest) as (I1 & I2 & I3 & I4 & I5 & I6 & Ia & Ir & Id & Ip).
    repeat split; try congruence.
    + intros [? ?]%Forall_cons. rewrite Ia, Ha; done.
    + intros [? ?]%Forall_cons. rewrite Ir, Hr; done.
    + intros [? ?]%Forall_cons. rewrite Id, Hd; done.
    + intros [? ?]%Forall_cons. rewrite Ip, Hp; done.
Qed.

Lemma X25_metadata_witness :
  let parsed := mkParsed (JStr "m") (JStr "c") (JInt 0) (JStr "ok")
                  None None None None true None in
  let parsed' := mkParsed (JStr "m") (JStr "c") (JInt 0) (JStr "ok")
                   (Some (inject_Z 10)) None None None true None in
  merchant_request_id parsed' = merchant_request_id parsed
  ∧ checkout_request_id parsed' = checkout_request_id parsed
  ∧ result_code parsed' = result_code parsed
  ∧ result_description parsed' = result_description parsed
  ∧ is_success parsed' = is_success parsed
  ∧ error_message parsed' = error_message parsed.
Proof.
  intros parsed parsed'.
  destruct (X25_metadata_only_fills_its_own_fields sample_builtins
              [JObj [("Name", JStr "Amount"); ("Value", JInt 10)];
               JObj [("Name", JStr "Balance")]]
              parsed parsed' eq_refl)
    as (H1 & H2 & H3 & H4 & H5 & H6 & _).
  repeat split; assumption.
Defined.

(** X26: for a fourteen-character date [format_transaction_date] returns the
    nineteen-character form YYYY-MM-DDTHH:MM:SS, and taking the five
    separators out again gives the date back. *)
Theorem X26_transaction_date_round_trip (date_str : string) :
  String.length date_str = 14%nat →
  String.length (format_transaction_date date_str) = 19%nat
  ∧ unformat_transaction_date (format_transaction_date date_str) = date_str
  ∧ String.get 4 (format_transaction_date date_str) = Some "-"%char
  ∧ String.get 7 (format_transaction_date date_str) = Some "-"%char
  ∧ String.get 10 (format_transaction_date date_str) = Some "T"%char
  ∧ String.get 13 (format_transaction_date date_str) = Some ":"%char
  ∧ String.get 16 (format_transaction_date date_str) = Some ":"%char.
Proof.
  intros Hlen.
  do 15 (destruct date_str as [|? date_str]; try discriminate Hlen).
  repeat split.
Qed.

Lemma X26_transaction_date_witness :
  String.length (format_transaction_date "20191219102115") = 19%nat
  ∧ unformat_transaction_date (format_transaction_date "20191219102115")
    = "20191219102115"
  ∧ String.get 4 (format_transaction_date "20191219102115") = Some "-"%char
  ∧ String.get 7 (format_transaction_date "20191219102115") = Some "-"%char
  ∧ String.get 10 (format_transaction_date "20191219102115") = Some "T"%char
  ∧ String.get 13 (format_transaction_date "20191219102115") = Some ":"%char
  ∧ String.get 16 (format_transaction_date "20191219102115") = Some ":"%char.
Proof.
  apply (X26_transaction_date_round_trip "20191219102115"). reflexivity.
Defined.

(** What one dispatch adds to the journal: its handler event when a handler
    is registered, and only if the handler returns does the run go on, with
    the object as the handler left it. *)
Lemma by_reference_dispatch_events {X} which
    (h : option (Op (X * ParsedCallbackData) unit)) parsed (w : World X) :
  journal (ByReference.dispatch which h parsed w).2
  = journal w ++ match h with Some _ => [EvHandler which parsed] | None => [] end.
Proof.
  unfold ByReference.dispatch. destruct h as [f|]; simpl; [|by rewrite app_nil_r].
  unfold bind, log, call_with. simpl.
  by destruct (f (clock w) (user w, parsed)) as [[[]|e] [x obj]].
Qed.

Lemma by_reference_dispatch_result {X} which
    (h : option (Op (X * ParsedCallbackData) unit)) parsed (w : World X) obj :
  (ByReference.dispatch which h parsed w).1 = Ok obj →
  obj = match h with
        | Some f => (f (clock w) (user w, parsed)).2.2
        | None => parsed
        end.
Proof.
  unfold ByReference.dispatch. destruct h as [f|]; simpl; [|by intros [= <-]].
  unfold bind, log, call_with. simpl.
  by destruct (f (clock w) (user w, parsed)) as [[[]|e] [x obj']]; intros [= <-].
Qed.

(** With handlers that only read the object, the by-reference dispatch is
    the dispatch of [handle_callback] as modelled by value. *)
Lemma dispatch_reading {X} which (h : option (ParsedCallbackData → Op X unit))
    parsed (w : World X) :
  ByReference.dispatch which (by_value <$> h) parsed w
  = (match (dispatch which h parsed w).1 with
     | Ok _ => Ok parsed
     | Raise e => Raise e
     end, (dispatch which h parsed w).2).
Proof.
  unfold ByReference.dispatch, dispatch. destruct h as [f|]; simpl; [|done].
  unfold bind, log, call_with, call, by_value. simpl.
  by destruct (f parsed (clock w) (user w)) as [[[]|e] x].
Qed.

Lemma dispatch_handlers_reading {X} (self : MpesaCallbackHandler X) parsed
    (w : World X) :
  ByReference.dispatch_handlers (reading self) parsed w
  = dispatch_handlers self parsed w.
Proof.
  unfold ByReference.dispatch_handlers, dispatch_handlers, reading, bind, ret.
  simpl. rewrite dispatch_reading.
  destruct (dispatch OnCallback (on_callback self) parsed w) as [[[]|e] w1];
    simpl; [|done].
  destruct (is_success parsed); rewrite dispatch_reading.
  - by destruct (dispatch OnSuccess (on_success self) parsed w1) as [[[]|e] w2].
  - by destruct (dispatch OnFailure (on_failure self) parsed w1) as [[[]|e] w2].
Qed.

(** X27: for one callback the engine dispatches at most two handlers, in
    this order: the generic one on the object as parsed, then the handler
    for the outcome, chosen by the flag [is_success] that the object shows
    once the generic handler has run: the success handler if it is set, the
    failure handler if it is not, never both, and on that same object; the
    events are a prefix of that list, and the whole list when every handler
    returns. *)
Theorem X27_dispatch_order_and_exclusiveness {X} (self : ByReference.Handlers X)
    (parsed : ParsedCallbackData) (w : World X) :
  let parsed' := ByReference.after_on_callback self parsed w in
  events_since w (ByReference.dispatch_handlers self parsed w).2
    `prefix_of` ByReference.expected_dispatch self parsed parsed'
  ∧ ((ByReference.dispatch_handlers self parsed w).1 = Ok () →
     events_since w (ByReference.dispatch_handlers self parsed w).2
     = ByReference.expected_dispatch self parsed parsed').
Proof.
  unfold ByReference.dispatch_handlers, bind, ret,
    ByReference.expected_dispatch, ByReference.after_on_callback.
  pose proof (by_reference_dispatch_events OnCallback
                (ByReference.on_callback self) parsed w) as H1.
  pose proof (by_reference_dispatch_result OnCallback
                (ByReference.on_callback self) parsed w) as Hobj.
  destruct (ByReference.dispatch OnCallback (ByReference.on_callback self)
              parsed w) as [[obj|e] w1]; simpl in H1, Hobj |- *.
  - rewrite <- (Hobj obj eq_refl). destruct (is_success obj).
    + pose proof (by_reference_dispatch_events OnSuccess
                    (ByReference.on_success self) obj w1) as H2.
      rewrite H1, <- app_assoc in H2.
      destruct (ByReference.dispatch OnSuccess (ByReference.on_success self)
                  obj w1) as [[obj2|e] w2]; simpl in H2 |- *;
        rewrite (events_since_add _ _ _ H2); by split.
    + pose proof (by_reference_dispatch_events OnFailure
                    (ByReference.on_failure self) obj w1) as H2.
      rewrite H1, <- app_assoc in H2.
      destruct (ByReference.dispatch OnFailure (ByReference.on_failure self)
                  obj w1) as [[obj2|e] w2]; simpl in H2 |- *;
        rewrite (events_since_add _ _ _ H2); by split.
  - rewrite (events_since_add _ _ _ H1). split; [|done].
    by apply prefix_app_r.
Qed.

Lemma X27_dispatch_witness :
  events_since (world_at 0 0%nat)
    (ByReference.dispatch_handlers
       (ByReference.mkHandlers (Some counting_reader) (Some counting_reader)
          (Some marking_failed))
       (mkParsed (JStr "m") (JStr "c") (JInt 0) (JStr "ok")
          None None None None true None) (world_at 0 0%nat)).2
  = [EvHandler OnCallback
       (mkParsed (JStr "m") (JStr "c") (JInt 0) (JStr "ok")
          None None None None true None);
     EvHandler OnFailure
       (mkParsed (JStr "m") (JStr "c") (JInt 0) (JStr "ok")
          None None None None false None)].
Proof.
  apply (proj2 (X27_dispatch_order_and_exclusiveness
                  (ByReference.mkHandlers (Some counting_reader)
                     (Some counting_reader) (Some marking_failed))
                  (mkParsed (JStr "m") (JStr "c") (JInt 0) (JStr "ok")
                     None None None None true None) (world_at 0 0%nat))).
  reflexivity.
Defined.

(** ** The handler a client builds *)

(** X28: the handler a client builds from its [callbackOptions] runs none
    of the functions passed in them: the trust check is on with the built-in
    address list whatever the options say, [handleStkCallback] never changes
    the caller's state, and when the options are not empty every
    successful callback that passes the trust check is acknowledged with
    [ResultCode = 1], because the options dict itself sits in the place of
    the success handler. *)
Theorem X28_client_handler_runs_no_option {X} (B : Builtins)
    (callbackOptions : option (list (string * option_value X)))
    (callback : json) (ip : option string) (w : World X) :
  let self := client_callbackHandler callbackOptions in
  validate_ip self = true
  ∧ allowed_ips self = SAFARICOM_IPS
  ∧ user (handleStkCallback B self callback ip w).2 = user w
  ∧ (∀ item rest parsed,
       callbackOptions = Some (item :: rest) →
       match ip with
       | None => True
       | Some a => a = "" ∨ a ∈ SAFARICOM_IPS
       end →
       parse_callback B callback = Ok parsed →
       is_success parsed = true →
       (handleStkCallback B self callback ip w).1
       = Ok (mkResponse 1 "Internal Error")).
Proof.
  intros self. split; [done|]. split; [done|].
  assert (Hproc : user (process_callback B self callback w).2 = user w
            ∧ ∀ item rest parsed,
                callbackOptions = Some (item :: rest) →
                parse_callback B callback = Ok parsed →
                is_success parsed = true →
                ∃ e, (process_callback B self callback w).1 = Raise e).
  { unfold process_callback, bind, lift, log, ret.
    destruct (parse_callback B callback) as [parsed|e]; simpl; [|done].
    unfold dispatch_handlers, bind. simpl.
    destruct (is_success parsed) eqn:Hs.
    - destruct callbackOptions as [[|item rest]|]; simpl; split; try done.
      intros ? ? ? _ [= <-] _. by eexists.
    - destruct callbackOptions as [[|item rest]|]; simpl; split; try done;
        intros ? ? ? _ [= <-]; congruence. }
  destruct Hproc as [Huser Hfail].
  assert (Hsplit : handle_callback B self callback ip w
                   = process_callback B self callback w
                   ∨ ∃ e w', handle_callback B self callback ip w = (Raise e, w')
                             ∧ user w' = user w
                             ∧ match ip with
                               | Some a => a ≠ "" ∧ a ∉ SAFARICOM_IPS
                               | None => False
                               end).
  { destruct ip as [a|]; [|by left].
    destruct (decide (a = "")) as [->|Hne]; [by left|].
    destruct (validate_callback_ip self a) eqn:Hv.
    - left. apply handle_callback_trusted. by right.
    - right. rewrite handle_callback_untrusted by done.
      eexists _, _. split; [done|]. split; [done|]. split; [done|].
      unfold validate_callback_ip in Hv. simpl in Hv.
      by apply bool_decide_eq_false in Hv. }
  unfold handleStkCallback, try_except, bind, ret. split.
  - destruct Hsplit as [->|(e & w' & -> & Hu & _)]; [|done].
    by destruct (process_callback B self callback w) as [[[]|e] w'].
  - intros item rest parsed Hopt Hip Hparse Hs.
    destruct Hsplit as [->|(e & w' & _ & _ & Hbad)].
    + destruct (Hfail item rest parsed Hopt Hparse Hs) as [e He].
      destruct (process_callback B self callback w) as [[[]|e'] w']; by simpl in *.
    + destruct ip as [a|]; [|done]. destruct Hbad as [Hne Hnot].
      by destruct Hip.
Qed.

Lemma X28_client_handler_witness :
  (handleStkCallback sample_builtins
     (client_callbackHandler (Some [("onSuccess", OptHandler counting)]))
     stk_success_payload None (world_at 0 0%nat)).1
  = Ok (mkResponse 1 "Internal Error").
Proof.
  destruct (X28_client_handler_runs_no_option sample_builtins
              (Some [("onSuccess", OptHandler counting)])
              stk_success_payload None (world_at 0 0%nat))
    as (_ & _ & _ & H).
  eapply H; [reflexivity|exact I|vm_compute; reflexivity|reflexivity].
Defined.

(** ** C2B validation and B2C results *)

(** X29: [handleC2BValidation] always answers: with "Accepted" and code 0
    exactly when the payload parses and the validation handler is absent or
    answers true, with "Rejected" and code 1 exactly when the handler
    answers false, and with "Validation Failed" and code 1 when parsing or
    the handler raises. *)
Theorem X29_c2b_validation_answers {X} (B : Builtins)
    (on_c2b_validation : option (C2B.Parsed → Op X bool)) (callback : json)
    (w : World X) :
  ∃ resp w',
    handleC2BValidation B on_c2b_validation callback w = (Ok resp, w')
    ∧ (resp = mkResponse 0 "Accepted"
       ∨ resp = mkResponse 1 "Rejected"
       ∨ resp = mkResponse 1 "Validation Failed")
    ∧ (resp = mkResponse 0 "Accepted"
       ↔ ∃ parsed, parse_c2b_callback B callback = Ok parsed
                   ∧ (on_c2b_validation = None
                      ∨ ∃ f x, on_c2b_validation = Some f
                               ∧ f parsed (clock w) (user w) = (Ok true, x)))
    ∧ (resp = mkResponse 1 "Rejected"
       ↔ ∃ parsed f x, parse_c2b_callback B callback = Ok parsed
                       ∧ on_c2b_validation = Some f
                       ∧ f parsed (clock w) (user w) = (Ok false, x)).
Proof.
  unfold handleC2BValidation, handle_c2b_validation, try_except, bind, lift,
    log, call, ret.
  destruct (parse_c2b_callback B callback) as [parsed|e]; simpl.
  2:{ eexists _, _. split; [done|]. split; [by right; right|].
      split; (split; [done|]).
      - by intros (? & ? & ?).
      - by intros (? & ? & ? & ? & ?). }
  destruct on_c2b_validation as [f|]; simpl.
  - destruct (f parsed (clock w) (user w)) as [[[]|e] x] eqn:Hf; simpl;
      eexists _, _; (split; [done|]).
    + split; [by left|]. split; split; try done.
      * intros _. exists parsed. split; [done|]. right. by exists f, x.
      * intros (p & g & y & [= <-] & [= <-] & Hg). congruence.
    + split; [by right; left|]. split; split; try done.
      * intros (p & [= <-] & [?|(g & y & [= <-] & Hg)]); congruence.
      * intros _. by exists parsed, f, x.
    + split; [by right; right|]. split; split; try done.
      * intros (p & [= <-] & [?|(g & y & [= <-] & Hg)]); congruence.
      * intros (p & g & y & [= <-] & [= <-] & Hg). congruence.
  - eexists _, _. split; [done|]. split; [by left|]. split; split; try done.
    + intros _. exists parsed. by split; [|left].
    + by intros (? & ? & ? & ? & ? & ?).
Qed.

(** X30: [handleB2CCallback] always answers, and unlike the STK path its
    code tells the outcome: it is 0 exactly when the payload parses and
    either no result handler is registered and the result code was zero, or
    the handler is an [async] function that returns and the result object
    it was handed shows [is_success] set afterwards (the flag is read after
    the handler has run, so a handler can change the answer).  A handler
    written as a plain [def] runs, but the callback is then answered with
    "Processing Failed". *)
Theorem X30_b2c_answer_mirrors_outcome {X} (B : Builtins)
    (on_b2c_result : option (handler_kind * Op (X * B2C.Result) unit))
    (callback : json) (w : World X) :
  ∃ resp w',
    handleB2CCallback B on_b2c_result callback w = (Ok resp, w')
    ∧ (ResultCode resp = 0
       ↔ ∃ parsed,
           parse_b2c_callback B callback = Ok parsed
           ∧ (on_b2c_result = None ∧ B2C.is_success parsed = true
              ∨ ∃ f x parsed',
                  on_b2c_result = Some (AsyncHandler, f)
                  ∧ f (clock w) (user w, parsed) = (Ok (), (x, parsed'))
                  ∧ B2C.is_success parsed' = true))
    ∧ (∀ parsed f, parse_b2c_callback B callback = Ok parsed →
                   on_b2c_result = Some (SyncHandler, f) →
                   resp = mkResponse 1 "Processing Failed"
                   ∧ user w' = (f (clock w) (user w, parsed)).2.1).
Proof.
  unfold handleB2CCallback, try_except, bind, lift, log, ret.
  destruct (parse_b2c_callback B callback) as [parsed|e]; simpl.
  2:{ eexists _, _. split; [done|]. split; [|done].
      split; [done|]. by intros (? & ? & ?). }
  destruct on_b2c_result as [[[] f]|]; simpl; unfold bind, call_with; simpl.
  - destruct (f (clock w) (user w, parsed)) as [[[]|e] [x obj]] eqn:Hf; simpl;
      eexists _, _; (split; [done|]); split.
    + split; [done|].
      intros (p & [= <-] & [[? _]|(g & y & p' & ? & _)]); congruence.
    + intros p g [= <-] [= <-]. by rewrite Hf.
    + split; [done|].
      intros (p & [= <-] & [[? _]|(g & y & p' & ? & _)]); congruence.
    + intros p g [= <-] [= <-]. by rewrite Hf.
  - destruct (f (clock w) (user w, parsed)) as [[[]|e] [x obj]] eqn:Hf; simpl;
      eexists _, _; (split; [done|]); split; try (intros ? ? _ [=]).
    + unfold create_callback_response. destruct (B2C.is_success obj) eqn:Hs;
        simpl; split; try done.
      * intros _. exists parsed. split; [done|]. right. by exists f, x, obj.
      * intros (p & [= <-] & [[? _]|(g & y & p' & [= <-] & Hg & Hp')]);
          congruence.
    + split; [done|].
      intros (p & [= <-] & [[? _]|(g & y & p' & [= <-] & Hg & _)]); congruence.
  - eexists _, _. split; [done|]. split; [|done].
    unfold create_callback_response. destruct (B2C.is_success parsed) eqn:Hs;
      simpl; split; try done.
    + intros _. exists parsed. auto.
    + intros (p & [= <-] & [[_ ?]|(g & y & p' & ? & _)]); congruence.
Qed.

Lemma X30_b2c_plain_handler_witness :
  ∃ resp w',
    handleB2CCallback sample_builtins
      (Some (SyncHandler, λ _ xp, (Ok (), (S xp.1, xp.2))))
      (JObj [("Result", JObj [("ResultCode", JInt 0)])]) (world_at 0 0%nat)
    = (Ok resp, w')
    ∧ resp = mkResponse 1 "Processing Failed"
    ∧ user w' = 1%nat.
Proof.
  destruct (X30_b2c_answer_mirrors_outcome sample_builtins
              (Some (SyncHandler, λ _ xp, (Ok (), (S xp.1, xp.2))))
              (JObj [("Result", JObj [("ResultCode", JInt 0)])])
              (world_at 0 0%nat))
    as (resp & w' & Hrun & _ & Hsync).
  exists resp, w'. split; [exact Hrun|].
  exact (Hsync (B2C.mkResult true None None None None None) _
           eq_refl eq_refl).
Defined.

(** An [async] handler that clears the flag of a successful result turns
    the answer into a rejection. *)
Example handleB2CCallback_flag_cleared_by_handler :
  (handleB2CCallback sample_builtins
     (Some (AsyncHandler,
            λ _ xp, (Ok (), (S xp.1, B2C.mkResult false None None None None None))))
     (JObj [("Result", JObj [("ResultCode", JInt 0)])]) (world_at 0 0%nat)).1
  = Ok (mkResponse 1 "Rejected").
Proof. reflexivity. Qed.
